(** * dataframes-python: a shallow embedding of the three scripts

    - [datasetup.py]  flattens a bundle of store x product x time arrays
      into a long-format table;
    - [pandasuse.py]  one-hot encodes the weekday, aggregates to
      product-date grain and fits one regression per product (pandas);
    - [polarsuse.py]  the same pipeline written with polars.

    Integer columns are [Z]; a timestamp is the number of days since
    1970-01-01 (the scripts only ever use whole days); the floating-point
    columns live in an abstract type [num] whose addition is a parameter,
    and the regression estimator of statsmodels is a parameter as well. *)

From Stdlib Require Import String Ascii DecimalString.
From Stdlib Require DecimalZ DecimalPos.
From Stdlib Require Import List ZArith Arith Lia Bool.
From Stdlib Require Import Permutation Sorted.
Import ListNotations.

Set Implicit Arguments.

(** ** Small list toolkit *)

Notation "x <- e ;; k" :=
  (match e with Some x => k | None => None end)
  (at level 61, e at next level, right associativity).

Definition zip_with {A B C : Type} (f : A -> B -> C) (l1 : list A) (l2 : list B) : list C :=
  map (fun ab => f (fst ab) (snd ab)) (combine l1 l2).

Section Ordering.
Variable A : Type.
Variable leb : A -> A -> bool.
Variable eqb : A -> A -> bool.

(** Stable insertion sort. *)
Fixpoint insert (x : A) (l : list A) : list A :=
  match l with
  | [] => [x]
  | y :: l' => if leb x y then x :: l else y :: insert x l'
  end.

Fixpoint sort (l : list A) : list A :=
  match l with
  | [] => []
  | x :: l' => insert x (sort l')
  end.

(** Distinct values in order of first appearance. *)
Fixpoint unique (l : list A) : list A :=
  match l with
  | [] => []
  | x :: l' => x :: filter (fun y => negb (eqb x y)) (unique l')
  end.
End Ordering.

(** [sorted(l, key=...)]: every key is computed (an error of the key
    function is an error of the call), then the elements are put in
    increasing key order, elements of equal key staying in their order. *)
Fixpoint with_keys {A : Type} (key : A -> option Z) (l : list A) : option (list (Z * A)) :=
  match l with
  | [] => Some []
  | x :: l' => k <- key x ;; kl <- with_keys key l' ;; Some ((k, x) :: kl)
  end.

Definition sorted {A : Type} (key : A -> option Z) (l : list A) : option (list A) :=
  kl <- with_keys key l ;;
  Some (map snd (sort (fun a b => (fst a <=? fst b)%Z) kl)).

(** Python dictionaries: association lists in insertion order; assigning
    to an existing key keeps its position. *)
Section Dict.
Variables K V : Type.
Variable eqb : K -> K -> bool.

Definition dict : Type := list (K * V).

Fixpoint dict_get (d : dict) (k : K) : option V :=
  match d with
  | [] => None
  | (k', v) :: d' => if eqb k k' then Some v else dict_get d' k
  end.

Fixpoint dict_set (d : dict) (k : K) (v : V) : dict :=
  match d with
  | [] => [(k, v)]
  | (k', v') :: d' => if eqb k k' then (k', v) :: d' else (k', v') :: dict_set d' k v
  end.

(** [{**d, **items}] *)
Definition dict_update (d : dict) (items : list (K * V)) : dict :=
  fold_left (fun acc kv => dict_set acc (fst kv) (snd kv)) items d.

Definition keys (d : dict) : list K := map fst d.
End Dict.

(** ** numpy: n-dimensional arrays

    An array is its shape together with its contents, read through a
    multi-index.  [ndindex] enumerates the multi-indices of a shape in C
    (row-major) order, which is the order [ravel] visits them in. *)

Module Numpy.

Record ndarray (A : Type) : Type := mk_ndarray {
  shape : list nat;
  item : list nat -> A
}.

Definition size (sh : list nat) : nat := fold_right Nat.mul 1 sh.

Fixpoint ndindex (sh : list nat) : list (list nat) :=
  match sh with
  | [] => [[]]
  | n :: rest => flat_map (fun i => map (cons i) (ndindex rest)) (seq 0 n)
  end.

Definition ravel {A} (a : ndarray A) : list A :=
  map (item a) (ndindex (shape a)).

(** [np.arange(n)] *)
Definition arange (n : nat) : ndarray Z :=
  {| shape := [n]; item := fun idx => Z.of_nat (hd 0 idx) |}.

(** Position of a multi-index in the flattened array, and back. *)
Definition ravel_multi_index (sh idx : list nat) : nat :=
  fold_left (fun acc ni => acc * fst ni + snd ni) (combine sh idx) 0.

Fixpoint unravel_index (k : nat) (sh : list nat) : list nat :=
  match sh with
  | [] => []
  | _ :: rest => (k / size rest) :: unravel_index (k mod size rest) rest
  end.

(** [a.reshape(sh)]: same flattened contents under a new shape; an error
    when the element counts differ. *)
Definition reshape {A} (a : ndarray A) (sh : list nat) : option (ndarray A) :=
  if size (shape a) =? size sh
  then Some {| shape := sh;
               item := fun idx =>
                 item a (unravel_index (ravel_multi_index sh idx) (shape a)) |}
  else None.

(** Broadcasting: shapes are aligned on the right; an axis of the source
    must have the target's extent or extent 1, in which case it is read
    at position 0 whatever the target index is. *)
Definition broadcastable (from to : list nat) : bool :=
  (length from <=? length to) &&
  forallb (fun nm => (fst nm =? 1) || (fst nm =? snd nm))
          (combine from (skipn (length to - length from) to)).

Definition broadcast_index (from idx : list nat) : list nat :=
  zip_with (fun n i => if n =? 1 then 0 else i)
           from (skipn (length idx - length from) idx).

Definition broadcast_to {A} (a : ndarray A) (sh : list nat) : option (ndarray A) :=
  if broadcastable (shape a) sh
  then Some {| shape := sh;
               item := fun idx => item a (broadcast_index (shape a) idx) |}
  else None.

End Numpy.

(** ** Calendar

    [days_from_civil y m d] is the day number of a proleptic Gregorian
    date counted from 1970-01-01, i.e. what a [datetime64] holds at day
    resolution. *)

Module Calendar.

Local Open Scope Z_scope.

Definition days_from_civil (y m d : Z) : Z :=
  let y' := if m <=? 2 then y - 1 else y in
  let era := y' / 400 in
  let yoe := y' - era * 400 in
  let mp := (m + 9) mod 12 in
  let doy := (153 * mp + 2) / 5 + d - 1 in
  let doe := yoe * 365 + yoe / 4 - yoe / 100 + doy in
  era * 146097 + doe - 719468.

(** [Series.dt.dayofweek]: Monday is 0, Sunday is 6 (1970-01-01 was a
    Thursday). *)
Definition dayofweek (date : Z) : Z := (date + 3) mod 7.

(** [Expr.dt.weekday] of polars: ISO numbering, Monday is 1, Sunday is 7. *)
Definition weekday (date : Z) : Z := dayofweek date + 1.

End Calendar.

(** ** datasetup.py *)

Module Datasetup.
Import Numpy.

Section WithNum.
Variable num : Type.

(** One row of the long-format table. *)
Record row : Type := mk_row {
  store_id : Z;
  product_id : Z;
  date : Z;
  synth_sales_data : num;
  fitted_line : num
}.

(** The arrays of the [.npz] bundle, by name. *)
Record npz : Type := mk_npz {
  npz_dates : ndarray Z;
  npz_synth_sales_data : ndarray num;
  npz_fitted_line : ndarray num
}.

(** [pd.Timestamp("2025-06-01")] *)
Definition start_date : Z := Calendar.days_from_civil 2025 6 1.

(** [pd.DataFrame({...})] over five one-dimensional columns: an error
    unless all columns have the same length. *)
Definition DataFrame (store_col product_col date_col : list Z)
           (sales_flat fitted_flat : list num) : option (list row) :=
  let n := length store_col in
  if (length product_col =? n) && (length date_col =? n)
     && (length sales_flat =? n) && (length fitted_flat =? n)
  then Some (map (fun t =>
               mk_row (fst t) (fst (snd t)) (fst (snd (snd t)))
                      (fst (snd (snd (snd t)))) (snd (snd (snd (snd t)))))
             (combine store_col (combine product_col (combine date_col
               (combine sales_flat fitted_flat)))))
  else None.

(** The script, from the loaded bundle to the frame written as CSV.
    [S, P, N = synth_sales_data.shape] fails unless the array is 3-D. *)
Definition datasetup (data : npz) : option (list row) :=
  let dates := npz_dates data in
  let synth_sales_data := npz_synth_sales_data data in
  let fitted_line := npz_fitted_line data in
  match shape synth_sales_data with
  | [S_; P_; N_] =>
      store_ids <- reshape (arange S_) [S_; 1; 1] ;;
      product_ids <- reshape (arange P_) [1; P_; 1] ;;
      date_ids <- reshape (arange N_) [1; 1; N_] ;;
      store_bc <- broadcast_to store_ids (shape synth_sales_data) ;;
      product_bc <- broadcast_to product_ids (shape synth_sales_data) ;;
      date_bc <- broadcast_to date_ids (shape synth_sales_data) ;;
      let store_col := ravel store_bc in
      let product_col := ravel product_bc in
      let date_col := ravel date_bc in
      let sales_flat := ravel synth_sales_data in
      let fitted_flat := ravel fitted_line in
      let date_strings := map (fun i => start_date + i)%Z date_col in
      DataFrame store_col product_col date_strings sales_flat fitted_flat
  | _ => None
  end.

(** The row the table holds for the multi-index [i] of the arrays. *)
Definition row_at (synth fitted : ndarray num) (i : list nat) : row :=
  mk_row (Z.of_nat (nth 0 i 0)) (Z.of_nat (nth 1 i 0))
         (start_date + Z.of_nat (nth 2 i 0)) (item synth i) (item fitted i).


(** Reading the arrays back from the long-format table, in the words of
    the round-trip property: rows are grouped by store_id and product_id,
    and each group is ordered by date.  The result is the nested-list
    view ([tolist]) of a 3-D array. *)
Definition date_leb (a b : row) : bool := (date a <=? date b)%Z.

Definition series_of (value : row -> num) (table : list row) (s p : Z) : list num :=
  map value
      (sort date_leb
            (filter (fun r => (store_id r =? s)%Z && (product_id r =? p)%Z) table)).

Definition reconstruct (value : row -> num) (table : list row) : list (list (list num)) :=
  let stores := sort Z.leb (unique Z.eqb (map store_id table)) in
  let products := sort Z.leb (unique Z.eqb (map product_id table)) in
  map (fun s => map (fun p => series_of value table s p) products) stores.

(** [a.tolist()] of a 3-D array. *)
Definition tolist3 (a : ndarray num) : list (list (list num)) :=
  match shape a with
  | [S_; P_; N_] =>
      map (fun s => map (fun p => map (fun t => item a [s; p; t]) (seq 0 N_))
                        (seq 0 P_))
          (seq 0 S_)
  | _ => []
  end.

End WithNum.
End Datasetup.

(** ** The analysis pipelines: what pandasuse.py and polarsuse.py share *)

Module Pipeline.

Definition str (z : Z) : string := DecimalString.NilZero.string_of_int (Z.to_int z).

Definition key_eqb (a b : Z * Z) : bool :=
  (fst a =? fst b)%Z && (snd a =? snd b)%Z.

(** Lexicographic order on (product_id, date). *)
Definition key_leb (a b : Z * Z) : bool :=
  (fst a <? fst b)%Z || ((fst a =? fst b)%Z && (snd a <=? snd b)%Z).

Definition name_leb (a b : string * string) : bool := String.leb (fst a) (fst b).

(** Value of a one-hot column in a row. *)
Definition getcol (c : string) (d : dict string Z) : Z :=
  match dict_get String.eqb d c with Some v => v | None => 0%Z end.

Definition first (l : list Z) : Z := hd 0%Z l.

Definition base_columns : list string :=
  ["store_id"; "product_id"; "date"; "sales"; "fitted_line"]%string.

(** [[col for col in df.columns if col.startswith("dow_")]] *)
Definition startswith_dow (columns : list string) : list string :=
  filter (String.prefix "dow_") columns.

(** [add_constant] of statsmodels with its default [has_constant="skip"]:
    a column of ones is prepended unless some column is already constant
    and non-zero, in which case the data is returned as it is. *)
Definition column (j : nat) (X : list (list Z)) : list Z :=
  map (fun r => nth j r 0%Z) X.

Definition is_constant (c : list Z) : bool :=
  forallb (fun v => (v =? hd 0%Z c)%Z) c.

Definition is_nonzero_const (c : list Z) : bool :=
  is_constant c && forallb (fun v => negb (v =? 0)%Z) c.

Definition has_constant (k : nat) (X : list (list Z)) : bool :=
  existsb (fun j => is_nonzero_const (column j X)) (seq 0 k).

Definition add_constant (k : nat) (X : list (list Z)) : list (list Z) :=
  if has_constant k X then X else map (cons 1%Z) X.

(** Names statsmodels gives the columns of a bare array: [x1, x2, ...],
    with [const] at the first column of zero variance, if there is one. *)
Fixpoint find_index {A} (f : A -> bool) (l : list A) : option nat :=
  match l with
  | [] => None
  | x :: l' => if f x then Some 0 else option_map S (find_index f l')
  end.

Definition xnames (from n : nat) : list string :=
  map (fun i => ("x" ++ str (Z.of_nat i))%string) (seq from n).

Definition make_exog_names (k : nat) (X : list (list Z)) : list string :=
  match find_index (fun j => is_constant (column j X)) (seq 0 k) with
  | Some const_idx =>
      let names := xnames 1 (k - 1) in
      firstn const_idx names ++ ["const"%string] ++ skipn const_idx names
  | None => xnames 1 k
  end.

(** Name of the one-hot column of level [l], and the sum of a row of
    indicator values. *)
Definition dow_name (l : Z) : string := ("dow" ++ "_" ++ str l)%string.

Definition total (l : list Z) : Z := fold_right Z.add 0%Z l.

(** Names of the regression parameters: [const] and the one-hot columns
    in pandasuse.py, [const] and [x1, x2, ...] in polarsuse.py; [p_] is
    the name a p-value is stored under. *)
Definition param_name (n : string) : Prop :=
  n = "const"%string \/ exists l, n = dow_name l.

Definition x_name (n : string) : Prop :=
  n = "const"%string \/ exists i, n = ("x" ++ i)%string.

Definition p_ (k : string) : string := ("p_" ++ k)%string.

(** The one-hot cells of a value [v] over the levels [ls]. *)
Definition indicator (v l : Z) : Z := if (v =? l)%Z then 1%Z else 0%Z.

Definition encode (ls : list Z) (v : Z) : dict string Z :=
  map (fun l => (dow_name l, indicator v l)) ls.

(** The values a row holds under the listed columns. *)
Definition indicators (dow_columns : list string) (d : dict string Z) : list Z :=
  map (fun c => getcol c d) dow_columns.

(** What it means for the indicator values [vals] of a row whose weekday
    is [v] to be one-hot with [baseline] left out: every value is 0 or 1,
    no two of them are 1, they add up to at most 1, to exactly 1 unless
    the weekday is the baseline, and to 1 together with the indicator of
    the baseline. *)
Definition one_hot_row (vals : list Z) (v baseline : Z) : Prop :=
  Forall (fun x => x = 0 \/ x = 1)%Z vals /\
  (forall i j, nth_error vals i = Some 1%Z -> nth_error vals j = Some 1%Z -> i = j) /\
  (total vals <= 1)%Z /\
  (total vals = 1%Z <-> v <> baseline) /\
  (total vals + (if (v =? baseline)%Z then 1 else 0) = 1)%Z.

(** Distinct values of an integer column, in increasing order. *)
Definition levels (data : list Z) : list Z := sort Z.leb (unique Z.eqb data).

Section WithNum.
Variable num : Type.
Variable zero : num.
Variable add : num -> num -> num.

(** The regression estimator: coefficient and p-value of column [j] for a
    list of observations (regressor row, response). *)
Variable ols_params : list (list Z * num) -> nat -> num.
Variable ols_pvalues : list (list Z * num) -> nat -> num.

(** Order in which polars's hash-based [group_by] emits its groups. *)
Variable hash : Z * Z -> Z.

Definition hash_leb (a b : Z * Z) : bool := (hash a <=? hash b)%Z.

Definition input_row : Type := Datasetup.row num.

(** A row of a frame carrying one-hot columns next to the input columns.
    A one-hot cell is 0 or 1 (a float in pandas, an unsigned byte in
    polars). *)
Record frow : Type := mk_frow {
  base : input_row;
  onehot : dict string Z
}.

Record frame : Type := mk_frame {
  columns : list string;
  rows : list frow
}.

(** A row at product-date grain. *)
Record prow : Type := mk_prow {
  product_id : Z;
  date : Z;
  sales : num;
  dows : dict string Z
}.

Definition key_of (r : prow) : Z * Z := (product_id r, date r).

(** The columns a group-by on (product_id, date) reads from a frame. *)
Definition to_prow (r : frow) : prow :=
  {| product_id := Datasetup.product_id (base r);
     date := Datasetup.date (base r);
     sales := Datasetup.synth_sales_data (base r);
     dows := onehot r |}.

(** The product-date view of an input row whose one-hot cells are [enc]
    of its date. *)
Definition product_view (enc : Z -> dict string Z) (r : input_row) : prow :=
  {| product_id := Datasetup.product_id r;
     date := Datasetup.date r;
     sales := Datasetup.synth_sales_data r;
     dows := enc (Datasetup.date r) |}.

Definition sum (l : list num) : num := fold_left add l zero.

(** One output row of the aggregation: the key, the sum of sales and the
    first value of every listed one-hot column within the group. *)
Definition agg_group (dow_columns : list string) (t : list prow) (k : Z * Z) : prow :=
  let group := filter (fun r => key_eqb (key_of r) k) t in
  {| product_id := fst k;
     date := snd k;
     sales := sum (map sales group);
     dows := map (fun c => (c, first (map (fun r => getcol c (dows r)) group)))
                 dow_columns |}.

(** [adds_up_to l s]: the values [l] add up to [s].  No value adds up to
    [zero]; a further value is added to what the values before it add up
    to. *)
Inductive adds_up_to : list num -> num -> Prop :=
| adds_up_nil : adds_up_to [] zero
| adds_up_snoc (l : list num) (s x : num) :
    adds_up_to l s -> adds_up_to (l ++ [x]) (add s x).

(** [agg] is the aggregation of [t] to product-date grain: one row per
    distinct key of [t], whose sales are what the sales of the rows of
    [t] with that key add up to, and whose indicator values are those
    every row of the group has. *)
Definition aggregated (cols : list string) (t agg : list prow) : Prop :=
  NoDup (map key_of agg) /\
  (forall k, In k (map key_of agg) <-> In k (map key_of t)) /\
  (forall a, In a agg ->
     adds_up_to (map sales (filter (fun r => key_eqb (key_of r) (key_of a)) t))
                (sales a) /\
     forall r, In r t -> key_of r = key_of a ->
       indicators cols (dows a) = indicators cols (dows r)).

(** A table at product-date grain whose one-hot columns are [cols]. *)
Definition product_date_grain (cols : list string) (t : list prow) : Prop :=
  NoDup (map key_of t) /\ forall r, In r t -> keys (dows r) = cols.

(** Fitted model: what the scripts read from a statsmodels result, and
    the arrays [model.exog] and [model.endog] it was fitted on. *)
Record RegressionResults : Type := mk_results {
  exog_names : list string;
  exog : list (list Z);
  endog : list num;
  params : list num;
  pvalues : list num
}.

Definition OLS_fit (names : list string) (y : list num) (X : list (list Z)) : RegressionResults :=
  let obs := combine X y in
  {| exog_names := names;
     exog := X;
     endog := y;
     params := map (ols_params obs) (seq 0 (List.length names));
     pvalues := map (ols_pvalues obs) (seq 0 (List.length names)) |}.

(** The observations of a fitted model, one (regressor row, response)
    pair per row. *)
Definition observed (model : RegressionResults) : list (list Z * num) :=
  combine (exog model) (endog model).

(** The estimator does not depend on the order of the observations (as
    least squares in exact arithmetic does not). *)
Definition order_independent : Prop :=
  forall obs obs', Permutation obs obs' -> forall j, ols_params obs j = ols_params obs' j.

Definition design (dow_columns : list string) (group : list prow) : list (list Z) :=
  map (fun r => indicators dow_columns (dows r)) group.

(** [sm.add_constant] on a data frame also names the new column. *)
Definition add_constant_named (names : list string) (X : list (list Z))
  : list string * list (list Z) :=
  let k := List.length names in
  (if has_constant k X then names else "const"%string :: names, add_constant k X).

(** [df.drop(c)]: an error when the frame has no column [c]. *)
Definition drop (c : string) (f : frame) : option frame :=
  if existsb (String.eqb c) (columns f)
  then Some {| columns := filter (fun n => negb (String.eqb c n)) (columns f);
               rows := map (fun r =>
                 {| base := base r;
                    onehot := filter (fun kv => negb (String.eqb c (fst kv))) (onehot r) |})
                 (rows f) |}
  else None.

(** A cell of the coefficient table. *)
Inductive cell : Type :=
| IntCell (z : Z)
| NumCell (x : num).

Definition coef_row : Type := dict string cell.

(** The product a row of the coefficient table belongs to. *)
Definition row_product (row : coef_row) : option cell :=
  dict_get String.eqb row "product_id"%string.

Definition id_cell (p : Z) : option cell := Some (IntCell p).

(** The row holds every p-value of the model in some column. *)
Definition holds_pvalues (row : coef_row) (model : RegressionResults) : Prop :=
  Forall (fun pv => In (NumCell pv) (map snd row)) (pvalues model).

(** Columns of a frame built from a list of records: the union of their
    keys, in order of first appearance. *)
Definition coef_columns (coef_df : list coef_row) : list string :=
  unique String.eqb (concat (map (@keys string cell) coef_df)).

End WithNum.
End Pipeline.

(** ** pandasuse.py *)

Module Pandasuse.
Import Pipeline.

Section Script.
Variable num : Type.
Variable zero : num.
Variable add : num -> num -> num.
Variable ols_params : list (list Z * num) -> nat -> num.
Variable ols_pvalues : list (list Z * num) -> nat -> num.

(** [pd.get_dummies(data, prefix=prefix, drop_first=drop_first).astype(float)]:
    one column per level present in the data, levels in increasing order,
    the first of them left out when [drop_first] is set. *)
Definition get_dummies (data : list Z) (prefix : string) (drop_first : bool)
  : list string * list (dict string Z) :=
  let kept := if drop_first then tl (levels data) else levels data in
  let name := fun l => (prefix ++ "_" ++ str l)%string in
  (map name kept,
   map (fun v => map (fun l => (name l, if (v =? l)%Z then 1%Z else 0%Z)) kept) data).

(** [df["date"].dt.dayofweek] *)
Definition day_of_week (table : list (input_row num)) : list Z :=
  map (fun r => Calendar.dayofweek (Datasetup.date r)) table.

(** Lines 37-51: the frame with its one-hot weekday columns.  The helper
    column [day_of_week] is added and dropped again. *)
Definition df (table : list (input_row num)) : frame num :=
  let days_of_week := get_dummies (day_of_week table) "dow" true in
  {| columns := filter (fun n => negb (String.eqb "day_of_week" n))
                  (base_columns ++ ["day_of_week"%string] ++ fst days_of_week);
     rows := zip_with (@mk_frow num) table (snd days_of_week) |}.

Definition dow_columns (table : list (input_row num)) : list string :=
  startswith_dow (columns (df table)).

(** The weekday [drop_first] leaves out, and the weekdays that keep a
    column. *)
Definition baseline (table : list (input_row num)) : Z :=
  hd 0%Z (levels (day_of_week table)).

Definition retained (table : list (input_row num)) : list Z :=
  tl (levels (day_of_week table)).

(** [groupby(["product_id", "date"]).agg(...).reset_index()]: groups come
    out sorted by key. *)
Definition groupby_agg (cols : list string) (t : list (prow num)) : list (prow num) :=
  map (agg_group zero add cols t) (sort key_leb (unique key_eqb (map (@key_of num) t))).

Definition product_df (table : list (input_row num)) : list (prow num) :=
  groupby_agg (dow_columns table) (map (@to_prow num) (rows (df table))).

(** One turn of the loop over [product_df.groupby("product_id")]. *)
Definition fit_product (cols : list string) (pdf : list (prow num)) (product : Z)
  : RegressionResults num :=
  let group := filter (fun r => (product_id r =? product)%Z) pdf in
  let X := add_constant_named cols (design cols group) in
  let y := map (@sales num) group in
  OLS_fit ols_params ols_pvalues (fst X) y (snd X).

Definition results (table : list (input_row num)) : dict Z (RegressionResults num) :=
  let pdf := product_df table in
  fold_left (fun results product =>
               dict_set Z.eqb results product (fit_product (dow_columns table) pdf product))
            (sort Z.leb (unique Z.eqb (map (@product_id num) pdf))) [].

(** The record built for one product: the id, the coefficients under
    their names and the p-values under [p_<name>]. *)
Definition coef_record (product : Z) (model : RegressionResults num) : coef_row num :=
  dict_update String.eqb
    (dict_update String.eqb
       [("product_id"%string, IntCell num product)]
       (combine (exog_names model) (map (@NumCell num) (params model))))
    (combine (map p_ (exog_names model))
             (map (@NumCell num) (pvalues model))).

Definition coef_df (table : list (input_row num)) : list (coef_row num) :=
  map (fun pm => coef_record (fst pm) (snd pm)) (results table).

(** Line 118: the columns the box plot is drawn for,
    [[col for col in coef_df.columns if col.startswith("dow_")]]. *)
Definition boxplot_columns (table : list (input_row num)) : list string :=
  startswith_dow (coef_columns (coef_df table)).

End Script.
End Pandasuse.

(** ** polarsuse.py *)

Module Polarsuse.
Import Pipeline.

Section Script.
Variable num : Type.
Variable zero : num.
Variable add : num -> num -> num.
Variable ols_params : list (list Z * num) -> nat -> num.
Variable ols_pvalues : list (list Z * num) -> nat -> num.
Variable hash : Z * Z -> Z.

(** [df.select(name).to_dummies()] on a string column: one column
    [name_value] per distinct value, the columns sorted by name. *)
Definition to_dummies (name : string) (data : list string)
  : list string * list (dict string Z) :=
  let cols := sort name_leb
                (map (fun v => ((name ++ "_" ++ v)%string, v)) (unique String.eqb data)) in
  (map fst cols,
   map (fun v => map (fun c => (fst c, if String.eqb v (snd c) then 1%Z else 0%Z)) cols) data).

(** [pl.col("date").dt.weekday()] *)
Definition weekdays (table : list (input_row num)) : list Z :=
  map (fun r => Calendar.weekday (Datasetup.date r)) table.

(** Lines 36-55, on a table with parsed dates.  Dropping [dow_1] fails
    when no date is a Monday.  (A file without rows is not such a table:
    its date column is read as strings and the script stops at line 36;
    here the empty table ends in [None] as well.) *)
Definition df (table : list (input_row num)) : option (frame num) :=
  let dow := map str (weekdays table) in
  let days_of_week := to_dummies "dow" dow in
  let hstacked :=
    {| columns := base_columns ++ ["dow"%string] ++ fst days_of_week;
       rows := zip_with (@mk_frow num) table (snd days_of_week) |} in
  f <- drop "dow" hstacked ;;
  drop "dow_1" f.

Definition dow_columns (f : frame num) : list string := startswith_dow (columns f).

(** The weekday whose column is dropped (Monday), and the weekdays that
    keep a column. *)
Definition baseline : Z := 1%Z.

Definition retained (table : list (input_row num)) : list Z :=
  filter (fun l => negb (baseline =? l)%Z) (levels (weekdays table)).

(** [group_by(["product_id", "date"]).agg([...])]: groups come out in the
    order of the hash table. *)
Definition group_by_agg (cols : list string) (t : list (prow num)) : list (prow num) :=
  map (agg_group zero add cols t)
      (sort (hash_leb hash) (unique key_eqb (map (@key_of num) t))).

Definition product_df (f : frame num) : list (prow num) :=
  group_by_agg (dow_columns f) (map (@to_prow num) (rows f)).

(** [partition_by("product_id")]: one frame per product, in order of
    first appearance. *)
Definition partition_by (pdf : list (prow num)) : list (list (prow num)) :=
  map (fun p => filter (fun r => (product_id r =? p)%Z) pdf)
      (unique Z.eqb (map (@product_id num) pdf)).

(** [product.select(dow_columns).to_numpy()]: selecting no column at all
    gives a frame without rows, hence an array of shape (0, 0). *)
Definition select_to_numpy (cols : list string) (product : list (prow num))
  : list (list Z) :=
  match cols with
  | [] => []
  | _ => design cols product
  end.

(** Lines 88-94 on an array [X0] of [k] columns that has rows: the
    column of ones, the names statsmodels gives the columns, the fit. *)
Definition fit_array (k : nat) (X0 : list (list Z)) (y : list num)
  : RegressionResults num :=
  let X := add_constant k X0 in
  let k' := if has_constant k X0 then k else S k in
  OLS_fit ols_params ols_pvalues (make_exog_names k' X) y X.

(** One turn of the loop over the partitions.  On an array without rows
    [sm.add_constant] raises a ValueError (numpy's [ptp] along an empty
    axis), which ends the script. *)
Definition fit_product (cols : list string) (product : list (prow num))
  : option (RegressionResults num) :=
  match select_to_numpy cols product with
  | [] => None
  | X0 => Some (fit_array (List.length cols) X0 (map (@sales num) product))
  end.

(** The model [fit_product] returns for a frame [product] that has rows,
    over at least one column. *)
Definition fitted (cols : list string) (product : list (prow num))
  : RegressionResults num :=
  fit_array (List.length cols) (design cols product) (map (@sales num) product).

(** The loop of lines 82-97: an error in one turn is an error of the
    script. *)
Definition results (f : frame num) : option (dict Z (RegressionResults num)) :=
  fold_left (fun results product =>
               results <- results ;;
               model <- fit_product (dow_columns f) product ;;
               Some (dict_set Z.eqb results
                       (match product with r :: _ => product_id r | [] => 0%Z end)
                       model))
            (partition_by (product_df f)) (Some []).

(** [pd.Series(model.params, index=param_names)], then
    [row["product_id"] = product_id]. *)
Definition param_row (product : Z) (model : RegressionResults num) : coef_row num :=
  dict_set String.eqb
    (combine (exog_names model) (map (@NumCell num) (params model)))
    "product_id"%string (IntCell num product).

Definition coef_df (f : frame num) : option (list (coef_row num)) :=
  results <- results f ;;
  Some (map (fun pm => param_row (fst pm) (snd pm)) results).

(** The script up to the coefficient table. *)
Definition run (table : list (input_row num)) : option (list (coef_row num)) :=
  f <- df table ;; coef_df f.

(** [int(x[1:])]: the number written after the first character of a
    column name.  A decimal numeral with an optional minus sign is read
    as Python reads it; the other spellings Python accepts (a plus sign,
    blanks, underscores) never reach this call and are treated as
    errors, like every other string. *)
Definition from_1 (x : string) : string :=
  match x with
  | EmptyString => EmptyString
  | String _ s => s
  end.

Definition int (s : string) : option Z :=
  option_map Z.of_int (DecimalString.NilZero.int_of_string s).

(** Lines 131-138: the columns of the coefficient table that start with
    [x], sorted by the number after the [x]. *)
Definition weekday_cols (coef_df : list (coef_row num)) : option (list string) :=
  sorted (fun x => int (from_1 x))
         (filter (String.prefix "x") (coef_columns coef_df)).

(** Lines 147-152, [coef_df.melt(id_vars="product_id", value_vars=...)]:
    one row per value column and row of the table, column by column,
    holding the row's product_id, the column name and the row's cell in
    that column (missing when the row has no such cell). *)
Definition melt (coef_df : list (coef_row num)) (value_vars : list string)
  : list (option (cell num) * string * option (cell num)) :=
  flat_map (fun v => map (fun r => (row_product r, v, dict_get String.eqb r v)) coef_df)
           value_vars.

Definition melted (coef_df : list (coef_row num))
  : option (list (option (cell num) * string * option (cell num))) :=
  cols <- weekday_cols coef_df ;; Some (melt coef_df cols).

End Script.
End Polarsuse.

(** ** The two variants side by side *)

Module Variants.
Import Pipeline.

Section WithNum.
Variable num : Type.
Variable zero : num.
Variable add : num -> num -> num.
Variable ols_params : list (list Z * num) -> nat -> num.
Variable ols_pvalues : list (list Z * num) -> nat -> num.
Variable hash : Z * Z -> Z.

(** The distinct (product_id, date) pairs of a table, the total sales of
    one of them over the stores, and the six indicators Tuesday to Sunday
    of a date. *)
Definition product_dates (table : list (input_row num)) : list (Z * Z) :=
  unique key_eqb (map (fun r => (Datasetup.product_id r, Datasetup.date r)) table).

Definition total_sales (table : list (input_row num)) (k : Z * Z) : num :=
  sum zero add
      (map (@Datasetup.synth_sales_data num)
           (filter (fun r => key_eqb (Datasetup.product_id r, Datasetup.date r) k) table)).

Definition weekday_vector (k : Z * Z) : list Z :=
  map (indicator (Calendar.dayofweek (snd k))) [1; 2; 3; 4; 5; 6]%Z.

(** The observations a product's regression is fitted on when its
    product-date rows are taken in the order [ks], and the parameters
    estimated from them. *)
Definition observations (table : list (input_row num)) (ks : list (Z * Z)) (p : Z)
  : list (list Z * num) :=
  let L := filter (fun k => (fst k =? p)%Z) ks in
  combine (add_constant 6 (map weekday_vector L)) (map (total_sales table) L).

Definition estimates (table : list (input_row num)) (ks : list (Z * Z)) (p : Z)
  : list num :=
  let L := filter (fun k => (fst k =? p)%Z) ks in
  map (ols_params (observations table ks p))
      (seq 0 (if has_constant 6 (map weekday_vector L) then 6 else 7)).

(** Every weekday occurs among the dates of the table. *)
Definition covers_week (table : list (input_row num)) : Prop :=
  forall w, (0 <= w < 7)%Z -> In w (Pandasuse.day_of_week table).

(** Both scripts reach their fitted models and agree on them: Monday is
    the baseline of both, each has the six columns Tuesday to Sunday
    (named by pandas' and by ISO weekday numbers), the same products are
    fitted, and the two models of a product are fitted on the same
    observations up to the order of the rows, with the same number of
    parameters; the parameter vectors are equal whenever the estimator
    does not depend on the order of the observations. *)
Definition same_output (table : list (input_row num)) : Prop :=
  exists f results_b,
    Polarsuse.df table = Some f /\
    Polarsuse.results zero add ols_params ols_pvalues hash f = Some results_b /\
    Pandasuse.baseline table = 0%Z /\
    Pandasuse.dow_columns table = map dow_name [1; 2; 3; 4; 5; 6]%Z /\
    Polarsuse.dow_columns f = map dow_name [2; 3; 4; 5; 6; 7]%Z /\
    NoDup (keys (Pandasuse.results zero add ols_params ols_pvalues table)) /\
    Permutation (keys (Pandasuse.results zero add ols_params ols_pvalues table))
                (keys results_b) /\
    forall p ma mb,
      In (p, ma) (Pandasuse.results zero add ols_params ols_pvalues table) ->
      In (p, mb) results_b ->
      Permutation (observed ma) (observed mb) /\
      List.length (exog_names ma) = List.length (exog_names mb) /\
      (order_independent ols_params -> params ma = params mb).

End WithNum.
End Variants.

(** ** Concrete inputs used to exercise the model *)

Module Examples.
Import Numpy.

Definition arr3 (sh : list nat) (f : nat -> nat -> nat -> Z) : ndarray Z :=
  {| shape := sh; item := fun idx => f (nth 0 idx 0) (nth 1 idx 0) (nth 2 idx 0) |}.

(** Two stores, two products, three days. *)
Definition bundle : Datasetup.npz Z :=
  Datasetup.mk_npz (arange 3)
    (arr3 [2; 2; 3] (fun s p t => Z.of_nat (100 * s + 10 * p + t)))
    (arr3 [2; 2; 3] (fun s p t => Z.of_nat (1000 + 100 * s + 10 * p + t))).

(** The same bundle with another [dates] array. *)
Definition bundle_other_dates : Datasetup.npz Z :=
  Datasetup.mk_npz (arr3 [7; 7] (fun _ _ _ => 42%Z))
    (Datasetup.npz_synth_sales_data bundle) (Datasetup.npz_fitted_line bundle).


(** One store, one product, no time step. *)
Definition bundle_no_days : Datasetup.npz Z :=
  Datasetup.mk_npz (arr3 [1; 1; 0] (fun _ _ _ => 0%Z))
    (arr3 [1; 1; 0] (fun _ _ _ => 0%Z)) (arr3 [1; 1; 0] (fun _ _ _ => 0%Z)).

(** The long-format table of [bundle]: Sunday 2025-06-01 to Tuesday. *)
Definition table : list (Datasetup.row Z) :=
  match Datasetup.datasetup bundle with Some t => t | None => [] end.

(** Instances of the parameters: integer sales, an estimator that returns
    the moments [sum x_j * y], constant p-values, and a hash that
    reverses the key order. *)
Definition ols_moments (obs : list (list Z * Z)) (j : nat) : Z :=
  fold_left Z.add (map (fun o => nth j (fst o) 0 * snd o)%Z obs) 0%Z.

Definition ols_ones (obs : list (list Z * Z)) (j : nat) : Z := 1%Z.

Definition ols_zeros (obs : list (list Z * Z)) (j : nat) : Z := 0%Z.

Definition reverse_hash (k : Z * Z) : Z := (- fst k - snd k)%Z.

Definition sum_hash (k : Z * Z) : Z := (fst k + snd k)%Z.

(** Two stores, two products, fourteen days from Sunday 2025-06-01. *)
Definition fortnight : Datasetup.npz Z :=
  Datasetup.mk_npz (arange 14)
    (arr3 [2; 2; 14] (fun s p t => Z.of_nat (100 * s + 10 * p + t)))
    (arr3 [2; 2; 14] (fun s p t => Z.of_nat (1000 + 100 * s + 10 * p + t))).

Definition fortnight_table : list (Datasetup.row Z) :=
  match Datasetup.datasetup fortnight with Some t => t | None => [] end.

(** A single observation, on Tuesday 2025-06-03. *)
Definition tuesday_table : list (Datasetup.row Z) :=
  [Datasetup.mk_row 0 0 20242 5 5]%Z.

(** A single observation, on Monday 2025-06-02. *)
Definition monday_table : list (Datasetup.row Z) :=
  [Datasetup.mk_row 0 0 20241 5 5]%Z.

(** Product 0 on Sunday, Monday and Tuesday; product 1 on Monday only. *)
Definition sparse_table : list (Datasetup.row Z) :=
  [Datasetup.mk_row 0 0 20240 5 5; Datasetup.mk_row 0 0 20241 7 7;
   Datasetup.mk_row 0 0 20242 6 6; Datasetup.mk_row 0 1 20241 9 9]%Z.

End Examples.

(** * Properties *)

(** ** Lists *)

Section ListFacts.
Variables A B C : Type.

Lemma nth_error_flat_map_uniform (f : nat -> list B) (m : nat) :
  (forall x, List.length (f x) = m) ->
  forall n a i j, i < n -> j < m ->
  nth_error (flat_map f (seq a n)) (i * m + j) = nth_error (f (a + i)) j.
Proof.
  intros Hlen n. induction n as [|n IH]; intros a i j Hi Hj; [lia|].
  simpl. destruct i as [|i].
  - simpl. rewrite nth_error_app1 by (rewrite Hlen; lia).
    now rewrite Nat.add_0_r.
  - rewrite nth_error_app2 by (rewrite Hlen; simpl; lia).
    rewrite Hlen. replace (S i * m + j - m) with (i * m + j) by (simpl; lia).
    rewrite IH by lia. f_equal. f_equal. lia.
Qed.

Lemma length_flat_map_uniform (f : A -> list B) (m : nat) (l : list A) :
  (forall x, List.length (f x) = m) ->
  List.length (flat_map f l) = List.length l * m.
Proof.
  intros Hlen. induction l as [|x l IH]; simpl; [reflexivity|].
  now rewrite length_app, Hlen, IH.
Qed.

Lemma combine_map_same (f : A -> B) (g : A -> C) (l : list A) :
  combine (map f l) (map g l) = map (fun x => (f x, g x)) l.
Proof. induction l as [|x l IH]; simpl; [reflexivity | now rewrite IH]. Qed.

Lemma zip_with_map (f : A -> B -> C) (g : A -> B) (l : list A) :
  zip_with f l (map g l) = map (fun x => f x (g x)) l.
Proof.
  unfold zip_with. induction l as [|x l IH]; simpl; [reflexivity | now rewrite IH].
Qed.

End ListFacts.

(** ** numpy *)

Module NumpyFacts.
Import Numpy.

Lemma length_ndindex (sh : list nat) : List.length (ndindex sh) = size sh.
Proof.
  induction sh as [|n sh IH]; simpl; [reflexivity|].
  rewrite length_flat_map_uniform with (m := size sh).
  - now rewrite length_seq.
  - intros x. now rewrite length_map.
Qed.

Lemma nth_error_ndindex3 (S_ P_ N_ s p t : nat) :
  s < S_ -> p < P_ -> t < N_ ->
  nth_error (ndindex [S_; P_; N_]) (s * P_ * N_ + p * N_ + t) = Some [s; p; t].
Proof.
  intros Hs Hp Ht.
  change (ndindex [S_; P_; N_])
    with (flat_map (fun i => map (cons i) (ndindex [P_; N_])) (seq 0 S_)).
  replace (s * P_ * N_ + p * N_ + t) with (s * (P_ * N_) + (p * N_ + t)) by lia.
  rewrite nth_error_flat_map_uniform with (m := P_ * N_); [ | | assumption | nia].
  2:{ intros x. rewrite length_map, length_ndindex. simpl. lia. }
  rewrite nth_error_map.
  change (ndindex [P_; N_])
    with (flat_map (fun i => map (cons i) (ndindex [N_])) (seq 0 P_)).
  rewrite nth_error_flat_map_uniform with (m := N_); [ | | assumption | assumption].
  2:{ intros x. rewrite length_map, length_ndindex. simpl. lia. }
  rewrite nth_error_map.
  change (ndindex [N_]) with (flat_map (fun i => map (cons i) [[]]) (seq 0 N_)).
  replace t with (t * 1 + 0) at 1 by lia.
  rewrite nth_error_flat_map_uniform with (m := 1); [ | reflexivity | assumption | lia].
  reflexivity.
Qed.

Lemma in_ndindex3 (S_ P_ N_ : nat) (idx : list nat) :
  In idx (ndindex [S_; P_; N_]) ->
  exists s p t, idx = [s; p; t] /\ s < S_ /\ p < P_ /\ t < N_.
Proof.
  simpl. intros H.
  apply in_flat_map in H. destruct H as (s & Hs & H).
  apply in_map_iff in H. destruct H as (r1 & <- & H).
  apply in_flat_map in H. destruct H as (p & Hp & H).
  apply in_map_iff in H. destruct H as (r2 & <- & H).
  apply in_flat_map in H. destruct H as (t & Ht & H).
  destruct H as [<-|[]].
  apply in_seq in Hs, Hp, Ht. exists s, p, t. repeat split; lia.
Qed.

End NumpyFacts.

(** ** Sorting and distinct values *)

Section SortFacts.
Variable A : Type.
Variable leb : A -> A -> bool.
Hypothesis leb_total : forall a b, leb a b = true \/ leb b a = true.
Hypothesis leb_trans : forall a b c, leb a b = true -> leb b c = true -> leb a c = true.
Hypothesis leb_antisym : forall a b, leb a b = true -> leb b a = true -> a = b.

Let le (a b : A) : Prop := leb a b = true.

Lemma insert_perm (x : A) (l : list A) : Permutation (insert leb x l) (x :: l).
Proof.
  induction l as [|y l IH]; simpl; [reflexivity|].
  destruct (leb x y); [reflexivity|].
  rewrite IH. apply perm_swap.
Qed.

Lemma sort_perm (l : list A) : Permutation (sort leb l) l.
Proof.
  induction l as [|x l IH]; simpl; [reflexivity|].
  rewrite insert_perm. now constructor.
Qed.

Lemma in_sort (l : list A) (x : A) : In x (sort leb l) <-> In x l.
Proof.
  split; apply Permutation_in; [apply sort_perm | symmetry; apply sort_perm].
Qed.

Lemma insert_sorted (x : A) (l : list A) :
  StronglySorted le l -> StronglySorted le (insert leb x l).
Proof.
  induction 1 as [|y l Hl IH Hy]; simpl.
  - repeat constructor.
  - destruct (leb x y) eqn:E.
    + constructor; [now constructor|].
      constructor; [exact E|].
      rewrite Forall_forall in *. intros z Hz. eapply leb_trans; [exact E | now apply Hy].
    + constructor; [exact IH|].
      rewrite Forall_forall in *. intros z Hz.
      apply (Permutation_in _ (insert_perm x l)) in Hz. destruct Hz as [<-|Hz].
      * destruct (leb_total x y) as [H|H]; [congruence | exact H].
      * now apply Hy.
Qed.

Lemma sort_sorted (l : list A) : StronglySorted le (sort leb l).
Proof.
  induction l as [|x l IH]; simpl; [constructor | now apply insert_sorted].
Qed.

Lemma sort_id (l : list A) : StronglySorted le l -> sort leb l = l.
Proof.
  induction 1 as [|x l Hl IH Hx]; simpl; [reflexivity|].
  rewrite IH. destruct l as [|y l]; simpl; [reflexivity|].
  inversion Hx as [|? ? Hxy _]; subst. unfold le in Hxy. now rewrite Hxy.
Qed.

(** A duplicate-free sorted list is determined by its elements. *)
Lemma sorted_nodup_unique (l1 l2 : list A) :
  StronglySorted le l1 -> StronglySorted le l2 ->
  NoDup l1 -> NoDup l2 ->
  (forall x, In x l1 <-> In x l2) ->
  l1 = l2.
Proof.
  intros S1. revert l2. induction S1 as [|x l1 S1 IH Hx]; intros l2 S2 N1 N2 Hin.
  - destruct l2 as [|y l2]; [reflexivity|]. exfalso. apply (Hin y). now left.
  - destruct S2 as [|y l2 S2 Hy].
    { exfalso. apply (Hin x). now left. }
    rewrite Forall_forall in Hx, Hy.
    inversion N1 as [|? ? Nx N1']; inversion N2 as [|? ? Ny N2']; subst.
    assert (E : x = y).
    { destruct (proj1 (Hin x) (or_introl eq_refl)) as [E|Hx2]; [now symmetry|].
      destruct (proj2 (Hin y) (or_introl eq_refl)) as [E|Hy1]; [exact E|].
      apply leb_antisym; [now apply Hx | now apply Hy]. }
    subst y. f_equal. apply IH; try assumption.
    intros z. split; intros Hz.
    + destruct (proj1 (Hin z) (or_intror Hz)) as [<-|H]; [contradiction | exact H].
    + destruct (proj2 (Hin z) (or_intror Hz)) as [<-|H]; [contradiction | exact H].
Qed.

End SortFacts.

Section SortMap.
Variables A B : Type.
Variable lebA : A -> A -> bool.
Variable lebB : B -> B -> bool.
Variable f : A -> B.

Lemma insert_map (x : A) (l : list A) :
  (forall y, In y l -> lebB (f x) (f y) = lebA x y) ->
  insert lebB (f x) (map f l) = map f (insert lebA x l).
Proof.
  induction l as [|y l IH]; intros H; simpl; [reflexivity|].
  rewrite H by now left. destruct (lebA x y); [reflexivity|].
  simpl. rewrite IH; [reflexivity|]. intros; apply H; now right.
Qed.

Lemma sort_map (l : list A) :
  (forall x y, In x l -> In y l -> lebB (f x) (f y) = lebA x y) ->
  sort lebB (map f l) = map f (sort lebA l).
Proof.
  induction l as [|x l IH]; intros H; simpl; [reflexivity|].
  rewrite IH by (intros; apply H; now right).
  apply insert_map. intros y Hy. apply H; [now left|].
  right. now apply in_sort in Hy.
Qed.

End SortMap.

Section UniqueFacts.
Variable A : Type.
Variable eqb : A -> A -> bool.
Hypothesis eqb_eq : forall x y, eqb x y = true <-> x = y.

Lemma in_unique (l : list A) (x : A) : In x (unique eqb l) <-> In x l.
Proof.
  induction l as [|y l IH]; simpl; [tauto|].
  rewrite filter_In, IH. split.
  - intros [H|[H _]]; auto.
  - intros [H|H]; [now left|].
    destruct (eqb y x) eqn:E; [left; now apply eqb_eq | right; now split].
Qed.

Lemma NoDup_unique (l : list A) : NoDup (unique eqb l).
Proof.
  induction l as [|y l IH]; simpl; constructor.
  - rewrite filter_In. intros [_ H].
    assert (E : eqb y y = true) by now apply eqb_eq. now rewrite E in H.
  - now apply NoDup_filter.
Qed.

Lemma unique_id (l : list A) : NoDup l -> unique eqb l = l.
Proof.
  induction 1 as [|x l Hx Hl IH]; simpl; [reflexivity|].
  rewrite IH. f_equal. apply forallb_filter_id. apply forallb_forall.
  intros y Hy. destruct (eqb x y) eqn:E; [|reflexivity].
  apply eqb_eq in E. now subst.
Qed.

End UniqueFacts.

Section UniqueMap.
Variables A B : Type.
Variable eqbA : A -> A -> bool.
Variable eqbB : B -> B -> bool.
Variable f : A -> B.

Lemma filter_map_commute (p : A -> bool) (q : B -> bool) (l : list A) :
  (forall x, In x l -> q (f x) = p x) ->
  filter q (map f l) = map f (filter p l).
Proof.
  induction l as [|x l IH]; intros H; simpl; [reflexivity|].
  rewrite H by now left. rewrite IH by (intros; apply H; now right).
  now destruct (p x).
Qed.

Lemma unique_map (l : list A) :
  (forall x y, In x l -> In y l -> eqbB (f x) (f y) = eqbA x y) ->
  unique eqbB (map f l) = map f (unique eqbA l).
Proof.
  induction l as [|x l IH]; intros H; simpl; [reflexivity|].
  f_equal. rewrite IH by (intros; apply H; now right).
  apply filter_map_commute. intros y Hy. f_equal. apply H; [now left|].
  right. clear - Hy. induction l as [|z l IHl]; simpl in *; [assumption|].
  destruct Hy as [->|Hy]; [now left|]. apply filter_In in Hy. right. apply IHl, Hy.
Qed.

End UniqueMap.

Section FlatMapFacts.
Variables A B C : Type.

Lemma map_flat_map_swap (f : B -> C) (g : A -> list B) (l : list A) :
  map f (flat_map g l) = flat_map (fun x => map f (g x)) l.
Proof.
  induction l as [|x l IH]; simpl; [reflexivity|]. now rewrite map_app, IH.
Qed.

Lemma filter_flat_map_swap (p : B -> bool) (g : A -> list B) (l : list A) :
  filter p (flat_map g l) = flat_map (fun x => filter p (g x)) l.
Proof.
  induction l as [|x l IH]; simpl; [reflexivity|]. now rewrite filter_app, IH.
Qed.

Lemma filter_none (p : B -> bool) (l : list B) :
  (forall x, In x l -> p x = false) -> filter p l = [].
Proof.
  induction l as [|x l IH]; intros H; simpl; [reflexivity|].
  rewrite H by now left. apply IH. intros; apply H; now right.
Qed.

Lemma filter_all (p : B -> bool) (l : list B) :
  (forall x, In x l -> p x = true) -> filter p l = l.
Proof.
  intros H. apply forallb_filter_id. now apply forallb_forall.
Qed.

Lemma combine_diag (l : list A) : combine l l = map (fun x => (x, x)) l.
Proof. induction l as [|x l IH]; simpl; [reflexivity | now rewrite IH]. Qed.

(** A [flat_map] over a range in which a single position contributes. *)
Lemma flat_map_seq_single (g : nat -> list B) (n a i : nat) :
  a <= i < a + n ->
  (forall j, a <= j < a + n -> j <> i -> g j = []) ->
  flat_map g (seq a n) = g i.
Proof.
  revert a. induction n as [|n IH]; intros a Hi Hg; [lia|]. simpl.
  destruct (Nat.eq_dec a i) as [->|Hne].
  - assert (E : flat_map g (seq (S i) n) = []).
    { assert (H : forall j, In j (seq (S i) n) -> g j = []).
      { intros j Hj. apply in_seq in Hj. apply Hg; lia. }
      clear - H. induction (seq (S i) n) as [|j l IHl]; simpl; [reflexivity|].
      rewrite H by now left. apply IHl. intros; apply H; now right. }
    now rewrite E, app_nil_r.
  - rewrite (Hg a) by lia. simpl. apply IH; [lia|]. intros; apply Hg; lia.
Qed.

End FlatMapFacts.

Module NumpyFacts2.
Import Numpy.

Lemma reshape_ok A (a : ndarray A) (sh : list nat) :
  size (shape a) = size sh ->
  reshape a sh =
  Some {| shape := sh;
          item := fun idx => item a (unravel_index (ravel_multi_index sh idx) (shape a)) |}.
Proof. intros H. unfold reshape. now rewrite H, Nat.eqb_refl. Qed.

Lemma broadcast_to_ok A (a : ndarray A) (sh : list nat) :
  broadcastable (shape a) sh = true ->
  broadcast_to a sh =
  Some {| shape := sh; item := fun idx => item a (broadcast_index (shape a) idx) |}.
Proof. intros H. unfold broadcast_to. now rewrite H. Qed.

Lemma broadcastable_axis (a b c S_ P_ N_ : nat) :
  (a = 1 \/ a = S_) -> (b = 1 \/ b = P_) -> (c = 1 \/ c = N_) ->
  broadcastable [a; b; c] [S_; P_; N_] = true.
Proof.
  intros Ha Hb Hc. unfold broadcastable. simpl.
  assert (E : forall x y, x = 1 \/ x = y -> (x =? 1) || (x =? y) = true).
  { intros x y [->| ->]; [reflexivity | now rewrite Nat.eqb_refl, orb_true_r]. }
  now rewrite !E.
Qed.

End NumpyFacts2.

Module DatasetupFacts.
Import Numpy NumpyFacts NumpyFacts2 Datasetup.

Section WithNum.
Variable num : Type.

Lemma store_index (S_ s p t : nat) :
  s < S_ ->
  item (arange S_)
    (unravel_index (ravel_multi_index [S_; 1; 1] (broadcast_index [S_; 1; 1] [s; p; t]))
                   (shape (arange S_))) = Z.of_nat s.
Proof.
  intros Hs. unfold broadcast_index, zip_with, ravel_multi_index.
  cbn -[Nat.div Nat.modulo]. f_equal.
  rewrite Nat.div_1_r.
  destruct (S_ =? 1) eqn:E; [apply Nat.eqb_eq in E|]; lia.
Qed.

Lemma product_index (P_ s p t : nat) :
  p < P_ ->
  item (arange P_)
    (unravel_index (ravel_multi_index [1; P_; 1] (broadcast_index [1; P_; 1] [s; p; t]))
                   (shape (arange P_))) = Z.of_nat p.
Proof.
  intros Hp. unfold broadcast_index, zip_with, ravel_multi_index.
  cbn -[Nat.div Nat.modulo]. f_equal.
  rewrite Nat.div_1_r.
  destruct (P_ =? 1) eqn:E; [apply Nat.eqb_eq in E|]; lia.
Qed.

Lemma date_index (N_ s p t : nat) :
  t < N_ ->
  item (arange N_)
    (unravel_index (ravel_multi_index [1; 1; N_] (broadcast_index [1; 1; N_] [s; p; t]))
                   (shape (arange N_))) = Z.of_nat t.
Proof.
  intros Ht. unfold broadcast_index, zip_with, ravel_multi_index.
  cbn -[Nat.div Nat.modulo]. f_equal.
  rewrite Nat.div_1_r.
  destruct (N_ =? 1) eqn:E; [apply Nat.eqb_eq in E|]; lia.
Qed.

(** The table the script builds, row by row over the multi-indices of
    the sales array, provided the fitted array has as many elements. *)
Lemma datasetup_rows (data : npz num) (S_ P_ N_ : nat) :
  shape (npz_synth_sales_data data) = [S_; P_; N_] ->
  size (shape (npz_fitted_line data)) = S_ * P_ * N_ ->
  datasetup data =
  Some (map (fun ij =>
               mk_row (Z.of_nat (nth 0 (fst ij) 0)) (Z.of_nat (nth 1 (fst ij) 0))
                      (start_date + Z.of_nat (nth 2 (fst ij) 0))
                      (item (npz_synth_sales_data data) (fst ij))
                      (item (npz_fitted_line data) (snd ij)))
            (combine (ndindex [S_; P_; N_]) (ndindex (shape (npz_fitted_line data))))).
Proof.
  intros Hsh Hsz. unfold datasetup. cbv zeta. rewrite Hsh.
  rewrite !reshape_ok by (simpl; lia). cbv beta iota.
  rewrite !broadcast_to_ok by (apply broadcastable_axis; auto).
  cbv beta iota zeta. unfold DataFrame, ravel. cbn [shape item].
  rewrite Hsh, !length_map, !length_ndindex, Hsz.
  replace (size [S_; P_; N_]) with (S_ * P_ * N_) by (simpl; lia).
  rewrite !Nat.eqb_refl. cbn [andb]. f_equal.
  set (idx := ndindex [S_; P_; N_]).
  set (fidx := ndindex (shape (npz_fitted_line data))).
  assert (Hin : forall i, In i idx -> In i (ndindex [S_; P_; N_])) by (intros; assumption).
  assert (Hlen : List.length idx = List.length fidx).
  { unfold idx, fidx. rewrite !length_ndindex, Hsz. simpl. lia. }
  clearbody idx fidx. revert fidx Hlen.
  induction idx as [|i idx IH]; intros [|j fidx] Hlen; simpl in Hlen; try discriminate;
    [reflexivity|].
  cbn [map combine fst snd nth]. f_equal.
  - destruct (in_ndindex3 _ _ _ _ (Hin i (or_introl eq_refl))) as (s & p & t & -> & Hs & Hp & Ht).
    cbn [map combine fst snd nth].
    now rewrite store_index, product_index, date_index.
  - apply IH; [intros; apply Hin; now right | lia].
Qed.

Lemma datasetup_mismatch (data : npz num) (S_ P_ N_ : nat) :
  shape (npz_synth_sales_data data) = [S_; P_; N_] ->
  size (shape (npz_fitted_line data)) <> S_ * P_ * N_ ->
  datasetup data = None.
Proof.
  intros Hsh Hsz. unfold datasetup. cbv zeta. rewrite Hsh.
  rewrite !reshape_ok by (simpl; lia). cbv beta iota.
  rewrite !broadcast_to_ok by (apply broadcastable_axis; auto).
  cbv beta iota zeta. unfold DataFrame, ravel. cbn [shape item].
  rewrite Hsh, !length_map, !length_ndindex.
  replace (size [S_; P_; N_]) with (S_ * P_ * N_) by (simpl; lia).
  rewrite !Nat.eqb_refl. cbn [andb].
  destruct (Nat.eqb_spec (size (shape (npz_fitted_line data))) (S_ * P_ * N_));
    [contradiction | reflexivity].
Qed.

Lemma datasetup_coshaped (data : npz num) (S_ P_ N_ : nat) :
  shape (npz_synth_sales_data data) = [S_; P_; N_] ->
  shape (npz_fitted_line data) = [S_; P_; N_] ->
  datasetup data =
  Some (map (row_at (npz_synth_sales_data data) (npz_fitted_line data))
            (ndindex [S_; P_; N_])).
Proof.
  intros Hs Hf. rewrite (datasetup_rows data Hs) by (rewrite Hf; simpl; lia).
  now rewrite Hf, combine_diag, map_map.
Qed.

(** C5: for co-shaped sales and fitted arrays of shape (S, P, N) the table
    has S*P*N rows, and the row at position s*P*N + p*N + t carries store s,
    product p, the date 2025-06-01 plus t days, and the two arrays' values
    at index (s, p, t). *)
Theorem flatten_index_correspondence (data : npz num) (S_ P_ N_ : nat) :
  shape (npz_synth_sales_data data) = [S_; P_; N_] ->
  shape (npz_fitted_line data) = [S_; P_; N_] ->
  exists df,
    datasetup data = Some df /\
    List.length df = S_ * P_ * N_ /\
    forall s p t, s < S_ -> p < P_ -> t < N_ ->
      nth_error df (s * P_ * N_ + p * N_ + t) =
      Some (mk_row (Z.of_nat s) (Z.of_nat p)
                   (Calendar.days_from_civil 2025 6 1 + Z.of_nat t)
                   (item (npz_synth_sales_data data) [s; p; t])
                   (item (npz_fitted_line data) [s; p; t])).
Proof.
  intros Hs Hf. eexists. split; [apply (datasetup_coshaped data Hs Hf)|]. split.
  - rewrite length_map, length_ndindex. simpl. lia.
  - intros s p t Hs' Hp' Ht'.
    rewrite nth_error_map, nth_error_ndindex3 by assumption. reflexivity.
Qed.


(** C10: two bundles that agree on the sales and fitted arrays give the
    same table, whatever their dates arrays hold. *)
Theorem dates_array_unused (data1 data2 : npz num) :
  npz_synth_sales_data data1 = npz_synth_sales_data data2 ->
  npz_fitted_line data1 = npz_fitted_line data2 ->
  datasetup data1 = datasetup data2.
Proof.
  intros Hs Hf. unfold datasetup. cbv zeta. now rewrite Hs, Hf.
Qed.

End WithNum.

Lemma flatten_index_correspondence_witness :
  exists df,
    datasetup Examples.bundle = Some df /\
    List.length df = 2 * 2 * 3 /\
    forall s p t, s < 2 -> p < 2 -> t < 3 ->
      nth_error df (s * 2 * 3 + p * 3 + t) =
      Some (mk_row (Z.of_nat s) (Z.of_nat p)
                   (Calendar.days_from_civil 2025 6 1 + Z.of_nat t)
                   (item (npz_synth_sales_data Examples.bundle) [s; p; t])
                   (item (npz_fitted_line Examples.bundle) [s; p; t])).
Proof.
  exact (@flatten_index_correspondence Z Examples.bundle 2 2 3 eq_refl eq_refl).
Defined.


Lemma dates_array_unused_witness :
  datasetup Examples.bundle = datasetup Examples.bundle_other_dates.
Proof.
  exact (@dates_array_unused Z Examples.bundle Examples.bundle_other_dates
           eq_refl eq_refl).
Defined.

End DatasetupFacts.

Module RoundTrip.
Import Numpy NumpyFacts Datasetup DatasetupFacts.

Lemma Zleb_total (a b : Z) : (a <=? b)%Z = true \/ (b <=? a)%Z = true.
Proof. destruct (Z.leb_spec a b), (Z.leb_spec b a); auto; lia. Qed.

Lemma Zleb_trans (a b c : Z) :
  (a <=? b)%Z = true -> (b <=? c)%Z = true -> (a <=? c)%Z = true.
Proof. rewrite !Z.leb_le. lia. Qed.

Lemma Zleb_antisym (a b : Z) : (a <=? b)%Z = true -> (b <=? a)%Z = true -> a = b.
Proof. rewrite !Z.leb_le. lia. Qed.

Lemma seq_Z_sorted (n a : nat) :
  StronglySorted (fun x y => (x <=? y)%Z = true) (map Z.of_nat (seq a n)).
Proof.
  revert a. induction n as [|n IH]; intros a; simpl; constructor; [apply IH|].
  apply Forall_forall. intros z Hz. apply in_map_iff in Hz.
  destruct Hz as (k & <- & Hk). apply in_seq in Hk. apply Z.leb_le. lia.
Qed.

Lemma seq_Z_nodup (n a : nat) : NoDup (map Z.of_nat (seq a n)).
Proof.
  revert a. induction n as [|n IH]; intros a; simpl; constructor; [|apply IH].
  intros Hz. apply in_map_iff in Hz. destruct Hz as (k & E & Hk).
  apply in_seq in Hk. lia.
Qed.

(** Distinct values of a column whose values are exactly [0 .. n-1]. *)
Lemma sorted_unique_range (l : list Z) (n : nat) :
  (forall z, In z l <-> exists k, k < n /\ z = Z.of_nat k) ->
  sort Z.leb (unique Z.eqb l) = map Z.of_nat (seq 0 n).
Proof.
  intros H.
  apply (sorted_nodup_unique Z.leb Zleb_antisym).
  - apply sort_sorted; [apply Zleb_total | apply Zleb_trans].
  - apply seq_Z_sorted.
  - eapply Permutation_NoDup; [symmetry; apply sort_perm|].
    apply NoDup_unique, Z.eqb_eq.
  - apply seq_Z_nodup.
  - intros z. rewrite in_sort, (in_unique Z.eqb Z.eqb_eq), H, in_map_iff. split.
    + intros (k & Hk & ->). exists k. split; [reflexivity | apply in_seq; lia].
    + intros (k & <- & Hk). exists k. apply in_seq in Hk. split; [lia | reflexivity].
Qed.

Lemma ndindex3_flat (S_ P_ N_ : nat) :
  ndindex [S_; P_; N_] =
  flat_map (fun s => flat_map (fun p => map (fun t => [s; p; t]) (seq 0 N_)) (seq 0 P_))
           (seq 0 S_).
Proof.
  simpl. apply flat_map_ext. intros s. rewrite map_flat_map_swap.
  apply flat_map_ext. intros p.
  induction (seq 0 N_) as [|t l IH]; simpl; [reflexivity | now rewrite IH].
Qed.

Lemma in_ndindex3_iff (S_ P_ N_ s p t : nat) :
  In [s; p; t] (ndindex [S_; P_; N_]) <-> s < S_ /\ p < P_ /\ t < N_.
Proof.
  split.
  - intros H. apply in_ndindex3 in H.
    destruct H as (s' & p' & t' & E & H). injection E as -> -> ->. exact H.
  - intros (Hs & Hp & Ht). eapply nth_error_In. now apply nth_error_ndindex3.
Qed.

Section WithNum.
Variable num : Type.
Variables synth fitted : ndarray num.

Lemma days_sorted (s p n a : nat) :
  StronglySorted (fun x y => date_leb x y = true)
                 (map (fun t => (row_at synth fitted [s; p; t])) (seq a n)).
Proof.
  revert a. induction n as [|n IH]; intros a; cbn [seq map]; constructor; [apply IH|].
  apply Forall_forall. intros z Hz. apply in_map_iff in Hz.
  destruct Hz as (k & <- & Hk). apply in_seq in Hk.
  unfold date_leb, row_at. cbn [date nth]. apply Z.leb_le. lia.
Qed.

Lemma series_of_table (value : row num -> num) (S_ P_ N_ s p : nat) :
  s < S_ -> p < P_ ->
  series_of value (map (row_at synth fitted) (ndindex [S_; P_; N_])) (Z.of_nat s) (Z.of_nat p) =
  map (fun t => value ((row_at synth fitted [s; p; t]))) (seq 0 N_).
Proof.
  intros Hs Hp. unfold series_of.
  rewrite ndindex3_flat, map_flat_map_swap, filter_flat_map_swap.
  rewrite (@flat_map_seq_single _ _ S_ 0 s) by
    (lia || (intros j Hj Hne; apply filter_none; intros r Hr;
             apply in_map_iff in Hr; destruct Hr as (i & <- & Hi);
             apply in_flat_map in Hi; destruct Hi as (p' & _ & Hi);
             apply in_map_iff in Hi; destruct Hi as (t & <- & _); simpl;
             destruct (Z.eqb_spec (Z.of_nat j) (Z.of_nat s)); [lia | reflexivity])).
  rewrite map_flat_map_swap, filter_flat_map_swap.
  rewrite (@flat_map_seq_single _ _ P_ 0 p) by
    (lia || (intros j Hj Hne; apply filter_none; intros r Hr;
             apply in_map_iff in Hr; destruct Hr as (i & <- & Hi);
             apply in_map_iff in Hi; destruct Hi as (t & <- & _); simpl;
             destruct (Z.eqb_spec (Z.of_nat j) (Z.of_nat p));
             [lia | apply andb_false_r])).
  rewrite filter_all.
  2:{ intros r Hr. apply in_map_iff in Hr. destruct Hr as (i & <- & Hi).
      apply in_map_iff in Hi. destruct Hi as (t & <- & _). simpl.
      now rewrite !Z.eqb_refl. }
  rewrite map_map, sort_id by apply days_sorted.
  now rewrite map_map.
Qed.

Lemma stores_of_table (S_ P_ N_ : nat) :
  0 < P_ -> 0 < N_ ->
  sort Z.leb (unique Z.eqb (map (@store_id num) (map (row_at synth fitted) (ndindex [S_; P_; N_])))) =
  map Z.of_nat (seq 0 S_).
Proof.
  intros HP HN. apply sorted_unique_range. intros z. rewrite map_map, in_map_iff. split.
  - intros (i & <- & Hi). apply in_ndindex3 in Hi.
    destruct Hi as (s & p & t & -> & Hs & _). exists s. now split.
  - intros (s & Hs & ->). exists [s; 0; 0]. split; [reflexivity|].
    apply in_ndindex3_iff. lia.
Qed.

Lemma products_of_table (S_ P_ N_ : nat) :
  0 < S_ -> 0 < N_ ->
  sort Z.leb (unique Z.eqb (map (@product_id num) (map (row_at synth fitted) (ndindex [S_; P_; N_])))) =
  map Z.of_nat (seq 0 P_).
Proof.
  intros HS HN. apply sorted_unique_range. intros z. rewrite map_map, in_map_iff. split.
  - intros (i & <- & Hi). apply in_ndindex3 in Hi.
    destruct Hi as (s & p & t & -> & _ & Hp & _). exists p. now split.
  - intros (p & Hp & ->). exists [0; p; 0]. split; [reflexivity|].
    apply in_ndindex3_iff. lia.
Qed.

Lemma reconstruct_table (value : row num -> num) (S_ P_ N_ : nat) :
  0 < S_ -> 0 < P_ -> 0 < N_ ->
  reconstruct value (map (row_at synth fitted) (ndindex [S_; P_; N_])) =
  map (fun s => map (fun p => map (fun t => value ((row_at synth fitted [s; p; t]))) (seq 0 N_)) (seq 0 P_))
      (seq 0 S_).
Proof.
  intros HS HP HN. unfold reconstruct.
  rewrite stores_of_table, products_of_table by assumption.
  rewrite map_map. apply map_ext_in. intros s Hs. apply in_seq in Hs.
  rewrite map_map. apply map_ext_in. intros p Hp. apply in_seq in Hp.
  apply series_of_table; lia.
Qed.

End WithNum.

Section Claim.
Variable num : Type.

(** C7, for arrays with at least one store, product and time step:
    regrouping the table by store and product and ordering each group by
    date gives back both arrays. *)
Theorem round_trip (data : npz num) (S_ P_ N_ : nat) :
  shape (npz_synth_sales_data data) = [S_; P_; N_] ->
  shape (npz_fitted_line data) = [S_; P_; N_] ->
  0 < S_ -> 0 < P_ -> 0 < N_ ->
  exists df,
    datasetup data = Some df /\
    reconstruct (@synth_sales_data num) df = tolist3 (npz_synth_sales_data data) /\
    reconstruct (@fitted_line num) df = tolist3 (npz_fitted_line data).
Proof.
  intros Hs Hf HS HP HN. eexists. split; [apply (datasetup_coshaped data Hs Hf)|].
  unfold tolist3. rewrite Hs, Hf.
  split; now rewrite reconstruct_table by assumption.
Qed.

End Claim.

Lemma round_trip_witness :
  exists df,
    datasetup Examples.bundle = Some df /\
    reconstruct (@synth_sales_data Z) df
      = tolist3 (npz_synth_sales_data Examples.bundle) /\
    reconstruct (@fitted_line Z) df
      = tolist3 (npz_fitted_line Examples.bundle).
Proof.
  apply (@round_trip Z Examples.bundle 2 2 3 eq_refl eq_refl); lia.
Defined.

(** The claim of C7 fails for an array without time steps: its table is
    empty, and the array of shape (1, 1, 0) is not read back from it. *)
Lemma round_trip_empty_axis :
  ~ (forall (data : npz Z) (S_ P_ N_ : nat),
       shape (npz_synth_sales_data data) = [S_; P_; N_] ->
       shape (npz_fitted_line data) = [S_; P_; N_] ->
       exists df,
         datasetup data = Some df /\
         reconstruct (@synth_sales_data Z) df = tolist3 (npz_synth_sales_data data) /\
         reconstruct (@fitted_line Z) df = tolist3 (npz_fitted_line data)).
Proof.
  intros H.
  destruct (H Examples.bundle_no_days 1 1 0 eq_refl eq_refl) as (df & Hdf & Hr & _).
  vm_compute in Hdf. injection Hdf as <-. vm_compute in Hr. discriminate Hr.
Qed.

End RoundTrip.

(** ** Column names *)

Module NameFacts.
Import Pipeline.

Lemma small_cases (a : Z) :
  (0 <= a <= 7)%Z ->
  a = 0%Z \/ a = 1%Z \/ a = 2%Z \/ a = 3%Z \/ a = 4%Z \/ a = 5%Z \/ a = 6%Z \/ a = 7%Z.
Proof. lia. Qed.

Ltac small a H := destruct (small_cases H) as [->|[->|[->|[->|[->|[->|[->| ->]]]]]]].

Lemma str_eqb_small (a b : Z) :
  (0 <= a <= 7)%Z -> (0 <= b <= 7)%Z -> String.eqb (str a) (str b) = (a =? b)%Z.
Proof. intros Ha Hb. small a Ha; small b Hb; reflexivity. Qed.

Lemma dow_name_leb_small (a b : Z) :
  (0 <= a <= 7)%Z -> (0 <= b <= 7)%Z ->
  String.leb (dow_name a) (dow_name b) = (a <=? b)%Z.
Proof. intros Ha Hb. small a Ha; small b Hb; reflexivity. Qed.

Lemma dow_name_eqb_small (a b : Z) :
  (0 <= a <= 7)%Z -> (0 <= b <= 7)%Z ->
  String.eqb (dow_name a) (dow_name b) = (a =? b)%Z.
Proof. intros Ha Hb. small a Ha; small b Hb; reflexivity. Qed.

Lemma dow_name_inj_small (a b : Z) :
  (0 <= a <= 7)%Z -> (0 <= b <= 7)%Z -> dow_name a = dow_name b -> a = b.
Proof.
  intros Ha Hb E. apply Z.eqb_eq. rewrite <- dow_name_eqb_small by assumption.
  now apply String.eqb_eq.
Qed.

Lemma prefix_nil (s : string) : String.prefix "" s = true.
Proof. now destruct s. Qed.

Lemma dow_name_prefix (l : Z) : String.prefix "dow_" (dow_name l) = true.
Proof. unfold dow_name. cbn. apply prefix_nil. Qed.

Lemma startswith_dow_names (ls : list Z) :
  startswith_dow (base_columns ++ map dow_name ls) = map dow_name ls.
Proof.
  unfold startswith_dow. rewrite filter_app. change (filter _ base_columns) with (@nil string).
  simpl. apply forallb_filter_id, forallb_forall. intros n Hn.
  apply in_map_iff in Hn. destruct Hn as (l & <- & _). apply dow_name_prefix.
Qed.

(** A name with the [dow_] prefix is none of the fixed names the
    scripts use. *)
Lemma dow_prefix_neq (n c : string) :
  String.prefix "dow_" n = true -> String.prefix "dow_" c = false -> String.eqb c n = false.
Proof.
  intros Hn Hc. apply String.eqb_neq. intros ->. congruence.
Qed.

Lemma dow_names_keep (c : string) (ls : list Z) :
  String.prefix "dow_" c = false ->
  filter (fun n => negb (String.eqb c n)) (map dow_name ls) = map dow_name ls.
Proof.
  intros Hc. apply forallb_filter_id, forallb_forall. intros n Hn.
  apply in_map_iff in Hn. destruct Hn as (l & <- & _).
  now rewrite (dow_prefix_neq _ _ (dow_name_prefix l) Hc).
Qed.

End NameFacts.

(** ** Weekday levels *)

Module LevelFacts.
Import Pipeline RoundTrip.

Lemma dayofweek_range (d : Z) : (0 <= Calendar.dayofweek d <= 6)%Z.
Proof. unfold Calendar.dayofweek. pose proof (Z.mod_pos_bound (d + 3) 7). lia. Qed.

Lemma weekday_range (d : Z) : (1 <= Calendar.weekday d <= 7)%Z.
Proof. unfold Calendar.weekday. pose proof (dayofweek_range d). lia. Qed.

Lemma in_levels (data : list Z) (z : Z) : In z (levels data) <-> In z data.
Proof. unfold levels. now rewrite in_sort, (in_unique Z.eqb Z.eqb_eq). Qed.

Lemma levels_nodup (data : list Z) : NoDup (levels data).
Proof.
  eapply Permutation_NoDup; [symmetry; apply sort_perm|].
  apply NoDup_unique, Z.eqb_eq.
Qed.

Lemma levels_sorted (data : list Z) : StronglySorted (fun x y => (x <=? y)%Z = true) (levels data).
Proof. apply sort_sorted; [apply Zleb_total | apply Zleb_trans]. Qed.

(** The first level is the least one; every other value of the data is
    among the remaining levels. *)
Lemma in_tl_levels (data : list Z) (z : Z) :
  In z (tl (levels data)) <-> In z data /\ z <> hd 0%Z (levels data).
Proof.
  rewrite <- (in_levels data). pose proof (levels_nodup data) as N.
  destruct (levels data) as [|x l]; simpl; [tauto|].
  inversion N as [|? ? Hx _]; subst. split.
  - intros H. split; [now right | intros ->; contradiction].
  - intros [[->|H] Hne]; [contradiction | exact H].
Qed.

Lemma hd_levels_least (data : list Z) (z : Z) : In z data -> (hd 0%Z (levels data) <= z)%Z.
Proof.
  rewrite <- (in_levels data). pose proof (levels_sorted data) as S.
  destruct (levels data) as [|x l]; simpl; [tauto|].
  inversion S as [|? ? _ Hx]; subst. rewrite Forall_forall in Hx.
  intros [->|H]; [lia | now apply Z.leb_le, Hx].
Qed.

Lemma hd_levels_in (data : list Z) : data <> [] -> In (hd 0%Z (levels data)) data.
Proof.
  intros Hne. rewrite <- (in_levels data).
  destruct (levels data) as [|x l] eqn:E; simpl; [|now left].
  destruct data as [|d ds]; [contradiction|].
  assert (H : In d (levels (d :: ds))) by (apply in_levels; now left).
  rewrite E in H. contradiction.
Qed.

End LevelFacts.

(** ** The frames after feature engineering *)

Module FrameFacts.
Import Pipeline NameFacts LevelFacts.

Section WithNum.
Variable num : Type.

Lemma pandas_frame (table : list (input_row num)) :
  Pandasuse.df table =
  {| columns := base_columns ++ map dow_name (Pandasuse.retained table);
     rows := map (fun r => mk_frow r (encode (Pandasuse.retained table)
                                             (Calendar.dayofweek (Datasetup.date r))))
                 table |}.
Proof.
  unfold Pandasuse.df, Pandasuse.get_dummies, Pandasuse.retained. cbn [fst snd].
  f_equal.
  - rewrite !filter_app, dow_names_keep by reflexivity. reflexivity.
  - unfold Pandasuse.day_of_week. rewrite map_map. now rewrite zip_with_map.
Qed.

Lemma pandas_dow_columns (table : list (input_row num)) :
  Pandasuse.dow_columns table = map dow_name (Pandasuse.retained table).
Proof.
  unfold Pandasuse.dow_columns. rewrite pandas_frame. apply startswith_dow_names.
Qed.

Lemma weekdays_range (table : list (input_row num)) (w : Z) :
  In w (Polarsuse.weekdays table) -> (0 <= w <= 7)%Z.
Proof.
  intros H. apply in_map_iff in H. destruct H as (r & <- & _).
  pose proof (weekday_range (Datasetup.date r)). lia.
Qed.

Lemma to_dummies_dow (wl : list Z) :
  (forall w, In w wl -> (0 <= w <= 7)%Z) ->
  Polarsuse.to_dummies "dow" (map str wl) =
  (map dow_name (levels wl), map (encode (levels wl)) wl).
Proof.
  intros Hr. unfold Polarsuse.to_dummies.
  rewrite (@unique_map _ _ Z.eqb String.eqb str wl)
    by (intros x y Hx Hy; apply str_eqb_small; [exact (Hr x Hx) | exact (Hr y Hy)]).
  rewrite map_map.
  assert (Hu : forall x, In x (unique Z.eqb wl) -> (0 <= x <= 7)%Z).
  { intros x Hx. apply Hr. exact (proj1 (in_unique Z.eqb Z.eqb_eq wl x) Hx). }
  rewrite (@sort_map _ _ Z.leb name_leb (fun x => (("dow" ++ "_" ++ str x)%string, str x)))
    by (intros x y Hx Hy; unfold name_leb; cbn [fst];
        apply (dow_name_leb_small (Hu x Hx) (Hu y Hy))).
  fold (levels wl). apply (f_equal2 pair).
  - now rewrite map_map.
  - rewrite map_map. apply map_ext_in. intros w Hw.
    rewrite map_map. unfold encode. apply map_ext_in. intros l Hl. cbn [fst snd].
    now rewrite (str_eqb_small (Hr w Hw) (Hr l (proj1 (in_levels wl l) Hl))).
Qed.

Lemma drop_present (c : string) (cols : list string) (rs : list (frow num)) :
  In c cols ->
  drop c (mk_frame cols rs) =
  Some (mk_frame (filter (fun n => negb (String.eqb c n)) cols)
                 (map (fun r => mk_frow (base r)
                                  (filter (fun kv => negb (String.eqb c (fst kv))) (onehot r)))
                      rs)).
Proof.
  intros H. unfold drop. cbn [columns rows].
  assert (E : existsb (String.eqb c) cols = true).
  { apply existsb_exists. exists c. split; [exact H | apply String.eqb_refl]. }
  now rewrite E.
Qed.

Lemma drop_absent (c : string) (cols : list string) (rs : list (frow num)) :
  ~ In c cols -> drop c (mk_frame cols rs) = None.
Proof.
  intros H. unfold drop. cbn [columns].
  destruct (existsb (String.eqb c) cols) eqn:E; [|reflexivity].
  apply existsb_exists in E. destruct E as (n & Hn & E).
  apply String.eqb_eq in E. now subst.
Qed.

Lemma encode_drop_other (c : string) (ls : list Z) (v : Z) :
  String.prefix "dow_" c = false ->
  filter (fun kv => negb (String.eqb c (fst kv))) (encode ls v) = encode ls v.
Proof.
  intros Hc. apply forallb_filter_id, forallb_forall. intros kv Hkv.
  apply in_map_iff in Hkv. destruct Hkv as (l & <- & _). cbn [fst].
  now rewrite (dow_prefix_neq _ _ (dow_name_prefix l) Hc).
Qed.

Lemma encode_drop_level (b : Z) (ls : list Z) (v : Z) :
  (0 <= b <= 7)%Z -> (forall l, In l ls -> (0 <= l <= 7)%Z) ->
  filter (fun kv => negb (String.eqb (dow_name b) (fst kv))) (encode ls v) =
  encode (filter (fun l => negb (b =? l)%Z) ls) v.
Proof.
  intros Hb Hr. unfold encode. apply filter_map_commute.
  intros l Hl. cbn [fst]. now rewrite dow_name_eqb_small by auto.
Qed.

Lemma polars_frame (table : list (input_row num)) :
  Polarsuse.df table =
  if existsb (Z.eqb 1) (levels (Polarsuse.weekdays table))
  then Some {| columns := base_columns ++ map dow_name (Polarsuse.retained table);
               rows := map (fun r => mk_frow r (encode (Polarsuse.retained table)
                                       (Calendar.weekday (Datasetup.date r))))
                           table |}
  else None.
Proof.
  unfold Polarsuse.df. rewrite to_dummies_dow by apply weekdays_range. cbn [fst snd].
  set (L := levels (Polarsuse.weekdays table)).
  assert (HL : forall l, In l L -> (0 <= l <= 7)%Z).
  { intros l Hl. apply (@weekdays_range table).
    exact (proj1 (in_levels (Polarsuse.weekdays table) l) Hl). }
  rewrite drop_present by (apply in_or_app; right; now left).
  rewrite !filter_app, dow_names_keep by reflexivity.
  change (filter _ base_columns ++ filter _ ["dow"%string] ++ map dow_name L)
    with (base_columns ++ map dow_name L).
  destruct (existsb (Z.eqb 1) L) eqn:E.
  - rewrite drop_present.
    2:{ apply in_or_app. right. apply existsb_exists in E. destruct E as (l & Hl & E).
        apply Z.eqb_eq in E. subst l. now apply (in_map dow_name) in Hl. }
    f_equal. f_equal.
    + rewrite filter_app. change (filter _ base_columns) with base_columns. f_equal.
      unfold Polarsuse.retained, Polarsuse.baseline. fold L.
      apply filter_map_commute. intros l Hl.
      change "dow_1"%string with (dow_name 1).
      rewrite dow_name_eqb_small; [reflexivity | lia | now apply HL].
    + assert (Ez : zip_with (@mk_frow num) table (map (encode L) (Polarsuse.weekdays table))
                   = map (fun r => mk_frow r (encode L (Calendar.weekday (Datasetup.date r))))
                         table).
      { unfold Polarsuse.weekdays. now rewrite map_map, zip_with_map. }
      rewrite Ez, !map_map.
      apply map_ext. intros r. cbn [base onehot]. f_equal.
      rewrite encode_drop_other by reflexivity.
      change "dow_1"%string with (dow_name 1).
      now rewrite encode_drop_level by (lia || exact HL).
  - apply drop_absent. intros H. apply in_app_or in H. destruct H as [H|H].
    + revert H. unfold base_columns. cbn. intuition discriminate.
    + apply in_map_iff in H. destruct H as (l & Hl & Hin).
      change "dow_1"%string with (dow_name 1) in Hl.
      apply dow_name_inj_small in Hl; [|now apply HL | lia]. subst l.
      assert (E' : existsb (Z.eqb 1) L = true).
      { apply existsb_exists. exists 1%Z. split; [exact Hin | reflexivity]. }
      congruence.
Qed.

Lemma polars_dow_columns (table : list (input_row num)) (f : frame num) :
  Polarsuse.df table = Some f ->
  Polarsuse.dow_columns f = map dow_name (Polarsuse.retained table).
Proof.
  rewrite polars_frame. destruct (existsb _ _); [|discriminate].
  intros E. injection E as <-. unfold Polarsuse.dow_columns. cbn [columns].
  apply startswith_dow_names.
Qed.

End WithNum.
End FrameFacts.

(** ** One-hot rows *)

Module OneHotFacts.
Import Pipeline NameFacts LevelFacts FrameFacts.

Lemma getcol_encode (ls : list Z) (v l : Z) :
  (forall x, In x ls -> (0 <= x <= 7)%Z) -> In l ls ->
  getcol (dow_name l) (encode ls v) = indicator v l.
Proof.
  intros Hr Hl. unfold getcol. induction ls as [|x ls IH]; [contradiction|].
  cbn [encode map dict_get].
  rewrite dow_name_eqb_small by (apply Hr; auto; now left).
  destruct (Z.eqb_spec l x) as [->|Hne]; [reflexivity|].
  destruct Hl as [->|Hl]; [contradiction|].
  apply IH; [intros; apply Hr; now right | exact Hl].
Qed.

Lemma indicators_encode (ls : list Z) (v : Z) :
  (forall x, In x ls -> (0 <= x <= 7)%Z) ->
  indicators (map dow_name ls) (encode ls v) = map (indicator v) ls.
Proof.
  intros Hr. unfold indicators. rewrite map_map. apply map_ext_in.
  intros l Hl. now apply getcol_encode.
Qed.

Lemma total_ind_absent (ls : list Z) (v : Z) : ~ In v ls -> total (map (indicator v) ls) = 0%Z.
Proof.
  induction ls as [|x ls IH]; intros H; simpl; [reflexivity|].
  rewrite IH by (intros ?; apply H; now right). unfold indicator.
  destruct (Z.eqb_spec v x) as [->|_]; [exfalso; apply H; now left | reflexivity].
Qed.

Lemma total_ind_present (ls : list Z) (v : Z) :
  NoDup ls -> In v ls -> total (map (indicator v) ls) = 1%Z.
Proof.
  induction 1 as [|x ls Hx N IH]; intros H; [contradiction|]. simpl.
  destruct H as [->|H].
  - rewrite total_ind_absent by assumption. unfold indicator. now rewrite Z.eqb_refl.
  - rewrite IH by assumption. unfold indicator.
    destruct (Z.eqb_spec v x) as [->|_]; [contradiction | reflexivity].
Qed.

Lemma one_hot_core (ls : list Z) (v b : Z) :
  NoDup ls -> ~ In b ls -> (v = b \/ In v ls) ->
  one_hot_row (map (indicator v) ls) v b.
Proof.
  intros N Hb Hv. unfold one_hot_row.
  assert (Ht : total (map (indicator v) ls) = if (v =? b)%Z then 0%Z else 1%Z).
  { destruct (Z.eqb_spec v b) as [->|Hne].
    - now apply total_ind_absent.
    - destruct Hv as [Hv|Hv]; [contradiction | now apply total_ind_present]. }
  repeat split.
  - apply Forall_forall. intros x Hx. apply in_map_iff in Hx.
    destruct Hx as (l & <- & _). unfold indicator. destruct (v =? l)%Z; auto.
  - intros i j Hi Hj. rewrite nth_error_map in Hi, Hj.
    destruct (nth_error ls i) as [li|] eqn:Ei; [|discriminate].
    destruct (nth_error ls j) as [lj|] eqn:Ej; [|discriminate].
    unfold indicator in Hi, Hj. cbn [option_map] in Hi, Hj.
    destruct (Z.eqb_spec v li) as [<-|]; [|discriminate].
    destruct (Z.eqb_spec v lj) as [<-|]; [|discriminate].
    apply (proj1 (NoDup_nth_error ls) N); [|congruence].
    apply nth_error_Some. congruence.
  - rewrite Ht. destruct (v =? b)%Z; lia.
  - rewrite Ht. destruct (Z.eqb_spec v b); [lia | auto].
  - rewrite Ht. destruct (Z.eqb_spec v b); intros; [contradiction | reflexivity].
  - rewrite Ht. destruct (v =? b)%Z; reflexivity.
Qed.

Section WithNum.
Variable num : Type.

Lemma pandas_retained_range (table : list (input_row num)) (l : Z) :
  In l (Pandasuse.retained table) -> (0 <= l <= 7)%Z.
Proof.
  intros H. apply in_tl_levels in H. destruct H as [H _].
  apply in_map_iff in H. destruct H as (r & <- & _).
  pose proof (dayofweek_range (Datasetup.date r)). lia.
Qed.

Lemma polars_retained_range (table : list (input_row num)) (l : Z) :
  In l (Polarsuse.retained table) -> (0 <= l <= 7)%Z.
Proof.
  intros H. apply filter_In in H. destruct H as [H _].
  apply (@weekdays_range num table). exact (proj1 (in_levels _ l) H).
Qed.

(** C3: in both variants every row of the frame after feature engineering
    holds 0 or 1 in each retained weekday column, at most one 1, and the
    indicators add up to 1 exactly when the row's weekday is not the
    baseline (the first weekday present in pandas, Monday in polars). *)
Theorem indicators_one_hot (table : list (input_row num)) :
  (forall r, In r (rows (Pandasuse.df table)) ->
     one_hot_row (indicators (Pandasuse.dow_columns table) (onehot r))
                 (Calendar.dayofweek (Datasetup.date (base r)))
                 (Pandasuse.baseline table)) /\
  (forall f, Polarsuse.df table = Some f ->
     forall r, In r (rows f) ->
       one_hot_row (indicators (Polarsuse.dow_columns f) (onehot r))
                   (Calendar.weekday (Datasetup.date (base r)))
                   Polarsuse.baseline).
Proof.
  split.
  - intros r Hr. rewrite pandas_dow_columns. rewrite pandas_frame in Hr.
    cbn [rows] in Hr. apply in_map_iff in Hr. destruct Hr as (r0 & <- & Hr0).
    cbn [base onehot]. rewrite indicators_encode by apply pandas_retained_range.
    set (data := Pandasuse.day_of_week table).
    assert (Hv : In (Calendar.dayofweek (Datasetup.date r0)) data).
    { unfold data, Pandasuse.day_of_week.
      now apply (in_map (fun r => Calendar.dayofweek (Datasetup.date r))). }
    pose proof (levels_nodup data) as N.
    apply (in_levels data) in Hv.
    unfold Pandasuse.retained, Pandasuse.baseline. fold data.
    destruct (levels data) as [|b ls]; [contradiction|]. cbn [hd tl].
    inversion N; subst. apply one_hot_core; try assumption.
    destruct Hv as [<-|Hv]; auto.
  - intros f Hf r Hr. rewrite (polars_dow_columns _ Hf).
    rewrite polars_frame in Hf. destruct (existsb _ _); [|discriminate].
    injection Hf as <-. cbn [rows] in Hr.
    apply in_map_iff in Hr. destruct Hr as (r0 & <- & Hr0).
    cbn [base onehot]. rewrite indicators_encode by apply polars_retained_range.
    unfold Polarsuse.retained. apply one_hot_core.
    + apply NoDup_filter, levels_nodup.
    + rewrite filter_In. intros [_ H]. now rewrite Z.eqb_refl in H.
    + destruct (Z.eq_dec (Calendar.weekday (Datasetup.date r0)) Polarsuse.baseline)
        as [E|E]; [now left | right].
      apply filter_In. split.
      * apply in_levels. unfold Polarsuse.weekdays.
        now apply (in_map (fun r => Calendar.weekday (Datasetup.date r))).
      * apply negb_true_iff, Z.eqb_neq. congruence.
Qed.

End WithNum.
End OneHotFacts.

(** ** Aggregation to product-date grain *)

Module AggFacts.
Import Pipeline NameFacts LevelFacts FrameFacts OneHotFacts.

Lemma key_eqb_eq (a b : Z * Z) : key_eqb a b = true <-> a = b.
Proof.
  destruct a as [a1 a2], b as [b1 b2]. unfold key_eqb. cbn [fst snd].
  rewrite andb_true_iff, !Z.eqb_eq. split; [intros [-> ->]; reflexivity|].
  intros E. injection E as -> ->. auto.
Qed.

Lemma key_eqb_refl (a : Z * Z) : key_eqb a a = true.
Proof. now apply key_eqb_eq. Qed.

Lemma key_leb_total (a b : Z * Z) : key_leb a b = true \/ key_leb b a = true.
Proof.
  unfold key_leb.
  destruct (Z.ltb_spec (fst a) (fst b)), (Z.ltb_spec (fst b) (fst a)),
    (Z.eqb_spec (fst a) (fst b)), (Z.eqb_spec (fst b) (fst a)),
    (Z.leb_spec (snd a) (snd b)), (Z.leb_spec (snd b) (snd a)); cbn; auto; lia.
Qed.

Lemma key_leb_trans (a b c : Z * Z) :
  key_leb a b = true -> key_leb b c = true -> key_leb a c = true.
Proof.
  unfold key_leb.
  rewrite !orb_true_iff, !andb_true_iff, !Z.ltb_lt, !Z.eqb_eq, !Z.leb_le. lia.
Qed.

Lemma hash_leb_total (hash : Z * Z -> Z) (a b : Z * Z) :
  hash_leb hash a b = true \/ hash_leb hash b a = true.
Proof. unfold hash_leb. apply RoundTrip.Zleb_total. Qed.

Lemma hash_leb_trans (hash : Z * Z -> Z) (a b c : Z * Z) :
  hash_leb hash a b = true -> hash_leb hash b c = true -> hash_leb hash a c = true.
Proof. unfold hash_leb. apply RoundTrip.Zleb_trans. Qed.

Lemma getcol_tabulate (g : string -> Z) (cols : list string) (c : string) :
  In c cols -> getcol c (map (fun c' => (c', g c')) cols) = g c.
Proof.
  unfold getcol. induction cols as [|x cols IH]; intros H; [contradiction|].
  cbn [map dict_get]. destruct (String.eqb_spec c x) as [->|Hne]; [reflexivity|].
  destruct H as [->|H]; [contradiction | now apply IH].
Qed.

Lemma dict_rebuild (d : dict string Z) :
  NoDup (keys d) -> map (fun c => (c, getcol c d)) (keys d) = d.
Proof.
  induction d as [|[k v] d IH]; intros N; [reflexivity|].
  cbn [keys map fst] in *. inversion N as [|? ? Hk N']; subst.
  f_equal.
  - unfold getcol. cbn [dict_get]. now rewrite String.eqb_refl.
  - rewrite <- IH at 2 by assumption. apply map_ext_in. intros c Hc.
    unfold getcol. cbn [dict_get].
    destruct (String.eqb_spec c k) as [->|_]; [contradiction | reflexivity].
Qed.

Section WithNum.
Variable num : Type.
Variable zero : num.
Variable add : num -> num -> num.

Lemma key_of_agg_group (cols : list string) (t : list (prow num)) (k : Z * Z) :
  key_of (agg_group zero add cols t k) = k.
Proof. now destruct k. Qed.

Lemma map_key_of_agg (cols : list string) (t : list (prow num)) (ks : list (Z * Z)) :
  map (@key_of num) (map (agg_group zero add cols t) ks) = ks.
Proof.
  rewrite map_map. rewrite <- (map_id ks) at 2. apply map_ext.
  intros k. apply key_of_agg_group.
Qed.

(** What [sum] returns is what the values add up to. *)
Lemma sum_adds_up (l : list num) : adds_up_to zero add l (sum zero add l).
Proof.
  induction l as [|x l IH] using rev_ind.
  - constructor.
  - unfold sum in *. rewrite fold_left_app. cbn [fold_left]. now constructor.
Qed.

(** The relation determines the value: it is the values added one after
    the other, starting from [zero]. *)
Lemma adds_up_unique (l : list num) (s : num) :
  adds_up_to zero add l s -> s = fold_left add l zero.
Proof.
  induction 1 as [|l s x _ IH]; [reflexivity|].
  rewrite fold_left_app. cbn [fold_left]. now rewrite IH.
Qed.

(** The aggregation, for any order in which the distinct keys are
    emitted, on a table whose indicators depend on the date only. *)
Lemma aggregated_generic (cols : list string) (t : list (prow num)) (ks : list (Z * Z)) :
  Permutation ks (unique key_eqb (map (@key_of num) t)) ->
  (forall r1 r2, In r1 t -> In r2 t -> date r1 = date r2 -> dows r1 = dows r2) ->
  aggregated zero add cols t (map (agg_group zero add cols t) ks).
Proof.
  intros Hperm Hdate. unfold aggregated. rewrite map_key_of_agg.
  assert (Hin : forall k, In k ks <-> In k (map (@key_of num) t)).
  { intros k. split; intros H.
    - apply (in_unique key_eqb key_eqb_eq). eapply Permutation_in; [exact Hperm | exact H].
    - eapply Permutation_in; [symmetry; exact Hperm|].
      now apply (in_unique key_eqb key_eqb_eq). }
  split; [|split; [exact Hin|]].
  - eapply Permutation_NoDup; [symmetry; exact Hperm|]. apply NoDup_unique, key_eqb_eq.
  - intros a Ha. apply in_map_iff in Ha. destruct Ha as (k & <- & Hk).
    rewrite key_of_agg_group. split; [cbn [agg_group sales]; apply sum_adds_up|].
    intros r Hr Hkey. cbn [agg_group dows]. unfold indicators. apply map_ext_in.
    intros c Hc. rewrite getcol_tabulate by assumption.
    assert (Hg : In r (filter (fun r' => key_eqb (key_of r') k) t)).
    { apply filter_In. split; [exact Hr | now apply key_eqb_eq]. }
    destruct (filter (fun r' => key_eqb (key_of r') k) t) as [|r0 g] eqn:E;
      [contradiction|].
    cbn [map first hd].
    assert (H0 : In r0 t /\ key_eqb (key_of r0) k = true).
    { apply (proj1 (filter_In (fun r' => key_eqb (key_of r') k) r0 t)).
      rewrite E. now left. }
    destruct H0 as [H0 K0]. apply key_eqb_eq in K0.
    f_equal. apply Hdate; try assumption.
    unfold key_of in K0, Hkey. rewrite <- Hkey in K0. now injection K0.
Qed.

Lemma filter_single_key (t : list (prow num)) (r : prow num) :
  NoDup (map (@key_of num) t) -> In r t ->
  filter (fun r' => key_eqb (key_of r') (key_of r)) t = [r].
Proof.
  induction t as [|x t IH]; intros N H; [contradiction|].
  cbn [map] in N. inversion N as [|? ? Hx N']; subst. cbn [filter].
  destruct H as [->|H].
  - rewrite key_eqb_refl. f_equal. apply filter_none. intros y Hy.
    destruct (key_eqb (key_of y) (key_of r)) eqn:E; [|reflexivity].
    apply key_eqb_eq in E. exfalso. apply Hx. rewrite <- E. now apply in_map.
  - destruct (key_eqb (key_of x) (key_of r)) eqn:E.
    + apply key_eqb_eq in E. exfalso. apply Hx. rewrite E. now apply in_map.
    + now apply IH.
Qed.

Hypothesis add_0_l : forall v, add zero v = v.

Lemma agg_group_self (cols : list string) (t : list (prow num)) (r : prow num) :
  NoDup cols -> product_date_grain cols t -> In r t ->
  agg_group zero add cols t (key_of r) = r.
Proof.
  intros Nc [Nk Hcols] Hr. unfold agg_group.
  rewrite filter_single_key by assumption. cbn [map first hd].
  unfold sum. cbn [fold_left]. rewrite add_0_l.
  rewrite <- (Hcols r Hr), dict_rebuild by (rewrite (Hcols r Hr); exact Nc).
  now destruct r.
Qed.

Lemma agg_grain_perm (cols : list string) (t : list (prow num)) (ks : list (Z * Z)) :
  NoDup cols -> product_date_grain cols t ->
  Permutation ks (unique key_eqb (map (@key_of num) t)) ->
  Permutation (map (agg_group zero add cols t) ks) t.
Proof.
  intros Nc G Hperm. pose proof G as [Nk _].
  rewrite (unique_id key_eqb key_eqb_eq Nk) in Hperm.
  rewrite Hperm, map_map. rewrite <- (map_id t) at 2.
  apply Permutation_refl'. apply map_ext_in. intros r Hr. now apply agg_group_self.
Qed.

Lemma agg_output_grain (cols : list string) (t : list (prow num)) (ks : list (Z * Z)) :
  NoDup ks -> product_date_grain cols (map (agg_group zero add cols t) ks).
Proof.
  intros N. split; [now rewrite map_key_of_agg|].
  intros r Hr. apply in_map_iff in Hr. destruct Hr as (k & <- & _).
  cbn [agg_group dows]. unfold keys. rewrite map_map. apply map_id.
Qed.

End WithNum.
End AggFacts.

Module AggClaims.
Import Pipeline NameFacts LevelFacts FrameFacts OneHotFacts AggFacts.

Section WithNum.
Variable num : Type.
Variable zero : num.
Variable add : num -> num -> num.
Variables hash hash' : Z * Z -> Z.

(** C4: in both variants the aggregated table has exactly one row per
    distinct (product_id, date) of the frame; its sales are the sum of the
    group's sales and its indicators are those every row of the group
    has. *)
Theorem aggregation_one_row_per_key (table : list (input_row num)) :
  aggregated zero add (Pandasuse.dow_columns table)
             (map (@to_prow num) (rows (Pandasuse.df table)))
             (Pandasuse.product_df zero add table) /\
  (forall f, Polarsuse.df table = Some f ->
     aggregated zero add (Polarsuse.dow_columns f)
                (map (@to_prow num) (rows f))
                (Polarsuse.product_df zero add hash f)).
Proof.
  split.
  - unfold Pandasuse.product_df, Pandasuse.groupby_agg.
    apply aggregated_generic; [apply sort_perm|].
    rewrite pandas_frame. cbn [rows]. rewrite map_map.
    intros r1 r2 H1 H2 E. apply in_map_iff in H1, H2.
    destruct H1 as (x1 & <- & _), H2 as (x2 & <- & _).
    unfold to_prow in *. cbn [date dows base onehot] in *. now rewrite E.
  - intros f Hf. unfold Polarsuse.product_df, Polarsuse.group_by_agg.
    apply aggregated_generic; [apply sort_perm|].
    rewrite polars_frame in Hf. destruct (existsb _ _); [|discriminate].
    injection Hf as <-. cbn [rows]. rewrite map_map.
    intros r1 r2 H1 H2 E. apply in_map_iff in H1, H2.
    destruct H1 as (x1 & <- & _), H2 as (x2 & <- & _).
    unfold to_prow in *. cbn [date dows base onehot] in *. now rewrite E.
Qed.

Hypothesis add_0_l : forall v, add zero v = v.

(** C8: aggregating a table that is already at product-date grain gives
    back its rows unchanged, in the order of the grouping (the very same
    table in pandas when its rows are in key order), and aggregating an
    aggregated table gives the same table again. *)
Theorem aggregation_idempotent (cols : list string) :
  NoDup cols ->
  (forall t, product_date_grain cols t ->
     Permutation (Pandasuse.groupby_agg zero add cols t) t /\
     Permutation (Polarsuse.group_by_agg zero add hash cols t) t /\
     (StronglySorted (fun a b => key_leb a b = true) (map (@key_of num) t) ->
      Pandasuse.groupby_agg zero add cols t = t)) /\
  (forall t,
     Pandasuse.groupby_agg zero add cols (Pandasuse.groupby_agg zero add cols t)
     = Pandasuse.groupby_agg zero add cols t) /\
  (forall t,
     Permutation
       (Polarsuse.group_by_agg zero add hash' cols
          (Polarsuse.group_by_agg zero add hash cols t))
       (Polarsuse.group_by_agg zero add hash cols t)).
Proof.
  intros Nc. split; [|split].
  - intros t G. split; [|split]; try (apply agg_grain_perm; try assumption; apply sort_perm).
    intros St. pose proof G as [Nk _]. unfold Pandasuse.groupby_agg.
    rewrite (unique_id key_eqb key_eqb_eq Nk), (sort_id _ St), map_map.
    transitivity (map (fun r => r) t); [|apply map_id].
    apply map_ext_in. intros r Hr. now apply agg_group_self.
  - intros t. unfold Pandasuse.groupby_agg at 1.
    set (K := sort key_leb (unique key_eqb (map (@key_of num) t))).
    assert (NK : NoDup K).
    { eapply Permutation_NoDup; [symmetry; apply sort_perm|].
      apply NoDup_unique, key_eqb_eq. }
    assert (SK : StronglySorted (fun a b => key_leb a b = true) K)
      by (apply sort_sorted; [apply key_leb_total | apply key_leb_trans]).
    unfold Pandasuse.groupby_agg. fold K.
    rewrite map_key_of_agg, (unique_id key_eqb key_eqb_eq NK), (sort_id _ SK).
    apply map_ext_in. intros k Hk.
    rewrite <- (key_of_agg_group zero add cols t k) at 1.
    apply agg_group_self; try assumption; [now apply agg_output_grain|].
    now apply in_map.
  - intros t. apply agg_grain_perm; try assumption; [|apply sort_perm].
    apply agg_output_grain.
    eapply Permutation_NoDup; [symmetry; apply sort_perm|].
    apply NoDup_unique, key_eqb_eq.
Qed.

End WithNum.

Lemma aggregation_idempotent_witness :
  let cols := ["dow_1"; "dow_6"]%string in
  (forall t, product_date_grain cols t ->
     Permutation (Pandasuse.groupby_agg 0%Z Z.add cols t) t /\
     Permutation (Polarsuse.group_by_agg 0%Z Z.add Examples.reverse_hash cols t) t /\
     (StronglySorted (fun a b => key_leb a b = true) (map (@key_of Z) t) ->
      Pandasuse.groupby_agg 0%Z Z.add cols t = t)) /\
  (forall t,
     Pandasuse.groupby_agg 0%Z Z.add cols (Pandasuse.groupby_agg 0%Z Z.add cols t)
     = Pandasuse.groupby_agg 0%Z Z.add cols t) /\
  (forall t,
     Permutation
       (Polarsuse.group_by_agg 0%Z Z.add Examples.sum_hash cols
          (Polarsuse.group_by_agg 0%Z Z.add Examples.reverse_hash cols t))
       (Polarsuse.group_by_agg 0%Z Z.add Examples.reverse_hash cols t)).
Proof.
  apply (@aggregation_idempotent Z 0%Z Z.add Examples.reverse_hash Examples.sum_hash
           Z.add_0_l).
  repeat constructor; simpl; intuition discriminate.
Defined.

End AggClaims.

(** ** Dictionaries *)

Section DictFacts.
Variables K V : Type.
Variable eqb : K -> K -> bool.
Hypothesis eqb_eq : forall x y, eqb x y = true <-> x = y.

Lemma dict_set_fresh (d : dict K V) (k : K) (v : V) :
  ~ In k (keys d) -> dict_set eqb d k v = d ++ [(k, v)].
Proof.
  induction d as [|[k' v'] d IH]; intros H; cbn [dict_set app]; [reflexivity|].
  destruct (eqb k k') eqn:E.
  - apply eqb_eq in E. subst. exfalso. apply H. now left.
  - rewrite IH; [reflexivity|]. intros Hk. apply H. now right.
Qed.

Lemma dict_update_fresh (d : dict K V) (items : list (K * V)) :
  NoDup (keys d ++ map fst items) -> dict_update eqb d items = d ++ items.
Proof.
  revert d. induction items as [|[k v] items IH]; intros d N; cbn [dict_update fold_left].
  - now rewrite app_nil_r.
  - cbn [fst snd map] in *. rewrite dict_set_fresh.
    + fold (dict_update eqb (d ++ [(k, v)]) items). rewrite IH.
      * now rewrite <- app_assoc.
      * unfold keys in *. rewrite map_app, <- app_assoc. exact N.
    + apply NoDup_remove_2 in N. intros Hk. apply N. apply in_or_app. now left.
Qed.

Lemma dict_get_in (d : dict K V) (k : K) (v : V) :
  NoDup (keys d) -> In (k, v) d -> dict_get eqb d k = Some v.
Proof.
  induction d as [|[k' v'] d IH]; intros N H; [contradiction|].
  cbn [keys map fst] in N. inversion N as [|? ? Hk N']; subst. cbn [dict_get].
  destruct H as [E|H].
  - injection E as -> ->. assert (E : eqb k k = true) by now apply eqb_eq. now rewrite E.
  - destruct (eqb k k') eqn:E; [|now apply IH].
    apply eqb_eq in E. subst. exfalso. apply Hk.
    now apply (in_map fst) in H.
Qed.

(** A loop that stores one entry per item, under distinct keys. *)
Lemma fold_dict_set (A : Type) (kf : A -> K) (vf : A -> V) (xs : list A) :
  NoDup (map kf xs) ->
  fold_left (fun d x => dict_set eqb d (kf x) (vf x)) xs [] =
  map (fun x => (kf x, vf x)) xs.
Proof.
  intros N.
  assert (G : forall d, NoDup (keys d ++ map kf xs) ->
            fold_left (fun d x => dict_set eqb d (kf x) (vf x)) xs d
            = d ++ map (fun x => (kf x, vf x)) xs).
  { clear N. induction xs as [|x xs IH]; intros d N; cbn [fold_left map].
    - now rewrite app_nil_r.
    - cbn [map] in N. rewrite dict_set_fresh.
      + rewrite IH; [now rewrite <- app_assoc|].
        unfold keys in *. rewrite map_app, <- app_assoc. exact N.
      + apply NoDup_remove_2 in N. intros Hk. apply N. apply in_or_app. now left. }
  now apply (G []).
Qed.

(** The same loop when a turn may fail: it stores every entry if every
    turn succeeds, and fails if some turn does. *)
Lemma fold_dict_set_some (A : Type) (kf : A -> K) (g : A -> option V) (vf : A -> V)
      (xs : list A) :
  (forall x, In x xs -> g x = Some (vf x)) ->
  forall d,
    fold_left (fun acc x => acc <- acc ;; m <- g x ;; Some (dict_set eqb acc (kf x) m))
              xs (Some d)
    = Some (fold_left (fun d x => dict_set eqb d (kf x) (vf x)) xs d).
Proof.
  induction xs as [|x xs IH]; intros H d; cbn [fold_left]; [reflexivity|].
  rewrite (H x) by now left. apply IH. intros y Hy. apply H. now right.
Qed.

Lemma fold_dict_set_failed (A : Type) (kf : A -> K) (g : A -> option V) (xs : list A) :
  fold_left (fun acc x => acc <- acc ;; m <- g x ;; Some (dict_set eqb acc (kf x) m))
            xs None = None.
Proof. induction xs as [|x xs IH]; cbn [fold_left]; [reflexivity | exact IH]. Qed.

Lemma fold_dict_set_none (A : Type) (kf : A -> K) (g : A -> option V) (x : A)
      (xs : list A) (d : dict K V) :
  g x = None ->
  fold_left (fun acc x => acc <- acc ;; m <- g x ;; Some (dict_set eqb acc (kf x) m))
            (x :: xs) (Some d) = None.
Proof. intros H. cbn [fold_left]. rewrite H. apply fold_dict_set_failed. Qed.

End DictFacts.

(** ** The fitted models and the coefficient tables *)

Module ResultFacts.
Import Pipeline NameFacts LevelFacts FrameFacts OneHotFacts AggFacts.

Lemma levels_ext (l1 l2 : list Z) :
  (forall z, In z l1 <-> In z l2) -> levels l1 = levels l2.
Proof.
  intros H. apply (sorted_nodup_unique Z.leb RoundTrip.Zleb_antisym);
    try apply levels_sorted; try apply levels_nodup.
  intros z. now rewrite !in_levels.
Qed.

Section WithNum.
Variable num : Type.
Variable zero : num.
Variable add : num -> num -> num.
Variable ols_params : list (list Z * num) -> nat -> num.
Variable ols_pvalues : list (list Z * num) -> nat -> num.
Variable hash : Z * Z -> Z.

Lemma product_ids_of_agg (cols : list string) (t : list (prow num)) (ks : list (Z * Z)) (p : Z) :
  Permutation ks (unique key_eqb (map (@key_of num) t)) ->
  In p (map (@product_id num) (map (agg_group zero add cols t) ks)) <->
  In p (map (@product_id num) t).
Proof.
  intros Hperm. rewrite map_map.
  assert (Hin : forall k, In k ks <-> In k (map (@key_of num) t)).
  { intros k. split; intros H.
    - apply (in_unique key_eqb key_eqb_eq). eapply Permutation_in; [exact Hperm | exact H].
    - eapply Permutation_in; [symmetry; exact Hperm|].
      now apply (in_unique key_eqb key_eqb_eq). }
  rewrite !in_map_iff. split.
  - intros (k & <- & Hk). apply Hin in Hk. apply in_map_iff in Hk.
    destruct Hk as (r & <- & Hr). exists r. split; [reflexivity | exact Hr].
  - intros (r & <- & Hr). exists (key_of r). split; [reflexivity|].
    apply Hin. now apply in_map.
Qed.

Lemma pandas_product_ids (table : list (input_row num)) (p : Z) :
  In p (map (@product_id num) (Pandasuse.product_df zero add table)) <->
  In p (map (@Datasetup.product_id num) table).
Proof.
  unfold Pandasuse.product_df, Pandasuse.groupby_agg.
  rewrite product_ids_of_agg by apply sort_perm.
  rewrite pandas_frame. cbn [rows]. now rewrite !map_map.
Qed.

Lemma polars_product_ids (table : list (input_row num)) (f : frame num) (p : Z) :
  Polarsuse.df table = Some f ->
  In p (map (@product_id num) (Polarsuse.product_df zero add hash f)) <->
  In p (map (@Datasetup.product_id num) table).
Proof.
  intros Hf. unfold Polarsuse.product_df, Polarsuse.group_by_agg.
  rewrite product_ids_of_agg by apply sort_perm.
  rewrite polars_frame in Hf. destruct (existsb _ _); [|discriminate].
  injection Hf as <-. cbn [rows]. now rewrite !map_map.
Qed.

(** The loop of pandasuse.py stores one model per distinct product, in
    increasing order of product_id. *)
Lemma pandas_results (table : list (input_row num)) :
  Pandasuse.results zero add ols_params ols_pvalues table =
  map (fun p => (p, Pandasuse.fit_product ols_params ols_pvalues
                      (Pandasuse.dow_columns table)
                      (Pandasuse.product_df zero add table) p))
      (levels (map (@Datasetup.product_id num) table)).
Proof.
  unfold Pandasuse.results. cbv zeta.
  fold (levels (map (@product_id num) (Pandasuse.product_df zero add table))).
  rewrite (@levels_ext _ _ (pandas_product_ids table)).
  apply (fold_dict_set Z.eqb Z.eqb_eq). rewrite map_id. apply levels_nodup.
Qed.

Lemma partition_head (pdf : list (prow num)) (p : Z) :
  In p (map (@product_id num) pdf) ->
  match filter (fun r => (product_id r =? p)%Z) pdf with
  | r :: _ => product_id r
  | [] => 0%Z
  end = p.
Proof.
  intros H. apply in_map_iff in H. destruct H as (r & <- & Hr).
  assert (Hg : In r (filter (fun r' => (product_id r' =? product_id r)%Z) pdf)).
  { apply filter_In. split; [exact Hr | apply Z.eqb_refl]. }
  destruct (filter _ pdf) as [|r0 g] eqn:E; [contradiction|].
  assert (H0 : In r0 (filter (fun r' => (product_id r' =? product_id r)%Z) pdf))
    by (rewrite E; now left).
  apply filter_In in H0. now apply Z.eqb_eq.
Qed.

(** A turn of the loop of polarsuse.py succeeds on a frame that has rows
    and at least one weekday column, and raises without a weekday
    column. *)
Lemma fit_product_some (cols : list string) (product : list (prow num)) :
  cols <> [] -> product <> [] ->
  Polarsuse.fit_product ols_params ols_pvalues cols product
  = Some (Polarsuse.fitted ols_params ols_pvalues cols product).
Proof.
  intros Hc Hp. unfold Polarsuse.fit_product, Polarsuse.fitted, Polarsuse.select_to_numpy.
  destruct cols as [|c cols]; [contradiction|].
  destruct product as [|r product]; [contradiction|]. reflexivity.
Qed.

Lemma fit_product_none (product : list (prow num)) :
  Polarsuse.fit_product ols_params ols_pvalues [] product = None.
Proof. reflexivity. Qed.

Lemma partition_nonempty (pdf : list (prow num)) (p : Z) :
  In p (map (@product_id num) pdf) ->
  filter (fun r => (product_id r =? p)%Z) pdf <> [].
Proof.
  intros H. apply in_map_iff in H. destruct H as (r & <- & Hr).
  assert (Hg : In r (filter (fun r' => (product_id r' =? product_id r)%Z) pdf)).
  { apply filter_In. split; [exact Hr | apply Z.eqb_refl]. }
  intros E. now rewrite E in Hg.
Qed.

(** The loop of polarsuse.py stores one model per distinct product, in
    order of first appearance in the aggregated frame. *)
Lemma polars_results (f : frame num) :
  Polarsuse.dow_columns f <> [] ->
  let pdf := Polarsuse.product_df zero add hash f in
  Polarsuse.results zero add ols_params ols_pvalues hash f =
  Some (map (fun p => (p, Polarsuse.fitted ols_params ols_pvalues
                            (Polarsuse.dow_columns f)
                            (filter (fun r => (product_id r =? p)%Z) pdf)))
            (unique Z.eqb (map (@product_id num) pdf))).
Proof.
  intros Hc pdf. unfold Polarsuse.results, Polarsuse.partition_by. fold pdf.
  set (ps := unique Z.eqb (map (@product_id num) pdf)).
  assert (Hps : forall p, In p ps -> In p (map (@product_id num) pdf)).
  { intros p Hp. exact (proj1 (in_unique Z.eqb Z.eqb_eq _ p) Hp). }
  assert (Nps : NoDup ps) by apply NoDup_unique, Z.eqb_eq.
  assert (Ek : map (fun product : list (prow num) =>
                      match product with r :: _ => product_id r | [] => 0%Z end)
                   (map (fun p => filter (fun r => (product_id r =? p)%Z) pdf) ps) = ps).
  { rewrite map_map. rewrite <- (map_id ps) at 2. apply map_ext_in.
    intros p Hp. now apply partition_head, Hps. }
  rewrite (fold_dict_set_some Z.eqb
             (fun product : list (prow num) =>
                match product with r :: _ => product_id r | [] => 0%Z end)
             (Polarsuse.fit_product ols_params ols_pvalues (Polarsuse.dow_columns f))
             (Polarsuse.fitted ols_params ols_pvalues (Polarsuse.dow_columns f))).
  2:{ intros x Hx. apply in_map_iff in Hx. destruct Hx as (p & <- & Hp).
      apply fit_product_some; [exact Hc | now apply partition_nonempty, Hps]. }
  f_equal. rewrite (fold_dict_set Z.eqb Z.eqb_eq) by (rewrite Ek; exact Nps).
  rewrite map_map. apply map_ext_in. intros p Hp.
  f_equal. now apply partition_head, Hps.
Qed.

(** Without a weekday column the first turn of the loop raises, so no
    model is stored. *)
Lemma polars_results_none (f : frame num) :
  Polarsuse.dow_columns f = [] ->
  Polarsuse.product_df zero add hash f <> [] ->
  Polarsuse.results zero add ols_params ols_pvalues hash f = None.
Proof.
  intros Hc Hp. unfold Polarsuse.results, Polarsuse.partition_by. rewrite Hc.
  destruct (Polarsuse.product_df zero add hash f) as [|r pdf]; [contradiction|].
  cbn [map unique]. apply (fold_dict_set_none Z.eqb). reflexivity.
Qed.

(** A model is stored only for a frame with a weekday column. *)
Lemma polars_results_inv (f : frame num) (res : dict Z (RegressionResults num))
      (pm : Z * RegressionResults num) :
  Polarsuse.results zero add ols_params ols_pvalues hash f = Some res ->
  In pm res -> Polarsuse.dow_columns f <> [].
Proof.
  intros Hr Hin Hc.
  destruct (Polarsuse.product_df zero add hash f) as [|r pdf] eqn:E.
  - unfold Polarsuse.results, Polarsuse.partition_by in Hr. rewrite E in Hr.
    cbn in Hr. apply (f_equal (fun o => match o with Some x => x | None => [] end)) in Hr.
    cbv beta iota in Hr. subst res. contradiction.
  - rewrite (polars_results_none f Hc) in Hr; [discriminate|]. now rewrite E.
Qed.

End WithNum.
End ResultFacts.

Module CoefFacts.
Import Pipeline NameFacts LevelFacts FrameFacts OneHotFacts AggFacts ResultFacts.

Lemma NoDup_map_in (A B : Type) (f : A -> B) (l : list A) :
  (forall x y, In x l -> In y l -> f x = f y -> x = y) -> NoDup l -> NoDup (map f l).
Proof.
  intros Hinj N. induction N as [|x l Hx N IH]; cbn [map]; constructor.
  - rewrite in_map_iff. intros (y & E & Hy). apply Hx.
    rewrite (Hinj x y); auto; [now left | now right].
  - apply IH. intros a b Ha Hb. apply Hinj; now right.
Qed.

Lemma map_fst_combine (A B : Type) (l : list A) (l' : list B) :
  List.length l = List.length l' -> map fst (combine l l') = l.
Proof.
  revert l'. induction l as [|x l IH]; intros [|y l'] H; simpl in *; try discriminate;
    [reflexivity|]. f_equal. apply IH. lia.
Qed.

Lemma param_name_not_product_id (n : string) : param_name n -> n <> "product_id"%string.
Proof. intros [->|(l & ->)]; unfold dow_name; cbn; discriminate. Qed.

Lemma p_name_not_product_id (n : string) : param_name n -> p_ n <> "product_id"%string.
Proof.
  intros [->|(l & ->)]; unfold p_, dow_name; cbn; discriminate.
Qed.

Lemma p_name_not_param (n n' : string) : param_name n -> param_name n' -> p_ n <> n'.
Proof.
  intros _ [->|(l & ->)]; unfold p_, dow_name; cbn; discriminate.
Qed.

Lemma p_inj (a b : string) : p_ a = p_ b -> a = b.
Proof. unfold p_. cbn. intros E. now injection E. Qed.

Lemma NoDup_coef_keys (names : list string) :
  NoDup names -> Forall param_name names ->
  NoDup ("product_id"%string :: names ++ map p_ names).
Proof.
  intros N F. rewrite Forall_forall in F. constructor.
  - intros H. apply in_app_or in H. destruct H as [H|H].
    + now apply (param_name_not_product_id (F _ H)).
    + apply in_map_iff in H. destruct H as (n & E & Hn).
      now apply (p_name_not_product_id (F _ Hn)).
  - apply NoDup_app; [exact N | |].
    + apply NoDup_map_in; [|exact N]. intros; now apply p_inj.
    + intros n Hn H. apply in_map_iff in H. destruct H as (n' & E & Hn').
      now apply (p_name_not_param (F _ Hn') (F _ Hn)).
Qed.

Lemma NoDup_dow_names (ls : list Z) :
  NoDup ls -> (forall l, In l ls -> (0 <= l <= 7)%Z) -> NoDup (map dow_name ls).
Proof.
  intros N Hr. apply NoDup_map_in; [|exact N].
  intros x y Hx Hy. apply dow_name_inj_small; auto.
Qed.

Lemma const_not_dow_name (ls : list Z) : ~ In "const"%string (map dow_name ls).
Proof.
  rewrite in_map_iff. intros (l & E & _). unfold dow_name in E. cbn in E. discriminate.
Qed.

Lemma in_xnames (a n : nat) (s : string) : In s (xnames a n) -> x_name s.
Proof.
  unfold xnames. rewrite in_map_iff. intros (i & <- & _). right. now eexists.
Qed.

Lemma make_exog_names_x (k : nat) (X : list (list Z)) :
  Forall x_name (make_exog_names k X).
Proof.
  apply Forall_forall. intros s. unfold make_exog_names.
  destruct (find_index _ _) as [i|].
  - rewrite !in_app_iff. intros [H|[[<-|[]]|H]].
    + apply (in_xnames 1 (k - 1)). rewrite <- (firstn_skipn i). apply in_or_app. now left.
    + now left.
    + apply (in_xnames 1 (k - 1)). rewrite <- (firstn_skipn i). apply in_or_app. now right.
  - apply in_xnames.
Qed.

Lemma x_name_not_product_id (n : string) : x_name n -> n <> "product_id"%string.
Proof. intros [->|(i & ->)]; cbn; discriminate. Qed.

Lemma find_index_bound (A : Type) (f : A -> bool) (l : list A) (i : nat) :
  find_index f l = Some i -> i < List.length l.
Proof.
  revert i. induction l as [|x l IH]; intros i; cbn [find_index]; [discriminate|].
  destruct (f x); [intros E; injection E as <-; simpl; lia|].
  destruct (find_index f l) as [j|]; [|discriminate].
  cbn [option_map]. intros E. injection E as <-. specialize (IH j eq_refl). simpl. lia.
Qed.

Lemma length_make_exog_names (k : nat) (X : list (list Z)) :
  List.length (make_exog_names k X) = k.
Proof.
  unfold make_exog_names. destruct (find_index _ _) as [i|] eqn:E.
  - apply find_index_bound in E. rewrite length_seq in E.
    rewrite !length_app, length_firstn, length_skipn. unfold xnames.
    rewrite length_map, length_seq. simpl. lia.
  - unfold xnames. now rewrite length_map, length_seq.
Qed.

Section WithNum.
Variable num : Type.
Variable ols_params : list (list Z * num) -> nat -> num.
Variable ols_pvalues : list (list Z * num) -> nat -> num.

Lemma length_params (names : list string) (y : list num) (X : list (list Z)) :
  List.length (params (OLS_fit ols_params ols_pvalues names y X)) = List.length names /\
  List.length (pvalues (OLS_fit ols_params ols_pvalues names y X)) = List.length names.
Proof. cbn [OLS_fit params pvalues]. now rewrite !length_map, !length_seq. Qed.

(** The record of one product in pandasuse.py, cell by cell. *)
Lemma coef_record_cells (product : Z) (model : RegressionResults num) :
  NoDup (exog_names model) -> Forall param_name (exog_names model) ->
  List.length (params model) = List.length (exog_names model) ->
  List.length (pvalues model) = List.length (exog_names model) ->
  Pandasuse.coef_record product model =
  ("product_id"%string, IntCell num product)
    :: combine (exog_names model) (map (@NumCell num) (params model))
    ++ combine (map p_ (exog_names model)) (map (@NumCell num) (pvalues model)).
Proof.
  intros N F Lp Lv. unfold Pandasuse.coef_record.
  pose proof (NoDup_coef_keys N F) as NK.
  rewrite (dict_update_fresh String.eqb String.eqb_eq
             [("product_id"%string, IntCell num product)]).
  2:{ cbn [keys map fst app]. rewrite map_fst_combine by now rewrite length_map.
      apply NoDup_app_remove_r with (l' := map p_ (exog_names model)). exact NK. }
  rewrite (dict_update_fresh String.eqb String.eqb_eq).
  - reflexivity.
  - unfold keys. rewrite map_app. cbn [map fst].
    rewrite !map_fst_combine by (now rewrite !length_map). exact NK.
Qed.

(** The row of one product in polarsuse.py. *)
Lemma param_row_cells (product : Z) (model : RegressionResults num) :
  Forall x_name (exog_names model) ->
  Polarsuse.param_row product model =
  combine (exog_names model) (map (@NumCell num) (params model))
    ++ [("product_id"%string, IntCell num product)].
Proof.
  intros F. unfold Polarsuse.param_row.
  apply (dict_set_fresh String.eqb String.eqb_eq).
  unfold keys. rewrite in_map_iff. intros ([k v] & E & H). cbn [fst] in E. subst k.
  apply in_combine_l in H. rewrite Forall_forall in F.
  now apply (x_name_not_product_id (F _ H)).
Qed.

End WithNum.
End CoefFacts.

Module CoefClaims.
Import Pipeline NameFacts LevelFacts FrameFacts OneHotFacts AggFacts ResultFacts CoefFacts.

Section WithNum.
Variable num : Type.
Variable zero : num.
Variable add : num -> num -> num.
Variable ols_params : list (list Z * num) -> nat -> num.
Variable ols_pvalues : list (list Z * num) -> nat -> num.
Variable hash : Z * Z -> Z.

Lemma pandas_retained_nodup (table : list (input_row num)) :
  NoDup (Pandasuse.retained table).
Proof.
  unfold Pandasuse.retained. pose proof (levels_nodup (Pandasuse.day_of_week table)) as N.
  destruct (levels _); [constructor | now inversion N].
Qed.

Lemma pandas_model_names (table : list (input_row num)) (p : Z) :
  let model := Pandasuse.fit_product ols_params ols_pvalues (Pandasuse.dow_columns table)
                 (Pandasuse.product_df zero add table) p in
  (exog_names model = Pandasuse.dow_columns table \/
   exog_names model = "const"%string :: Pandasuse.dow_columns table) /\
  NoDup (exog_names model) /\ Forall param_name (exog_names model).
Proof.
  cbv zeta. unfold Pandasuse.fit_product, add_constant_named.
  cbn [fst snd OLS_fit exog_names]. rewrite pandas_dow_columns.
  assert (N : NoDup (map dow_name (Pandasuse.retained table)))
    by (apply NoDup_dow_names; [apply pandas_retained_nodup | apply pandas_retained_range]).
  assert (F : Forall param_name (map dow_name (Pandasuse.retained table))).
  { apply Forall_forall. intros n Hn. apply in_map_iff in Hn.
    destruct Hn as (l & <- & _). right. now exists l. }
  destruct (has_constant _ _).
  - auto.
  - split; [now right|]. split.
    + constructor; [apply const_not_dow_name | exact N].
    + constructor; [now left | exact F].
Qed.

Lemma pandas_row_product (p : Z) (model : RegressionResults num) :
  NoDup (exog_names model) -> Forall param_name (exog_names model) ->
  List.length (params model) = List.length (exog_names model) ->
  List.length (pvalues model) = List.length (exog_names model) ->
  row_product (Pandasuse.coef_record p model) = id_cell num p.
Proof. intros N F Lp Lv. now rewrite coef_record_cells. Qed.

Lemma polars_row_product (p : Z) (model : RegressionResults num) :
  Forall x_name (exog_names model) ->
  row_product (Polarsuse.param_row p model) = id_cell num p.
Proof.
  intros F. rewrite param_row_cells by assumption. unfold row_product.
  assert (Hk : forall v, In v (combine (exog_names model) (map (@NumCell num) (params model))) ->
                         fst v <> "product_id"%string).
  { intros [k v] H. apply in_combine_l in H. rewrite Forall_forall in F.
    now apply x_name_not_product_id, F. }
  induction (combine (exog_names model) (map (@NumCell num) (params model)))
    as [|[k v] d IH]; cbn [app dict_get].
  - reflexivity.
  - destruct (String.eqb_spec "product_id" k) as [E|_].
    + exfalso. apply (Hk (k, v)); [now left | now symmetry].
    + apply IH. intros; apply Hk; now right.
Qed.

Lemma polars_model_names (cols : list string) (product : list (prow num)) :
  let model := Polarsuse.fitted ols_params ols_pvalues cols product in
  Forall x_name (exog_names model) /\
  List.length (params model) = List.length (exog_names model) /\
  (List.length (exog_names model) = List.length cols \/
   List.length (exog_names model) = S (List.length cols)).
Proof.
  cbv zeta. unfold Polarsuse.fitted, Polarsuse.fit_array. cbn [OLS_fit exog_names params].
  rewrite length_map, length_seq, length_make_exog_names.
  split; [apply make_exog_names_x|]. split; [reflexivity|].
  destruct (has_constant _ _); auto.
Qed.

(** C9, as the code has it: each coefficient table has exactly one row
    per distinct product_id.  In pandasuse.py a row holds the product_id,
    every coefficient under its name and every p-value under [p_<name>];
    in polarsuse.py (for a frame with at least one weekday column) it
    holds the coefficients under statsmodels' names followed by the
    product_id, and no p-value. *)
Theorem coefficient_table_shape (table : list (input_row num)) :
  (map (@row_product num) (Pandasuse.coef_df zero add ols_params ols_pvalues table)
     = map (id_cell num) (levels (map (@Datasetup.product_id num) table)) /\
   forall p model,
     In (p, model) (Pandasuse.results zero add ols_params ols_pvalues table) ->
     (exog_names model = Pandasuse.dow_columns table \/
      exog_names model = "const"%string :: Pandasuse.dow_columns table) /\
     List.length (params model) = List.length (exog_names model) /\
     List.length (pvalues model) = List.length (exog_names model) /\
     Pandasuse.coef_record p model =
       ("product_id"%string, IntCell num p)
         :: combine (exog_names model) (map (@NumCell num) (params model))
         ++ combine (map p_ (exog_names model)) (map (@NumCell num) (pvalues model))) /\
  (forall f, Polarsuse.df table = Some f -> Polarsuse.dow_columns f <> [] ->
     exists res cdf,
       Polarsuse.results zero add ols_params ols_pvalues hash f = Some res /\
       Polarsuse.coef_df zero add ols_params ols_pvalues hash f = Some cdf /\
       Permutation (map (@row_product num) cdf)
                   (map (id_cell num) (levels (map (@Datasetup.product_id num) table))) /\
       forall p model,
         In (p, model) res ->
         List.length (params model) = List.length (exog_names model) /\
         (List.length (exog_names model) = List.length (Polarsuse.dow_columns f) \/
          List.length (exog_names model) = S (List.length (Polarsuse.dow_columns f))) /\
         Polarsuse.param_row p model =
           combine (exog_names model) (map (@NumCell num) (params model))
             ++ [("product_id"%string, IntCell num p)]).
Proof.
  split; [split|].
  - unfold Pandasuse.coef_df. rewrite pandas_results, !map_map.
    apply map_ext. intros p. cbn [fst snd].
    destruct (pandas_model_names table p) as (_ & N & F).
    apply pandas_row_product; try assumption; apply length_params.
  - intros p model H. rewrite pandas_results in H. apply in_map_iff in H.
    destruct H as (p' & E & _). injection E as -> <-.
    destruct (pandas_model_names table p) as (Hn & N & F).
    split; [exact Hn|]. split; [apply length_params|]. split; [apply length_params|].
    apply coef_record_cells; try assumption; apply length_params.
  - intros f Hf Hc.
    pose proof (polars_results zero add ols_params ols_pvalues hash f Hc) as Hr.
    cbv zeta in Hr. eexists. eexists. split; [exact Hr|].
    split; [unfold Polarsuse.coef_df; rewrite Hr; reflexivity|]. split.
    + rewrite !map_map.
      rewrite (map_ext _ (id_cell num)).
      2:{ intros p. cbn [fst snd]. apply polars_row_product, polars_model_names. }
      apply Permutation_map. apply NoDup_Permutation.
      * apply NoDup_unique, Z.eqb_eq.
      * apply levels_nodup.
      * intros p. rewrite (in_unique Z.eqb Z.eqb_eq), in_levels.
        now apply polars_product_ids.
    + intros p model H. apply in_map_iff in H.
      destruct H as (p' & E & _). injection E as -> <-.
      destruct (polars_model_names (Polarsuse.dow_columns f)
                  (filter (fun r => (product_id r =? p)%Z)
                          (Polarsuse.product_df zero add hash f))) as (F & L & K).
      split; [exact L|]. split; [exact K|]. now apply param_row_cells.
Qed.

(** C2, as the code has it: there is no rank check.  Every product of the
    input table, whatever the number of its product-date rows, gets a
    fitted model and a row of coefficients in the coefficient table (in
    polarsuse.py for a frame with at least one weekday column). *)
Theorem every_product_is_fitted (table : list (input_row num)) (p : Z) :
  In p (map (@Datasetup.product_id num) table) ->
  (exists model,
     In (p, model) (Pandasuse.results zero add ols_params ols_pvalues table) /\
     In (Pandasuse.coef_record p model)
        (Pandasuse.coef_df zero add ols_params ols_pvalues table)) /\
  (forall f, Polarsuse.df table = Some f -> Polarsuse.dow_columns f <> [] ->
     exists res cdf model,
       Polarsuse.results zero add ols_params ols_pvalues hash f = Some res /\
       Polarsuse.coef_df zero add ols_params ols_pvalues hash f = Some cdf /\
       In (p, model) res /\
       In (Polarsuse.param_row p model) cdf).
Proof.
  intros Hp. split.
  - set (model := Pandasuse.fit_product ols_params ols_pvalues (Pandasuse.dow_columns table)
                    (Pandasuse.product_df zero add table) p).
    exists model.
    assert (H : In (p, model) (Pandasuse.results zero add ols_params ols_pvalues table)).
    { rewrite pandas_results. apply in_map_iff. exists p. split; [reflexivity|].
      now apply in_levels. }
    split; [exact H|].
    unfold Pandasuse.coef_df. apply in_map_iff. exists (p, model). now split.
  - intros f Hf Hc.
    pose proof (polars_results zero add ols_params ols_pvalues hash f Hc) as Hr.
    cbv zeta in Hr.
    set (model := Polarsuse.fitted ols_params ols_pvalues (Polarsuse.dow_columns f)
                    (filter (fun r => (product_id r =? p)%Z)
                            (Polarsuse.product_df zero add hash f))).
    eexists. eexists. exists model. split; [exact Hr|].
    split; [unfold Polarsuse.coef_df; rewrite Hr; reflexivity|].
    assert (H : In (p, model)
                   (map (fun p => (p, Polarsuse.fitted ols_params ols_pvalues
                                        (Polarsuse.dow_columns f)
                                        (filter (fun r => (product_id r =? p)%Z)
                                                (Polarsuse.product_df zero add hash f))))
                        (unique Z.eqb (map (@product_id num)
                                           (Polarsuse.product_df zero add hash f))))).
    { apply in_map_iff. exists p. split; [reflexivity|].
      apply (in_unique Z.eqb Z.eqb_eq).
      now apply (proj2 (@polars_product_ids num zero add hash table f p Hf)). }
    split; [exact H|].
    apply in_map_iff. exists (p, model). now split.
Qed.

End WithNum.

Lemma every_product_is_fitted_witness :
  (exists model,
     In (1%Z, model)
        (Pandasuse.results 0%Z Z.add Examples.ols_moments Examples.ols_ones
           Examples.sparse_table) /\
     In (Pandasuse.coef_record 1 model)
        (Pandasuse.coef_df 0%Z Z.add Examples.ols_moments Examples.ols_ones
           Examples.sparse_table)) /\
  (forall f, Polarsuse.df Examples.sparse_table = Some f ->
     Polarsuse.dow_columns f <> [] ->
     exists res cdf model,
       Polarsuse.results 0%Z Z.add Examples.ols_moments Examples.ols_ones
         Examples.reverse_hash f = Some res /\
       Polarsuse.coef_df 0%Z Z.add Examples.ols_moments Examples.ols_ones
         Examples.reverse_hash f = Some cdf /\
       In (1%Z, model) res /\
       In (Polarsuse.param_row 1 model) cdf).
Proof.
  apply (@every_product_is_fitted Z 0%Z Z.add Examples.ols_moments Examples.ols_ones
           Examples.reverse_hash Examples.sparse_table 1%Z).
  simpl. auto.
Defined.

(** The columns of the two coefficient tables for [Examples.table]
    (Sunday, Monday, Tuesday). *)
Example pandas_coef_columns :
  coef_columns (Pandasuse.coef_df 0%Z Z.add Examples.ols_moments Examples.ols_ones
                  Examples.table)
  = ["product_id"; "const"; "dow_1"; "dow_6"; "p_const"; "p_dow_1"; "p_dow_6"]%string.
Proof. vm_compute. reflexivity. Qed.

Example polars_coef_columns :
  option_map (@coef_columns Z)
    (Polarsuse.run 0%Z Z.add Examples.ols_moments Examples.ols_ones
       Examples.reverse_hash Examples.table)
  = Some ["const"; "x1"; "x2"; "product_id"]%string.
Proof. vm_compute. reflexivity. Qed.

(** The claim of C2 fails: in [Examples.sparse_table] product 1 has a
    single product-date row for three regression parameters (intercept
    and two weekday columns), and both scripts store its model. *)
Lemma rank_deficient_product_fitted :
  ~ (forall (table : list (input_row Z)) (p : Z),
       List.length (filter (fun r => (product_id r =? p)%Z)
                           (Pandasuse.product_df 0%Z Z.add table))
         < 1 + List.length (Pandasuse.dow_columns table) ->
       ~ In p (keys (Pandasuse.results 0%Z Z.add Examples.ols_moments Examples.ols_ones
                       table))) /\
  ~ (forall (table : list (input_row Z)) (f : frame Z)
            (res : dict Z (RegressionResults Z)) (p : Z),
       Polarsuse.df table = Some f ->
       Polarsuse.results 0%Z Z.add Examples.ols_moments Examples.ols_ones
         Examples.reverse_hash f = Some res ->
       List.length (filter (fun r => (product_id r =? p)%Z)
                           (Polarsuse.product_df 0%Z Z.add Examples.reverse_hash f))
         < 1 + List.length (Polarsuse.dow_columns f) ->
       ~ In p (keys res)).
Proof.
  split.
  - intros H. apply (H Examples.sparse_table 1%Z).
    + vm_compute. lia.
    + vm_compute. auto.
  - intros H.
    let o := eval vm_compute in (Polarsuse.df Examples.sparse_table) in
    match o with Some ?x => pose (fr := x) end.
    let o := eval vm_compute in
      (Polarsuse.results 0%Z Z.add Examples.ols_moments Examples.ols_ones
         Examples.reverse_hash fr) in
    match o with Some ?x => pose (rs := x) end.
    apply (H Examples.sparse_table fr rs 1%Z).
    + vm_compute. reflexivity.
    + vm_compute. reflexivity.
    + vm_compute. lia.
    + vm_compute. auto.
Qed.

(** The claim of C9 fails for polarsuse.py: with an estimator whose
    coefficients are 0 and whose p-values are 1, no row of its
    coefficient table holds a p-value. *)
Lemma polars_table_has_no_pvalues :
  ~ (forall (table : list (input_row Z)) (f : frame Z)
            (res : dict Z (RegressionResults Z)) (p : Z)
            (model : RegressionResults Z),
       Polarsuse.df table = Some f ->
       Polarsuse.results 0%Z Z.add Examples.ols_zeros Examples.ols_ones
         Examples.reverse_hash f = Some res ->
       In (p, model) res ->
       holds_pvalues (Polarsuse.param_row p model) model).
Proof.
  intros H.
  let o := eval vm_compute in (Polarsuse.df Examples.table) in
  match o with Some ?x => pose (fr := x) end.
  let r := eval vm_compute in
    (Polarsuse.results 0%Z Z.add Examples.ols_zeros Examples.ols_ones
       Examples.reverse_hash fr) in
  match r with
  | Some ((?p, ?m) :: ?rest) => specialize (H Examples.table fr ((p, m) :: rest) p m)
  end.
  assert (Hh := H ltac:(vm_compute; reflexivity) ltac:(vm_compute; reflexivity)
                  ltac:(left; reflexivity)).
  vm_compute in Hh. inversion Hh as [|? ? Hin _]; subst.
  repeat (destruct Hin as [Hin|Hin]; [discriminate Hin|]). exact Hin.
Qed.

End CoefClaims.

(** ** Agreement of the two variants *)

Module VariantFacts.
Import Pipeline NameFacts LevelFacts FrameFacts OneHotFacts AggFacts ResultFacts.
Import CoefFacts Variants.

Lemma levels_eq (data L : list Z) :
  StronglySorted (fun x y => (x <=? y)%Z = true) L -> NoDup L ->
  (forall z, In z data <-> In z L) ->
  levels data = L.
Proof.
  intros S N H. apply (sorted_nodup_unique Z.leb RoundTrip.Zleb_antisym);
    try assumption; [apply levels_sorted | apply levels_nodup |].
  intros z. now rewrite in_levels.
Qed.

Lemma Permutation_filter_compat (A : Type) (f : A -> bool) (l l' : list A) :
  Permutation l l' -> Permutation (filter f l) (filter f l').
Proof.
  induction 1 as [|x l l' _ IH|x y l|l l' l'' _ IH1 _ IH2]; cbn [filter].
  - constructor.
  - destruct (f x); [now constructor | exact IH].
  - destruct (f x), (f y); try reflexivity. apply perm_swap.
  - now transitivity (filter f l').
Qed.

Lemma is_constant_iff (c : list Z) :
  is_constant c = true <-> (forall x y, In x c -> In y c -> x = y).
Proof.
  unfold is_constant. rewrite forallb_forall. split.
  - intros H x y Hx Hy. apply H in Hx, Hy. apply Z.eqb_eq in Hx, Hy. congruence.
  - intros H v Hv. apply Z.eqb_eq. apply H; [exact Hv|].
    destruct c as [|a c]; [contradiction | now left].
Qed.

Lemma is_nonzero_const_perm (c c' : list Z) :
  Permutation c c' -> is_nonzero_const c = is_nonzero_const c'.
Proof.
  intros P. unfold is_nonzero_const. apply eq_true_iff_eq.
  rewrite !andb_true_iff, !is_constant_iff, !forallb_forall.
  assert (Hin : forall x, In x c <-> In x c').
  { intros x. split; apply Permutation_in; [exact P | now symmetry]. }
  split; intros [H1 H2]; split; intros; try apply H1; try apply H2; now apply Hin.
Qed.

Lemma has_constant_perm (k : nat) (X X' : list (list Z)) :
  Permutation X X' -> has_constant k X = has_constant k X'.
Proof.
  intros P. unfold has_constant.
  induction (seq 0 k) as [|j l IH]; cbn [existsb]; [reflexivity|].
  rewrite IH. f_equal. apply is_nonzero_const_perm. unfold column.
  now apply Permutation_map.
Qed.

Lemma indicator_shift (v l : Z) : indicator (v + 1) (l + 1) = indicator v l.
Proof.
  unfold indicator. destruct (Z.eqb_spec (v + 1) (l + 1)), (Z.eqb_spec v l); lia || reflexivity.
Qed.

Section WithNum.
Variable num : Type.
Variable zero : num.
Variable add : num -> num -> num.
Variable ols_params : list (list Z * num) -> nat -> num.
Variable ols_pvalues : list (list Z * num) -> nat -> num.
Variable hash : Z * Z -> Z.

Section Covered.
Variable table : list (input_row num).
Hypothesis Hweek : covers_week table.

Lemma pandas_levels_week : levels (Pandasuse.day_of_week table) = [0; 1; 2; 3; 4; 5; 6]%Z.
Proof.
  apply levels_eq.
  - repeat constructor.
  - repeat constructor; simpl; intuition discriminate.
  - intros z. split.
    + intros H. apply in_map_iff in H. destruct H as (r & <- & _).
      pose proof (dayofweek_range (Datasetup.date r)) as R.
      simpl. lia.
    + intros H. apply Hweek. simpl in H. lia.
Qed.

Lemma polars_levels_week : levels (Polarsuse.weekdays table) = [1; 2; 3; 4; 5; 6; 7]%Z.
Proof.
  apply levels_eq.
  - repeat constructor.
  - repeat constructor; simpl; intuition discriminate.
  - intros z. split.
    + intros H. apply in_map_iff in H. destruct H as (r & <- & _).
      pose proof (weekday_range (Datasetup.date r)) as R.
      simpl. lia.
    + intros H. assert (Hz : In (z - 1)%Z (Pandasuse.day_of_week table))
        by (apply Hweek; simpl in H; lia).
      apply in_map_iff in Hz. destruct Hz as (r & E & Hr).
      apply in_map_iff. exists r. split; [|exact Hr].
      unfold Calendar.weekday. lia.
Qed.

Lemma pandas_retained_week : Pandasuse.retained table = [1; 2; 3; 4; 5; 6]%Z.
Proof. unfold Pandasuse.retained. now rewrite pandas_levels_week. Qed.

Lemma polars_retained_week : Polarsuse.retained table = [2; 3; 4; 5; 6; 7]%Z.
Proof. unfold Polarsuse.retained. now rewrite polars_levels_week. Qed.

Lemma polars_df_week :
  Polarsuse.df table =
  Some {| columns := base_columns ++ map dow_name [2; 3; 4; 5; 6; 7]%Z;
          rows := map (fun r => mk_frow r (encode [2; 3; 4; 5; 6; 7]%Z
                                  (Calendar.weekday (Datasetup.date r))))
                      table |}.
Proof.
  rewrite polars_frame, polars_retained_week, polars_levels_week. reflexivity.
Qed.

End Covered.

(** *** One product's observations

    [enc] gives the one-hot cells of a date; [vec] is what the columns
    [cols] read from them. *)
Section Observations.
Variable table : list (input_row num).
Variable enc : Z -> dict string Z.
Variable cols : list string.
Variable vec : Z -> list Z.
Hypothesis Hvec : forall d, indicators cols (enc d) = vec d.

Lemma agg_group_obs (k : Z * Z) :
  In k (map (@key_of num) (map (product_view enc) table)) ->
  indicators cols (dows (agg_group zero add cols (map (product_view enc) table) k)) = vec (snd k) /\
  sales (agg_group zero add cols (map (product_view enc) table) k) = total_sales zero add table k.
Proof.
  intros Hk. split.
  - assert (Hagg : aggregated zero add cols (map (product_view enc) table)
                     (map (agg_group zero add cols (map (product_view enc) table)) (unique key_eqb (map (@key_of num) (map (product_view enc) table))))).
    { apply aggregated_generic; [reflexivity|].
      intros r1 r2 H1 H2 E. apply in_map_iff in H1, H2.
      destruct H1 as (x1 & <- & _), H2 as (x2 & <- & _).
      unfold product_view in *. cbn [date dows] in *. now rewrite E. }
    destruct Hagg as (_ & _ & Hrows).
    apply in_map_iff in Hk. destruct Hk as (r & Er & Hr).
    destruct (Hrows (agg_group zero add cols (map (product_view enc) table) k)) as [_ Hind].
    { apply in_map. apply (in_unique key_eqb key_eqb_eq). rewrite <- Er. now apply in_map. }
    rewrite (Hind r Hr) by (now rewrite key_of_agg_group).
    apply in_map_iff in Hr. destruct Hr as (x & <- & _).
    unfold product_view in *. cbn [dows key_of product_id date] in *.
    rewrite Hvec. now subst k.
  - cbn [agg_group sales]. unfold total_sales. f_equal.
    rewrite (@filter_map_commute _ _ (product_view enc)
               (fun r => key_eqb (Datasetup.product_id r, Datasetup.date r) k))
      by reflexivity.
    now rewrite map_map.
Qed.

(** Design matrix and response of product [p] when the groups come out
    in the order [ks]. *)
Lemma product_obs (ks : list (Z * Z)) (p : Z) :
  (forall k, In k ks -> In k (map (@key_of num) (map (product_view enc) table))) ->
  let L := filter (fun k => (fst k =? p)%Z) ks in
  let group := filter (fun r => (product_id r =? p)%Z)
                      (map (agg_group zero add cols (map (product_view enc) table)) ks) in
  design cols group = map (fun k => vec (snd k)) L /\
  map (@sales num) group = map (total_sales zero add table) L.
Proof.
  intros Hks L group.
  assert (Eg : group = map (agg_group zero add cols (map (product_view enc) table)) L).
  { unfold group, L. apply filter_map_commute. intros k _. now destruct k. }
  assert (HL : forall k, In k L -> In k (map (@key_of num) (map (product_view enc) table))).
  { intros k Hk. apply Hks. unfold L in Hk. now apply filter_In in Hk. }
  rewrite Eg. unfold design. rewrite !map_map.
  split; apply map_ext_in; intros k Hk; now apply agg_group_obs, HL.
Qed.

End Observations.

Lemma obs_perm (L L' : list (Z * Z)) (vec : Z * Z -> list Z) (resp : Z * Z -> num)
      (k : nat) :
  Permutation L L' ->
  has_constant k (map vec L) = has_constant k (map vec L') /\
  Permutation (combine (add_constant k (map vec L)) (map resp L))
              (combine (add_constant k (map vec L')) (map resp L')).
Proof.
  intros P.
  assert (Hc : has_constant k (map vec L) = has_constant k (map vec L'))
    by (apply has_constant_perm; now apply Permutation_map).
  split; [exact Hc|]. unfold add_constant. rewrite <- Hc.
  destruct (has_constant k (map vec L)).
  - rewrite !combine_map_same. now apply Permutation_map.
  - rewrite !map_map, !combine_map_same. now apply Permutation_map.
Qed.

Lemma vector_pandas (d : Z) :
  indicators (map dow_name [1; 2; 3; 4; 5; 6]%Z)
             (encode [1; 2; 3; 4; 5; 6]%Z (Calendar.dayofweek d))
  = map (indicator (Calendar.dayofweek d)) [1; 2; 3; 4; 5; 6]%Z.
Proof. apply indicators_encode. simpl. lia. Qed.

Lemma vector_polars (d : Z) :
  indicators (map dow_name [2; 3; 4; 5; 6; 7]%Z)
             (encode [2; 3; 4; 5; 6; 7]%Z (Calendar.weekday d))
  = map (indicator (Calendar.dayofweek d)) [1; 2; 3; 4; 5; 6]%Z.
Proof.
  rewrite indicators_encode by (simpl; lia).
  change [2; 3; 4; 5; 6; 7]%Z with (map (fun l => l + 1)%Z [1; 2; 3; 4; 5; 6]%Z).
  rewrite map_map. apply map_ext. intros l. apply indicator_shift.
Qed.

Section Covered2.
Variable table : list (input_row num).
Hypothesis Hweek : covers_week table.

Lemma pandas_table_week :
  map (@to_prow num) (rows (Pandasuse.df table)) =
  map (product_view (fun d => encode [1; 2; 3; 4; 5; 6]%Z (Calendar.dayofweek d))) table.
Proof.
  rewrite pandas_frame, (pandas_retained_week Hweek). cbn [rows]. now rewrite map_map.
Qed.

Lemma key_of_table (enc : Z -> dict string Z) :
  map (@key_of num) (map (product_view enc) table)
  = map (fun r => (Datasetup.product_id r, Datasetup.date r)) table.
Proof. now rewrite map_map. Qed.

Lemma pandas_params (p : Z) :
  let model := Pandasuse.fit_product ols_params ols_pvalues (Pandasuse.dow_columns table)
                 (Pandasuse.product_df zero add table) p in
  let L := filter (fun k => (fst k =? p)%Z) (sort key_leb (product_dates table)) in
  params model = estimates zero add ols_params table (sort key_leb (product_dates table)) p /\
  observed model = observations zero add table (sort key_leb (product_dates table)) p /\
  List.length (exog_names model) = (if has_constant 6 (map weekday_vector L) then 6 else 7).
Proof.
  cbv zeta.
  unfold Pandasuse.fit_product, Pandasuse.product_df, Pandasuse.groupby_agg.
  rewrite pandas_dow_columns, (pandas_retained_week Hweek), pandas_table_week.
  rewrite (key_of_table (fun d => encode [1; 2; 3; 4; 5; 6]%Z (Calendar.dayofweek d))).
  fold (product_dates table).
  pose proof (@product_obs table
                (fun d => encode [1; 2; 3; 4; 5; 6]%Z (Calendar.dayofweek d))
                (map dow_name [1; 2; 3; 4; 5; 6]%Z)
                (fun d => map (indicator (Calendar.dayofweek d)) [1; 2; 3; 4; 5; 6]%Z)
                vector_pandas (sort key_leb (product_dates table)) p) as Ho.
  cbv beta zeta in Ho. destruct Ho as [Hd Hy].
  { intros k Hk. rewrite map_map. apply in_sort in Hk.
    exact (proj1 (in_unique key_eqb key_eqb_eq _ k) Hk). }
  unfold add_constant_named, estimates, observations, observed.
  cbn [fst snd OLS_fit params exog_names exog endog].
  set (D := design _ _). set (Y := map (@sales num) _).
  assert (ED : D = map weekday_vector
                       (filter (fun k => (fst k =? p)%Z) (sort key_leb (product_dates table))))
    by exact Hd.
  assert (EY : Y = map (total_sales zero add table)
                       (filter (fun k => (fst k =? p)%Z) (sort key_leb (product_dates table))))
    by exact Hy.
  rewrite ED, EY, length_map. cbn [List.length].
  destruct (has_constant 6 _); repeat split; reflexivity.
Qed.

Lemma polars_params (p : Z) :
  let f := {| columns := base_columns ++ map dow_name [2; 3; 4; 5; 6; 7]%Z;
              rows := map (fun r => mk_frow r (encode [2; 3; 4; 5; 6; 7]%Z
                                      (Calendar.weekday (Datasetup.date r))))
                          table |} in
  let model := Polarsuse.fitted ols_params ols_pvalues (Polarsuse.dow_columns f)
                 (filter (fun r => (product_id r =? p)%Z)
                         (Polarsuse.product_df zero add hash f)) in
  let L := filter (fun k => (fst k =? p)%Z) (sort (hash_leb hash) (product_dates table)) in
  params model
    = estimates zero add ols_params table (sort (hash_leb hash) (product_dates table)) p /\
  observed model
    = observations zero add table (sort (hash_leb hash) (product_dates table)) p /\
  List.length (exog_names model) = (if has_constant 6 (map weekday_vector L) then 6 else 7).
Proof.
  intros f. cbv zeta.
  unfold Polarsuse.fitted, Polarsuse.fit_array, Polarsuse.product_df,
    Polarsuse.group_by_agg.
  assert (Ec : Polarsuse.dow_columns f = map dow_name [2; 3; 4; 5; 6; 7]%Z)
    by apply startswith_dow_names.
  rewrite Ec. unfold f. cbn [rows]. rewrite map_map.
  change (map (fun x => to_prow (mk_frow x (encode [2; 3; 4; 5; 6; 7]%Z
                                   (Calendar.weekday (Datasetup.date x))))) table)
    with (map (product_view (fun d => encode [2; 3; 4; 5; 6; 7]%Z (Calendar.weekday d)))
              table).
  rewrite (key_of_table (fun d => encode [2; 3; 4; 5; 6; 7]%Z (Calendar.weekday d))).
  fold (product_dates table).
  pose proof (@product_obs table
                (fun d => encode [2; 3; 4; 5; 6; 7]%Z (Calendar.weekday d))
                (map dow_name [2; 3; 4; 5; 6; 7]%Z)
                (fun d => map (indicator (Calendar.dayofweek d)) [1; 2; 3; 4; 5; 6]%Z)
                vector_polars (sort (hash_leb hash) (product_dates table)) p) as Ho.
  cbv beta zeta in Ho. destruct Ho as [Hd Hy].
  { intros k Hk. rewrite map_map. apply in_sort in Hk.
    exact (proj1 (in_unique key_eqb key_eqb_eq _ k) Hk). }
  unfold estimates, observations, observed.
  cbn [OLS_fit params exog_names exog endog].
  set (D := design _ _). set (Y := map (@sales num) _).
  assert (ED : D = map weekday_vector
                       (filter (fun k => (fst k =? p)%Z)
                               (sort (hash_leb hash) (product_dates table))))
    by exact Hd.
  assert (EY : Y = map (total_sales zero add table)
                       (filter (fun k => (fst k =? p)%Z)
                               (sort (hash_leb hash) (product_dates table))))
    by exact Hy.
  rewrite ED, EY, length_make_exog_names, length_map. cbn [List.length].
  destruct (has_constant 6 _); repeat split; reflexivity.
Qed.

End Covered2.

(** The observations of a product are the same multiset in any order of
    the product-dates, with the same verdict of [add_constant]; an
    estimator that does not depend on their order returns the same
    estimates. *)
Lemma observations_perm (table : list (input_row num)) (ks ks' : list (Z * Z)) (p : Z) :
  Permutation ks ks' ->
  has_constant 6 (map weekday_vector (filter (fun k => (fst k =? p)%Z) ks))
  = has_constant 6 (map weekday_vector (filter (fun k => (fst k =? p)%Z) ks')) /\
  Permutation (observations zero add table ks p) (observations zero add table ks' p).
Proof.
  intros P. unfold observations.
  apply (obs_perm weekday_vector (total_sales zero add table) 6
           (Permutation_filter_compat (fun k => (fst k =? p)%Z) P)).
Qed.

Lemma estimates_perm (table : list (input_row num)) (ks ks' : list (Z * Z)) (p : Z) :
  order_independent ols_params ->
  Permutation ks ks' ->
  estimates zero add ols_params table ks p = estimates zero add ols_params table ks' p.
Proof.
  intros ols_perm P. unfold estimates.
  destruct (observations_perm table p P) as [Hc Ho].
  rewrite <- Hc. apply map_ext. intros j. now apply ols_perm.
Qed.

(** C1, for tables whose dates cover the whole week: both scripts drop
    Monday and keep the six columns Tuesday to Sunday, fit the same
    products, and fit each product on the same observations up to the
    order of the rows, with the same number of parameters; an estimator
    that does not depend on the order of its observations gives the same
    parameter vector in both. *)
Theorem variants_agree (table : list (input_row num)) :
  covers_week table ->
  same_output zero add ols_params ols_pvalues hash table.
Proof.
  intros Hweek. unfold same_output.
  assert (Hc : Polarsuse.dow_columns
                 {| columns := base_columns ++ map dow_name [2; 3; 4; 5; 6; 7]%Z;
                    rows := map (fun r => mk_frow r (encode [2; 3; 4; 5; 6; 7]%Z
                                            (Calendar.weekday (Datasetup.date r))))
                                table |} <> []).
  { replace (Polarsuse.dow_columns _) with (map dow_name [2; 3; 4; 5; 6; 7]%Z)
      by (symmetry; apply startswith_dow_names).
    discriminate. }
  pose proof (polars_results zero add ols_params ols_pvalues hash _ Hc) as Hr.
  cbv zeta in Hr.
  eexists. eexists.
  split; [apply (polars_df_week Hweek)|].
  split; [exact Hr|].
  split; [unfold Pandasuse.baseline; now rewrite (pandas_levels_week Hweek)|].
  split; [now rewrite pandas_dow_columns, (pandas_retained_week Hweek)|].
  split; [apply startswith_dow_names|].
  rewrite pandas_results. unfold keys. rewrite !map_map. cbn [fst].
  rewrite !map_id.
  split; [apply levels_nodup|]. split.
  - apply NoDup_Permutation; [apply levels_nodup | apply NoDup_unique, Z.eqb_eq |].
    intros p. rewrite in_levels, (in_unique Z.eqb Z.eqb_eq). symmetry.
    apply polars_product_ids, (polars_df_week Hweek).
  - intros p ma mb Ha Hb. apply in_map_iff in Ha, Hb.
    destruct Ha as (pa & Ea & _), Hb as (pb & Eb & _).
    pose proof (f_equal fst Ea) as Ea1. pose proof (f_equal snd Ea) as Ea2.
    pose proof (f_equal fst Eb) as Eb1. pose proof (f_equal snd Eb) as Eb2.
    cbn [fst snd] in Ea1, Ea2, Eb1, Eb2. subst pa pb ma mb.
    destruct (pandas_params Hweek p) as (Pa & Oa & La).
    destruct (@polars_params table p) as (Pb & Ob & Lb). cbv zeta in Pa, Oa, La, Pb, Ob, Lb.
    assert (P : Permutation (sort key_leb (product_dates table))
                            (sort (hash_leb hash) (product_dates table))).
    { transitivity (product_dates table); [apply sort_perm | symmetry; apply sort_perm]. }
    destruct (observations_perm table p P) as [Hh Ho].
    split; [|split].
    + rewrite Oa, Ob. exact Ho.
    + rewrite La, Lb, Hh. reflexivity.
    + intros Hoi. rewrite Pa, Pb. now apply estimates_perm.
Qed.

End WithNum.

Lemma fold_add_perm (l l' : list Z) :
  Permutation l l' -> forall a, fold_left Z.add l a = fold_left Z.add l' a.
Proof.
  induction 1 as [|x l l' _ IH|x y l|l l' l'' _ IH1 _ IH2]; intros a; cbn [fold_left].
  - reflexivity.
  - apply IH.
  - f_equal. lia.
  - now rewrite IH1.
Qed.

(** The estimator of the examples does not depend on the order of its
    observations. *)
Lemma ols_moments_perm : order_independent Examples.ols_moments.
Proof.
  intros obs obs' P j. unfold Examples.ols_moments. apply fold_add_perm.
  now apply Permutation_map.
Qed.

Lemma fortnight_covers_week : covers_week Examples.fortnight_table.
Proof.
  intros w Hw.
  assert (E : (w = 0 \/ w = 1 \/ w = 2 \/ w = 3 \/ w = 4 \/ w = 5 \/ w = 6)%Z) by lia.
  destruct E as [->|[->|[->|[->|[->|[->| ->]]]]]]; vm_compute; tauto.
Qed.

Lemma variants_agree_witness :
  same_output 0%Z Z.add Examples.ols_moments Examples.ols_ones Examples.reverse_hash
              Examples.fortnight_table.
Proof.
  apply (@variants_agree Z 0%Z Z.add Examples.ols_moments Examples.ols_ones
           Examples.reverse_hash Examples.fortnight_table).
  exact fortnight_covers_week.
Defined.

(** The claim of C1 fails on a table without a Monday: for the single
    Tuesday of [Examples.tuesday_table] pandas takes Tuesday as baseline
    and keeps no column, and polars finds no [dow_1] to drop. *)
Lemma variants_differ_without_monday :
  ~ (forall table : list (input_row Z),
       same_output 0%Z Z.add Examples.ols_moments Examples.ols_ones
                   Examples.reverse_hash table).
Proof.
  intros H. destruct (H Examples.tuesday_table) as (f & res & Hf & _).
  vm_compute in Hf. discriminate Hf.
Qed.

Lemma tuesday_table_frames :
  Polarsuse.df Examples.tuesday_table = None /\
  Pandasuse.baseline Examples.tuesday_table = 1%Z /\
  Pandasuse.dow_columns Examples.tuesday_table = [].
Proof. vm_compute. auto. Qed.

End VariantFacts.

(** * Further properties *)

(** ** datasetup.py: the table as a whole *)

Module DatasetupMore.
Import Numpy NumpyFacts NumpyFacts2 Datasetup DatasetupFacts.


Lemma NoDup_flat_map_disjoint (A B : Type) (f : A -> list B) (l : list A) :
  NoDup l ->
  (forall x, In x l -> NoDup (f x)) ->
  (forall x y b, In x l -> In y l -> In b (f x) -> In b (f y) -> x = y) ->
  NoDup (flat_map f l).
Proof.
  induction 1 as [|x l Hx N IH]; intros Hf Hd; cbn [flat_map]; [constructor|].
  apply NoDup_app.
  - apply Hf. now left.
  - apply IH; [intros; apply Hf; now right|].
    intros a b c Ha Hb. apply Hd; now right.
  - intros b Hb Hin. apply in_flat_map in Hin. destruct Hin as (y & Hy & Hby).
    apply Hx. rewrite (Hd x y b); auto; [now left | now right].
Qed.

Lemma NoDup_ndindex (sh : list nat) : NoDup (ndindex sh).
Proof.
  induction sh as [|n sh IH]; cbn [ndindex].
  - repeat constructor. intros [].
  - apply NoDup_flat_map_disjoint.
    + apply seq_NoDup.
    + intros i _. apply CoefFacts.NoDup_map_in; [|exact IH].
      intros a b _ _ E. now injection E.
    + intros i j b _ _ Hi Hj. apply in_map_iff in Hi, Hj.
      destruct Hi as (a & <- & _), Hj as (a' & E & _). now injection E.
Qed.

Section WithNum.
Variable num : Type.

(** A table is only built from a 3-D sales array and a fitted array with
    as many elements. *)
Lemma datasetup_some_inv (data : npz num) (df : list (row num)) :
  datasetup data = Some df ->
  exists S_ P_ N_,
    shape (npz_synth_sales_data data) = [S_; P_; N_] /\
    size (shape (npz_fitted_line data)) = S_ * P_ * N_.
Proof.
  intros H.
  destruct (shape (npz_synth_sales_data data)) as [|a [|b [|c [|d sh]]]] eqn:Hsh;
    try (unfold datasetup in H; cbv zeta in H; rewrite Hsh in H; discriminate H).
  exists a, b, c. split; [reflexivity|].
  destruct (Nat.eq_dec (size (shape (npz_fitted_line data))) (a * b * c)) as [E|E];
    [exact E|].
  rewrite (datasetup_mismatch data Hsh E) in H. discriminate H.
Qed.


(** X2: whenever a table is built, no two of its rows share store, product
    and date, and every row lies within the extents of the sales array:
    stores [0 .. S-1], products [0 .. P-1], dates within N days from
    2025-06-01. *)
Theorem table_keys_distinct (data : npz num) (df : list (row num)) :
  datasetup data = Some df ->
  NoDup (map (fun r => (store_id r, product_id r, date r)) df) /\
  exists S_ P_ N_,
    shape (npz_synth_sales_data data) = [S_; P_; N_] /\
    forall r, In r df ->
      (0 <= store_id r < Z.of_nat S_)%Z /\
      (0 <= product_id r < Z.of_nat P_)%Z /\
      (Calendar.days_from_civil 2025 6 1 <= date r
         < Calendar.days_from_civil 2025 6 1 + Z.of_nat N_)%Z.
Proof.
  intros H. destruct (datasetup_some_inv data H) as (S_ & P_ & N_ & Hsh & Hsz).
  rewrite (datasetup_rows data Hsh Hsz) in H.
  apply (f_equal (fun o => match o with Some x => x | None => [] end)) in H.
  cbv beta iota in H. subst df.
  assert (Hlen : List.length (ndindex [S_; P_; N_])
                 = List.length (ndindex (shape (npz_fitted_line data)))).
  { rewrite !length_ndindex, Hsz. simpl. lia. }
  split.
  - set (g := fun i : list nat =>
                (Z.of_nat (nth 0 i 0), Z.of_nat (nth 1 i 0),
                 Z.add start_date (Z.of_nat (nth 2 i 0)))).
    match goal with |- NoDup ?l => replace l with (map g (ndindex [S_; P_; N_])) end.
    2:{ rewrite <- (CoefFacts.map_fst_combine _ _ Hlen) at 1. rewrite !map_map.
        apply map_ext. now intros [i j]. }
    unfold g. apply CoefFacts.NoDup_map_in; [|apply NoDup_ndindex].
    intros i j Hi Hj E. apply in_ndindex3 in Hi, Hj.
    destruct Hi as (s & p & t & -> & _), Hj as (s' & p' & t' & -> & _).
    cbn [nth] in E.
    pose proof (f_equal (fun x => fst (fst x)) E) as E1.
    pose proof (f_equal (fun x => snd (fst x)) E) as E2.
    pose proof (f_equal snd E) as E3. cbn [fst snd] in E1, E2, E3.
    apply Nat2Z.inj in E1, E2. apply Z.add_reg_l, Nat2Z.inj in E3. now subst.
  - exists S_, P_, N_. split; [exact Hsh|]. intros r Hr.
    apply in_map_iff in Hr. destruct Hr as ([i j] & <- & Hij).
    apply in_combine_l in Hij. apply in_ndindex3 in Hij.
    destruct Hij as (s & p & t & -> & Hs & Hp & Ht).
    cbn [store_id product_id date fst nth].
    change (Calendar.days_from_civil 2025 6 1) with start_date. lia.
Qed.

End WithNum.


Lemma table_keys_distinct_witness :
  NoDup (map (fun r => (store_id r, product_id r, date r)) Examples.table) /\
  exists S_ P_ N_,
    shape (npz_synth_sales_data Examples.bundle) = [S_; P_; N_] /\
    forall r, In r Examples.table ->
      (0 <= store_id r < Z.of_nat S_)%Z /\
      (0 <= product_id r < Z.of_nat P_)%Z /\
      (Calendar.days_from_civil 2025 6 1 <= date r
         < Calendar.days_from_civil 2025 6 1 + Z.of_nat N_)%Z.
Proof.
  apply (@table_keys_distinct Z Examples.bundle Examples.table). reflexivity.
Defined.

End DatasetupMore.

(** ** Feature engineering *)

Module FrameMore.
Import Pipeline NameFacts LevelFacts FrameFacts OneHotFacts CoefFacts.

Lemma keys_encode (ls : list Z) (v : Z) : keys (encode ls v) = map dow_name ls.
Proof. unfold keys, encode. rewrite map_map. reflexivity. Qed.

Section WithNum.
Variable num : Type.

Lemma polars_retained_nodup (table : list (input_row num)) :
  NoDup (Polarsuse.retained table).
Proof. unfold Polarsuse.retained. apply NoDup_filter, levels_nodup. Qed.

(** X4: feature engineering only adds columns: the frame holds the input rows
    in their order, every row has one cell for each one-hot column, in
    column order, and the one-hot column names are distinct. *)
Theorem features_keep_rows (table : list (input_row num)) :
  (map (@base num) (rows (Pandasuse.df table)) = table /\
   NoDup (Pandasuse.dow_columns table) /\
   forall r, In r (rows (Pandasuse.df table)) ->
     keys (onehot r) = Pandasuse.dow_columns table) /\
  (forall f, Polarsuse.df table = Some f ->
     map (@base num) (rows f) = table /\
     NoDup (Polarsuse.dow_columns f) /\
     forall r, In r (rows f) -> keys (onehot r) = Polarsuse.dow_columns f).
Proof.
  split.
  - rewrite pandas_dow_columns, pandas_frame. cbn [rows]. split; [|split].
    + rewrite map_map. cbn [base]. apply map_id.
    + apply NoDup_dow_names; [apply CoefClaims.pandas_retained_nodup | apply pandas_retained_range].
    + intros r Hr. apply in_map_iff in Hr. destruct Hr as (x & <- & _).
      cbn [onehot]. apply keys_encode.
  - intros f Hf. rewrite (polars_dow_columns _ Hf).
    rewrite polars_frame in Hf. destruct (existsb _ _); [|discriminate].
    injection Hf as <-. cbn [rows]. split; [|split].
    + rewrite map_map. cbn [base]. apply map_id.
    + apply NoDup_dow_names; [apply polars_retained_nodup | apply polars_retained_range].
    + intros r Hr. apply in_map_iff in Hr. destruct Hr as (x & <- & _).
      cbn [onehot]. apply keys_encode.
Qed.

(** X5: on a table that has rows, polarsuse.py stops at
    [df.drop("dow_1")] exactly when no date of the table is a Monday;
    otherwise its one-hot columns are [dow_w] for the ISO weekdays [w]
    present other than Monday. *)
Theorem polars_needs_a_monday (table : list (input_row num)) :
  table <> [] ->
  (Polarsuse.df table = None <->
   forall r, In r table -> Calendar.weekday (Datasetup.date r) <> 1%Z) /\
  (forall f c, Polarsuse.df table = Some f ->
     (In c (Polarsuse.dow_columns f) <->
      exists r, In r table /\ Calendar.weekday (Datasetup.date r) <> 1%Z /\
                c = dow_name (Calendar.weekday (Datasetup.date r)))).
Proof.
  intros _. split.
  - rewrite polars_frame.
    destruct (existsb (Z.eqb 1) (levels (Polarsuse.weekdays table))) eqn:E.
    + split; [discriminate|]. intros H. exfalso.
      apply existsb_exists in E. destruct E as (w & Hw & E). apply Z.eqb_eq in E. subst w.
      apply in_levels, in_map_iff in Hw. destruct Hw as (r & Er & Hr).
      now apply (H r Hr).
    + split; [|reflexivity]. intros _ r Hr Hm.
      assert (E' : existsb (Z.eqb 1) (levels (Polarsuse.weekdays table)) = true).
      { apply existsb_exists. exists 1%Z. split; [|reflexivity].
        apply in_levels, in_map_iff. now exists r. }
      congruence.
  - intros f c Hf. rewrite (polars_dow_columns _ Hf), in_map_iff.
    unfold Polarsuse.retained, Polarsuse.baseline. split.
    + intros (w & <- & Hw). apply filter_In in Hw. destruct Hw as [Hw Hne].
      apply in_levels, in_map_iff in Hw. destruct Hw as (r & <- & Hr).
      exists r. split; [exact Hr|]. split; [|reflexivity].
      apply negb_true_iff, Z.eqb_neq in Hne. congruence.
    + intros (r & Hr & Hne & ->). eexists. split; [reflexivity|].
      apply filter_In. split.
      * apply in_levels. now apply (in_map (fun r => Calendar.weekday (Datasetup.date r))).
      * apply negb_true_iff, Z.eqb_neq. congruence.
Qed.

(** X6: [drop_first] in pandasuse.py drops the earliest weekday present, which
    is Monday only if some date is a Monday: the baseline is a weekday of
    the table no later than any other, and the one-hot columns are
    [dow_w] for the other weekdays [w] present. *)
Theorem pandas_baseline_is_first_present (table : list (input_row num)) :
  table <> [] ->
  In (Pandasuse.baseline table) (Pandasuse.day_of_week table) /\
  (forall r, In r table ->
     (Pandasuse.baseline table <= Calendar.dayofweek (Datasetup.date r))%Z) /\
  (forall c, In c (Pandasuse.dow_columns table) <->
     exists r, In r table /\
               Calendar.dayofweek (Datasetup.date r) <> Pandasuse.baseline table /\
               c = dow_name (Calendar.dayofweek (Datasetup.date r))).
Proof.
  intros Hne. unfold Pandasuse.baseline. split; [|split].
  - apply hd_levels_in. unfold Pandasuse.day_of_week.
    destruct table; [contradiction | discriminate].
  - intros r Hr. apply hd_levels_least. unfold Pandasuse.day_of_week.
    now apply (in_map (fun r => Calendar.dayofweek (Datasetup.date r))).
  - intros c. rewrite pandas_dow_columns, in_map_iff. unfold Pandasuse.retained. split.
    + intros (w & <- & Hw). apply in_tl_levels in Hw. destruct Hw as [Hw Hb].
      apply in_map_iff in Hw. destruct Hw as (r & <- & Hr). now exists r.
    + intros (r & Hr & Hb & ->). eexists. split; [reflexivity|].
      apply in_tl_levels. split; [|exact Hb].
      now apply (in_map (fun r => Calendar.dayofweek (Datasetup.date r))).
Qed.

End WithNum.

Lemma polars_needs_a_monday_witness :
  (Polarsuse.df Examples.tuesday_table = None <->
   forall r, In r Examples.tuesday_table -> Calendar.weekday (Datasetup.date r) <> 1%Z) /\
  (forall f c, Polarsuse.df Examples.tuesday_table = Some f ->
     (In c (Polarsuse.dow_columns f) <->
      exists r, In r Examples.tuesday_table /\
                Calendar.weekday (Datasetup.date r) <> 1%Z /\
                c = dow_name (Calendar.weekday (Datasetup.date r)))).
Proof.
  apply (@polars_needs_a_monday Z Examples.tuesday_table). discriminate.
Defined.

Lemma pandas_baseline_is_first_present_witness :
  In (Pandasuse.baseline Examples.tuesday_table)
     (Pandasuse.day_of_week Examples.tuesday_table) /\
  (forall r, In r Examples.tuesday_table ->
     (Pandasuse.baseline Examples.tuesday_table
        <= Calendar.dayofweek (Datasetup.date r))%Z) /\
  (forall c, In c (Pandasuse.dow_columns Examples.tuesday_table) <->
     exists r, In r Examples.tuesday_table /\
               Calendar.dayofweek (Datasetup.date r)
                 <> Pandasuse.baseline Examples.tuesday_table /\
               c = dow_name (Calendar.dayofweek (Datasetup.date r))).
Proof.
  apply (@pandas_baseline_is_first_present Z Examples.tuesday_table). discriminate.
Defined.

End FrameMore.

(** ** Grouping *)

Lemma flat_map_ext_on (A B : Type) (f g : A -> list B) (l : list A) :
  (forall x, In x l -> f x = g x) -> flat_map f l = flat_map g l.
Proof.
  induction l as [|x l IH]; intros H; cbn [flat_map]; [reflexivity|].
  rewrite (H x) by now left. f_equal. apply IH. intros; apply H; now right.
Qed.

Section GroupFacts.
Variables A K : Type.
Variable eqb : K -> K -> bool.
Hypothesis eqb_eq : forall x y, eqb x y = true <-> x = y.
Variable kf : A -> K.

Lemma eqb_false_of_neq (x y : K) : x <> y -> eqb x y = false.
Proof.
  intros H. destruct (eqb x y) eqn:E; [|reflexivity]. now apply eqb_eq in E.
Qed.

Lemma flat_map_nil_const (B : Type) (ks : list K) : flat_map (fun _ : K => @nil B) ks = [].
Proof. induction ks as [|k ks IH]; simpl; [reflexivity | exact IH]. Qed.

Lemma group_insert (F : K -> list A) (x : A) (ks : list K) :
  NoDup ks -> In (kf x) ks ->
  Permutation (flat_map (fun k => if eqb (kf x) k then x :: F k else F k) ks)
              (x :: flat_map F ks).
Proof.
  induction 1 as [|k ks Hk N IH]; intros Hin; [contradiction|]. cbn [flat_map].
  destruct (eqb (kf x) k) eqn:E.
  - apply eqb_eq in E. subst k. cbn [app]. constructor.
    apply Permutation_app_head. apply Permutation_refl'. apply flat_map_ext_on.
    intros k' Hk'. rewrite eqb_false_of_neq; [reflexivity|].
    intros Ek. apply Hk. now rewrite Ek.
  - destruct Hin as [->|Hin].
    + assert (E' : eqb (kf x) (kf x) = true) by now apply eqb_eq. congruence.
    + rewrite (IH Hin). apply Permutation_sym, Permutation_middle.
Qed.

(** Grouping by key is a partition: the groups of the distinct keys,
    laid end to end, hold every element exactly once. *)
Lemma groups_partition (l : list A) (ks : list K) :
  NoDup ks -> (forall x, In x l -> In (kf x) ks) ->
  Permutation (flat_map (fun k => filter (fun x => eqb (kf x) k) l) ks) l.
Proof.
  intros N. induction l as [|x l IH]; intros Hin.
  - cbn [filter]. now rewrite flat_map_nil_const.
  - cbn [filter]. rewrite group_insert; [|exact N | apply Hin; now left].
    constructor. apply IH. intros; apply Hin; now right.
Qed.

End GroupFacts.

(** ** Sums *)

Section SumFacts.
Variable num : Type.
Variable zero : num.
Variable add : num -> num -> num.
Hypothesis add_0_l : forall v, add zero v = v.
Hypothesis add_comm : forall a b, add a b = add b a.
Hypothesis add_assoc : forall a b c, add a (add b c) = add (add a b) c.

Lemma fold_add_start (l : list num) (a : num) :
  fold_left add l a = add a (fold_left add l zero).
Proof.
  revert a. induction l as [|x l IH]; intros a; cbn [fold_left].
  - now rewrite add_comm, add_0_l.
  - rewrite IH, (IH (add zero x)), add_0_l. symmetry. apply add_assoc.
Qed.

Lemma sum_cons (x : num) (l : list num) :
  Pipeline.sum zero add (x :: l) = add x (Pipeline.sum zero add l).
Proof. unfold Pipeline.sum. cbn [fold_left]. now rewrite add_0_l, fold_add_start. Qed.

Lemma sum_app (l l' : list num) :
  Pipeline.sum zero add (l ++ l')
  = add (Pipeline.sum zero add l) (Pipeline.sum zero add l').
Proof.
  induction l as [|x l IH]; cbn [app].
  - unfold Pipeline.sum at 2. cbn [fold_left]. now rewrite add_0_l.
  - now rewrite !sum_cons, IH, add_assoc.
Qed.

Lemma sum_perm (l l' : list num) :
  Permutation l l' -> Pipeline.sum zero add l = Pipeline.sum zero add l'.
Proof.
  induction 1 as [|x l l' _ IH|x y l|l l' l'' _ IH1 _ IH2].
  - reflexivity.
  - now rewrite !sum_cons, IH.
  - rewrite !sum_cons, !add_assoc. f_equal. apply add_comm.
  - now rewrite IH1.
Qed.

Lemma sum_flat_map (K : Type) (f : K -> list num) (ks : list K) :
  Pipeline.sum zero add (map (fun k => Pipeline.sum zero add (f k)) ks)
  = Pipeline.sum zero add (flat_map f ks).
Proof.
  induction ks as [|k ks IH]; cbn [map flat_map]; [reflexivity|].
  now rewrite sum_cons, sum_app, IH.
Qed.

End SumFacts.

(** ** Aggregation and partitioning as a whole *)

Module AggMore.
Import Pipeline NameFacts LevelFacts FrameFacts OneHotFacts AggFacts ResultFacts.
Import CoefFacts FrameMore.

Lemma length_unique_le (A : Type) (eqb : A -> A -> bool) (l : list A) :
  List.length (unique eqb l) <= List.length l.
Proof.
  induction l as [|x l IH]; cbn [unique List.length]; [lia|].
  pose proof (filter_length_le (fun y => negb (eqb x y)) (unique eqb l)). lia.
Qed.

Lemma length_sort (A : Type) (leb : A -> A -> bool) (l : list A) :
  List.length (sort leb l) = List.length l.
Proof. apply Permutation_length, sort_perm. Qed.

Lemma StronglySorted_map_inv (A B : Type) (R : B -> B -> Prop) (f : A -> B) (l : list A) :
  StronglySorted R (map f l) -> StronglySorted (fun a b => R (f a) (f b)) l.
Proof.
  induction l as [|x l IH]; cbn [map]; intros H; [constructor|].
  inversion H as [|? ? Hl Hx]; subst. constructor; [now apply IH|].
  rewrite Forall_forall in *. intros y Hy. apply Hx. now apply in_map.
Qed.

Section WithNum.
Variable num : Type.
Variable zero : num.
Variable add : num -> num -> num.
Variable hash : Z * Z -> Z.

Lemma pandas_table (table : list (input_row num)) :
  map (@to_prow num) (rows (Pandasuse.df table)) =
  map (product_view (fun d => encode (Pandasuse.retained table) (Calendar.dayofweek d)))
      table.
Proof. rewrite pandas_frame. cbn [rows]. now rewrite map_map. Qed.

Lemma polars_table (table : list (input_row num)) (f : frame num) :
  Polarsuse.df table = Some f ->
  map (@to_prow num) (rows f) =
  map (product_view (fun d => encode (Polarsuse.retained table) (Calendar.weekday d)))
      table.
Proof.
  rewrite polars_frame. destruct (existsb _ _); [|discriminate].
  intros E. injection E as <-. cbn [rows]. now rewrite map_map.
Qed.

Lemma keys_of_view (enc : Z -> dict string Z) (table : list (input_row num)) :
  map (@key_of num) (map (product_view enc) table)
  = map (fun r => (Datasetup.product_id r, Datasetup.date r)) table.
Proof. now rewrite map_map. Qed.

Lemma sales_of_view (enc : Z -> dict string Z) (table : list (input_row num)) :
  map (@sales num) (map (product_view enc) table)
  = map (@Datasetup.synth_sales_data num) table.
Proof. now rewrite map_map. Qed.

(** X7: in pandasuse.py the aggregated frame comes out in increasing
    (product_id, date) order, so every product's regression reads its
    rows in date order; in both scripts the aggregated frame has one row
    per distinct (product_id, date) of the input and never more rows
    than the input. *)
Theorem aggregated_frame_order_and_size (table : list (input_row num)) :
  StronglySorted (fun a b => key_leb (key_of a) (key_of b) = true)
                 (Pandasuse.product_df zero add table) /\
  List.length (Pandasuse.product_df zero add table)
    = List.length (Variants.product_dates table) /\
  List.length (Variants.product_dates table) <= List.length table /\
  (forall f, Polarsuse.df table = Some f ->
     List.length (Polarsuse.product_df zero add hash f)
       = List.length (Variants.product_dates table)).
Proof.
  unfold Variants.product_dates. split; [|split; [|split]].
  - apply (@StronglySorted_map_inv _ _ (fun a b => key_leb a b = true) (@key_of num)).
    unfold Pandasuse.product_df, Pandasuse.groupby_agg.
    rewrite map_key_of_agg. apply sort_sorted; [apply key_leb_total | apply key_leb_trans].
  - unfold Pandasuse.product_df, Pandasuse.groupby_agg.
    now rewrite length_map, length_sort, pandas_table, keys_of_view.
  - etransitivity; [apply length_unique_le|]. now rewrite length_map.
  - intros f Hf. unfold Polarsuse.product_df, Polarsuse.group_by_agg.
    now rewrite length_map, length_sort, (polars_table _ Hf), keys_of_view.
Qed.


Hypothesis add_0_l : forall v, add zero v = v.
Hypothesis add_comm : forall a b, add a b = add b a.
Hypothesis add_assoc : forall a b c, add a (add b c) = add (add a b) c.

Lemma agg_total (cols : list string) (t : list (prow num)) (ks : list (Z * Z)) :
  NoDup ks -> (forall r, In r t -> In (key_of r) ks) ->
  sum zero add (map (@sales num) (map (agg_group zero add cols t) ks))
  = sum zero add (map (@sales num) t).
Proof.
  intros N Hin. rewrite map_map. cbn [agg_group sales].
  rewrite (@sum_flat_map num zero add add_0_l add_comm add_assoc _
             (fun k => map (@sales num) (filter (fun r => key_eqb (key_of r) k) t))).
  rewrite <- map_flat_map_swap.
  apply (@sum_perm num zero add add_0_l add_comm add_assoc), Permutation_map.
  now apply (groups_partition key_eqb key_eqb_eq (@key_of num)).
Qed.

Lemma sorted_keys_cover (leb : Z * Z -> Z * Z -> bool) (t : list (prow num)) :
  NoDup (sort leb (unique key_eqb (map (@key_of num) t))) /\
  forall r, In r t -> In (key_of r) (sort leb (unique key_eqb (map (@key_of num) t))).
Proof.
  split.
  - eapply Permutation_NoDup; [symmetry; apply sort_perm|]. apply NoDup_unique, key_eqb_eq.
  - intros r Hr. apply in_sort, (in_unique key_eqb key_eqb_eq). now apply in_map.
Qed.

(** X8: with exact (associative, commutative) addition, aggregation conserves
    the total: the sales of the aggregated frame add up to the sales of
    the input table, in both scripts. *)
Theorem aggregation_conserves_total_sales (table : list (input_row num)) :
  sum zero add (map (@sales num) (Pandasuse.product_df zero add table))
    = sum zero add (map (@Datasetup.synth_sales_data num) table) /\
  (forall f, Polarsuse.df table = Some f ->
     sum zero add (map (@sales num) (Polarsuse.product_df zero add hash f))
       = sum zero add (map (@Datasetup.synth_sales_data num) table)).
Proof.
  split.
  - unfold Pandasuse.product_df, Pandasuse.groupby_agg.
    rewrite agg_total by apply sorted_keys_cover.
    now rewrite pandas_table, sales_of_view.
  - intros f Hf. unfold Polarsuse.product_df, Polarsuse.group_by_agg.
    rewrite agg_total by apply sorted_keys_cover.
    now rewrite (polars_table _ Hf), sales_of_view.
Qed.

End WithNum.

Lemma aggregation_conserves_total_sales_witness :
  sum 0%Z Z.add (map (@sales Z) (Pandasuse.product_df 0%Z Z.add Examples.table))
    = sum 0%Z Z.add (map (@Datasetup.synth_sales_data Z) Examples.table) /\
  (forall f, Polarsuse.df Examples.table = Some f ->
     sum 0%Z Z.add (map (@sales Z)
                        (Polarsuse.product_df 0%Z Z.add Examples.reverse_hash f))
       = sum 0%Z Z.add (map (@Datasetup.synth_sales_data Z) Examples.table)).
Proof.
  apply (@aggregation_conserves_total_sales Z 0%Z Z.add Examples.reverse_hash
           Z.add_0_l Z.add_comm Z.add_assoc Examples.table).
Defined.

End AggMore.

(** ** The per-product regressions *)

Module FitMore.
Import Pipeline NameFacts LevelFacts FrameFacts OneHotFacts AggFacts ResultFacts.
Import CoefFacts FrameMore AggMore VariantFacts.

Lemma indicator_one_iff (v w : Z) : indicator v w <> 0%Z <-> v = w.
Proof. unfold indicator. destruct (Z.eqb_spec v w); split; (congruence || lia || auto). Qed.

Lemma nonzero_const_indicator (K : Type) (wd : K -> Z) (w : Z) (L : list K) :
  is_nonzero_const (map (fun k => indicator (wd k) w) L) = true <->
  forall k, In k L -> wd k = w.
Proof.
  unfold is_nonzero_const. rewrite andb_true_iff, is_constant_iff, forallb_forall. split.
  - intros [_ H] k Hk. apply indicator_one_iff, Z.eqb_neq, negb_true_iff, H.
    now apply (in_map (fun k => indicator (wd k) w)).
  - intros H. split.
    + intros x y Hx Hy. apply in_map_iff in Hx, Hy.
      destruct Hx as (k & <- & Hk), Hy as (k' & <- & Hk').
      now rewrite (H k Hk), (H k' Hk').
    + intros x Hx. apply in_map_iff in Hx. destruct Hx as (k & <- & Hk).
      apply negb_true_iff, Z.eqb_neq, indicator_one_iff. now apply H.
Qed.

Lemma column_of_vectors (K : Type) (wd : K -> Z) (ls : list Z) (L : list K) (j : nat) (w : Z) :
  nth_error ls j = Some w ->
  column j (map (fun k => map (indicator (wd k)) ls) L)
  = map (fun k => indicator (wd k) w) L.
Proof.
  intros Hj. unfold column. rewrite map_map. apply map_ext. intros k.
  apply nth_error_nth. now rewrite nth_error_map, Hj.
Qed.

(** Some column of one-hot vectors is constant and non-zero exactly when
    all rows fall on one and the same retained weekday. *)
Lemma has_constant_design (K : Type) (wd : K -> Z) (ls : list Z) (L : list K) :
  has_constant (List.length ls) (map (fun k => map (indicator (wd k)) ls) L) = true <->
  exists w, In w ls /\ forall k, In k L -> wd k = w.
Proof.
  unfold has_constant. rewrite existsb_exists. split.
  - intros (j & Hj & Hc). apply in_seq in Hj.
    destruct (nth_error ls j) as [w|] eqn:E; [|apply nth_error_None in E; lia].
    exists w. split; [now apply nth_error_In in E|].
    rewrite (column_of_vectors wd ls L j E) in Hc. now apply nonzero_const_indicator.
  - intros (w & Hw & Hall). apply In_nth_error in Hw. destruct Hw as (j & E).
    exists j. split.
    + apply in_seq. split; [lia|]. apply nth_error_Some. congruence.
    + rewrite (column_of_vectors wd ls L j E). now apply nonzero_const_indicator.
Qed.

Section WithNum.
Variable num : Type.
Variable zero : num.
Variable add : num -> num -> num.
Variable ols_params : list (list Z * num) -> nat -> num.
Variable ols_pvalues : list (list Z * num) -> nat -> num.
Variable hash : Z * Z -> Z.

Lemma pandas_vector (table : list (input_row num)) (d : Z) :
  indicators (map dow_name (Pandasuse.retained table))
             (encode (Pandasuse.retained table) (Calendar.dayofweek d))
  = map (indicator (Calendar.dayofweek d)) (Pandasuse.retained table).
Proof. apply indicators_encode, pandas_retained_range. Qed.

Lemma polars_vector (table : list (input_row num)) (d : Z) :
  indicators (map dow_name (Polarsuse.retained table))
             (encode (Polarsuse.retained table) (Calendar.weekday d))
  = map (indicator (Calendar.weekday d)) (Polarsuse.retained table).
Proof. apply indicators_encode, polars_retained_range. Qed.

(** The design matrix and the response of product [p], one row per
    product-date. *)
Lemma pandas_group_obs (table : list (input_row num)) (p : Z) :
  design (Pandasuse.dow_columns table)
         (filter (fun r => (product_id r =? p)%Z) (Pandasuse.product_df zero add table))
  = map (fun k => map (indicator (Calendar.dayofweek (snd k))) (Pandasuse.retained table))
        (filter (fun k => (fst k =? p)%Z) (sort key_leb (Variants.product_dates table))) /\
  map (@sales num)
      (filter (fun r => (product_id r =? p)%Z) (Pandasuse.product_df zero add table))
  = map (Variants.total_sales zero add table)
        (filter (fun k => (fst k =? p)%Z) (sort key_leb (Variants.product_dates table))).
Proof.
  unfold Pandasuse.product_df, Pandasuse.groupby_agg, Variants.product_dates.
  rewrite pandas_dow_columns, pandas_table, keys_of_view.
  pose proof (@product_obs num zero add table
                (fun d => encode (Pandasuse.retained table) (Calendar.dayofweek d))
                (map dow_name (Pandasuse.retained table))
                (fun d => map (indicator (Calendar.dayofweek d)) (Pandasuse.retained table))
                (pandas_vector table)
                (sort key_leb
                   (unique key_eqb
                      (map (fun r => (Datasetup.product_id r, Datasetup.date r)) table)))
                p) as Ho.
  cbv beta zeta in Ho. apply Ho.
  intros k Hk. rewrite map_map. apply in_sort in Hk.
  exact (proj1 (in_unique key_eqb key_eqb_eq _ k) Hk).
Qed.

Lemma polars_group_obs (table : list (input_row num)) (f : frame num) (p : Z) :
  Polarsuse.df table = Some f ->
  design (Polarsuse.dow_columns f)
         (filter (fun r => (product_id r =? p)%Z) (Polarsuse.product_df zero add hash f))
  = map (fun k => map (indicator (Calendar.weekday (snd k))) (Polarsuse.retained table))
        (filter (fun k => (fst k =? p)%Z)
                (sort (hash_leb hash) (Variants.product_dates table))) /\
  map (@sales num)
      (filter (fun r => (product_id r =? p)%Z) (Polarsuse.product_df zero add hash f))
  = map (Variants.total_sales zero add table)
        (filter (fun k => (fst k =? p)%Z)
                (sort (hash_leb hash) (Variants.product_dates table))).
Proof.
  intros Hf. unfold Polarsuse.product_df, Polarsuse.group_by_agg, Variants.product_dates.
  rewrite (polars_dow_columns _ Hf), (polars_table _ Hf), keys_of_view.
  pose proof (@product_obs num zero add table
                (fun d => encode (Polarsuse.retained table) (Calendar.weekday d))
                (map dow_name (Polarsuse.retained table))
                (fun d => map (indicator (Calendar.weekday d)) (Polarsuse.retained table))
                (polars_vector table)
                (sort (hash_leb hash)
                   (unique key_eqb
                      (map (fun r => (Datasetup.product_id r, Datasetup.date r)) table)))
                p) as Ho.
  cbv beta zeta in Ho. apply Ho.
  intros k Hk. rewrite map_map. apply in_sort in Hk.
  exact (proj1 (in_unique key_eqb key_eqb_eq _ k) Hk).
Qed.

(** The product-dates of [p], in whatever order, are the (product, date)
    pairs of its rows. *)
Lemma product_keys_iff (leb : Z * Z -> Z * Z -> bool) (table : list (input_row num))
      (p : Z) (P : Z -> Prop) :
  (forall k, In k (filter (fun k => (fst k =? p)%Z) (sort leb (Variants.product_dates table)))
             -> P (snd k)) <->
  (forall r, In r table -> Datasetup.product_id r = p -> P (Datasetup.date r)).
Proof.
  unfold Variants.product_dates. split.
  - intros H r Hr Hp. apply (H (Datasetup.product_id r, Datasetup.date r)).
    apply filter_In. split; [|now apply Z.eqb_eq].
    apply in_sort, (in_unique key_eqb key_eqb_eq).
    now apply (in_map (fun r => (Datasetup.product_id r, Datasetup.date r))).
  - intros H k Hk. apply filter_In in Hk. destruct Hk as [Hk Hp].
    apply in_sort in Hk. apply (proj1 (in_unique key_eqb key_eqb_eq _ k)) in Hk.
    apply in_map_iff in Hk. destruct Hk as (r & <- & Hr).
    cbn [fst snd] in *. apply H; [exact Hr | now apply Z.eqb_eq].
Qed.

Lemma StronglySorted_filter (A : Type) (R : A -> A -> Prop) (f : A -> bool) (l : list A) :
  StronglySorted R l -> StronglySorted R (filter f l).
Proof.
  induction 1 as [|x l Hl IH Hx]; cbn [filter]; [constructor|].
  destruct (f x); [|exact IH]. constructor; [exact IH|].
  apply Forall_forall. intros y Hy. apply filter_In in Hy.
  rewrite Forall_forall in Hx. now apply Hx.
Qed.

Lemma dates_increase (p : Z) (L : list (Z * Z)) :
  StronglySorted (fun a b => key_leb a b = true) L -> NoDup L ->
  (forall k, In k L -> fst k = p) ->
  StronglySorted Z.lt (map snd L).
Proof.
  induction 1 as [|x l Hl IH Hx]; intros N Hp; cbn [map]; [constructor|].
  inversion N as [|? ? Hnx N']; subst. constructor.
  - apply IH; [exact N' | intros k Hk; apply Hp; now right].
  - apply Forall_forall. intros d Hd. apply in_map_iff in Hd.
    destruct Hd as (y & <- & Hy). rewrite Forall_forall in Hx.
    specialize (Hx y Hy). unfold key_leb in Hx.
    assert (Ex : fst x = p) by (apply Hp; now left).
    assert (Ey : fst y = p) by (apply Hp; now right).
    assert (Hne : snd x <> snd y).
    { intros E. apply Hnx. destruct x, y. cbn [fst snd] in *. now subst. }
    rewrite Ex, Ey, Z.ltb_irrefl, Z.eqb_refl in Hx. cbn in Hx.
    apply Z.leb_le in Hx. lia.
Qed.

Lemma dates_distinct (p : Z) (L : list (Z * Z)) :
  NoDup L -> (forall k, In k L -> fst k = p) -> NoDup (map snd L).
Proof.
  intros N Hp. apply NoDup_map_in; [|exact N].
  intros x y Hx Hy E. apply Hp in Hx, Hy. destruct x, y. cbn [fst snd] in *. now subst.
Qed.

Lemma product_keys_nodup (leb : Z * Z -> Z * Z -> bool) (table : list (input_row num)) (p : Z) :
  NoDup (filter (fun k => (fst k =? p)%Z) (sort leb (Variants.product_dates table))) /\
  forall k, In k (filter (fun k => (fst k =? p)%Z) (sort leb (Variants.product_dates table)))
            -> fst k = p.
Proof.
  split.
  - apply NoDup_filter. eapply Permutation_NoDup; [symmetry; apply sort_perm|].
    apply NoDup_unique, key_eqb_eq.
  - intros k Hk. apply filter_In in Hk. now apply Z.eqb_eq.
Qed.

(** X11: what each product's regression is fitted on, read off the input
    table: one observation for every date the product occurs on; its
    response is the product's sales on that date summed over the stores
    and its regressors are the indicators of the retained weekdays, with
    the column of ones unless [add_constant] finds a constant column.  In
    pandasuse.py the observations are in strictly increasing date order,
    in polarsuse.py in the order of the hash table, no date twice. *)
Theorem regression_observations (table : list (input_row num)) (p : Z) :
  (let L := filter (fun k => (fst k =? p)%Z) (sort key_leb (Variants.product_dates table)) in
   let X := map (fun k => map (indicator (Calendar.dayofweek (snd k)))
                              (Pandasuse.retained table)) L in
   let obs := combine (add_constant (List.length (Pandasuse.retained table)) X)
                      (map (Variants.total_sales zero add table) L) in
   let model := Pandasuse.fit_product ols_params ols_pvalues (Pandasuse.dow_columns table)
                  (Pandasuse.product_df zero add table) p in
   StronglySorted Z.lt (map snd L) /\
   (forall d, In d (map snd L) <->
              exists r, In r table /\ Datasetup.product_id r = p /\ Datasetup.date r = d) /\
   params model = map (ols_params obs) (seq 0 (List.length (exog_names model))) /\
   pvalues model = map (ols_pvalues obs) (seq 0 (List.length (exog_names model))) /\
   observed model = obs) /\
  (forall f, Polarsuse.df table = Some f ->
   let L := filter (fun k => (fst k =? p)%Z)
                   (sort (hash_leb hash) (Variants.product_dates table)) in
   let X := map (fun k => map (indicator (Calendar.weekday (snd k)))
                              (Polarsuse.retained table)) L in
   let obs := combine (add_constant (List.length (Polarsuse.retained table)) X)
                      (map (Variants.total_sales zero add table) L) in
   let model := Polarsuse.fitted ols_params ols_pvalues (Polarsuse.dow_columns f)
                  (filter (fun r => (product_id r =? p)%Z)
                          (Polarsuse.product_df zero add hash f)) in
   NoDup (map snd L) /\
   (forall d, In d (map snd L) <->
              exists r, In r table /\ Datasetup.product_id r = p /\ Datasetup.date r = d) /\
   params model = map (ols_params obs) (seq 0 (List.length (exog_names model))) /\
   pvalues model = map (ols_pvalues obs) (seq 0 (List.length (exog_names model))) /\
   observed model = obs /\
   (Polarsuse.dow_columns f <> [] -> In p (map (@Datasetup.product_id num) table) ->
    Polarsuse.fit_product ols_params ols_pvalues (Polarsuse.dow_columns f)
      (filter (fun r => (product_id r =? p)%Z) (Polarsuse.product_df zero add hash f))
    = Some model)).
Proof.
  assert (Hdates : forall leb d,
    In d (map snd (filter (fun k => (fst k =? p)%Z) (sort leb (Variants.product_dates table))))
    <-> exists r, In r table /\ Datasetup.product_id r = p /\ Datasetup.date r = d).
  { intros leb d. rewrite in_map_iff. split.
    - intros (k & <- & Hk). apply filter_In in Hk. destruct Hk as [Hk Hp].
      apply in_sort in Hk. apply (proj1 (in_unique key_eqb key_eqb_eq _ k)) in Hk.
      apply in_map_iff in Hk. destruct Hk as (r & <- & Hr). cbn [fst snd] in *.
      exists r. repeat split; [exact Hr | now apply Z.eqb_eq].
    - intros (r & Hr & Hp & Hd).
      exists (Datasetup.product_id r, Datasetup.date r). split; [exact Hd|].
      apply filter_In. split; [|now apply Z.eqb_eq].
      apply in_sort, (in_unique key_eqb key_eqb_eq).
      now apply (in_map (fun r => (Datasetup.product_id r, Datasetup.date r))). }
  split.
  - cbv zeta. destruct (product_keys_nodup key_leb table p) as [N Hp].
    split; [|split; [apply Hdates|]].
    + apply (@dates_increase p _); [|exact N|exact Hp].
      apply StronglySorted_filter, sort_sorted; [apply key_leb_total | apply key_leb_trans].
    + destruct (pandas_group_obs table p) as [HX Hy].
      unfold Pandasuse.fit_product, observed. cbv zeta. unfold add_constant_named.
      cbn [fst snd OLS_fit params pvalues exog_names exog endog].
      rewrite HX, Hy, pandas_dow_columns, length_map. repeat split; reflexivity.
  - intros f Hf. cbv zeta. destruct (product_keys_nodup (hash_leb hash) table p) as [N Hp].
    split; [|split; [apply Hdates|]].
    + now apply (@dates_distinct p _).
    + destruct (polars_group_obs table p Hf) as [HX Hy].
      split; [|split; [|split]].
      * unfold Polarsuse.fitted, Polarsuse.fit_array. cbv zeta.
        cbn [OLS_fit params pvalues exog_names exog endog].
        now rewrite HX, Hy, (polars_dow_columns _ Hf), length_map.
      * unfold Polarsuse.fitted, Polarsuse.fit_array. cbv zeta.
        cbn [OLS_fit params pvalues exog_names exog endog].
        now rewrite HX, Hy, (polars_dow_columns _ Hf), length_map.
      * unfold Polarsuse.fitted, Polarsuse.fit_array, observed. cbv zeta.
        cbn [OLS_fit params pvalues exog_names exog endog].
        now rewrite HX, Hy, (polars_dow_columns _ Hf), length_map.
      * intros Hc Hin. apply fit_product_some; [exact Hc|].
        apply partition_nonempty.
        now apply (proj2 (@polars_product_ids num zero add hash table f p Hf)).
Qed.

(** X12: pandasuse.py fits product [p] without an intercept exactly when all
    dates of [p] fall on one weekday that kept its column (that column is
    then constant, and [add_constant] leaves the data as it is);
    otherwise the model has the parameter [const] in front of the
    weekday columns. *)
Theorem pandas_intercept_criterion (table : list (input_row num)) (p : Z)
        (model : RegressionResults num) :
  In (p, model) (Pandasuse.results zero add ols_params ols_pvalues table) ->
  ((exists w, In w (Pandasuse.retained table) /\
              forall r, In r table -> Datasetup.product_id r = p ->
                        Calendar.dayofweek (Datasetup.date r) = w) ->
   exog_names model = Pandasuse.dow_columns table) /\
  (~ (exists w, In w (Pandasuse.retained table) /\
                forall r, In r table -> Datasetup.product_id r = p ->
                          Calendar.dayofweek (Datasetup.date r) = w) ->
   exog_names model = "const"%string :: Pandasuse.dow_columns table).
Proof.
  intros Hin. rewrite pandas_results in Hin. apply in_map_iff in Hin.
  destruct Hin as (p' & E & _).
  pose proof (f_equal fst E) as E1. pose proof (f_equal snd E) as E2.
  cbn [fst snd] in E1, E2. subst p' model.
  unfold Pandasuse.fit_product. cbv zeta. unfold add_constant_named.
  cbn [fst snd OLS_fit exog_names].
  destruct (pandas_group_obs table p) as [HX _]. rewrite HX.
  rewrite pandas_dow_columns at 1 3. rewrite length_map.
  pose proof (has_constant_design (fun k : Z * Z => Calendar.dayofweek (snd k))
                (Pandasuse.retained table)
                (filter (fun k => (fst k =? p)%Z)
                        (sort key_leb (Variants.product_dates table)))) as Hc.
  cbv beta in Hc.
  assert (Hs : forall w,
    (forall k, In k (filter (fun k => (fst k =? p)%Z)
                            (sort key_leb (Variants.product_dates table))) ->
               Calendar.dayofweek (snd k) = w) <->
    (forall r, In r table -> Datasetup.product_id r = p ->
               Calendar.dayofweek (Datasetup.date r) = w)).
  { intros w. apply (product_keys_iff key_leb table p (fun d => Calendar.dayofweek d = w)). }
  destruct (has_constant _ _) eqn:Eh; split.
  - reflexivity.
  - intros Hn. exfalso. apply Hn. destruct (proj1 Hc eq_refl) as (w & Hw & Hall).
    exists w. split; [exact Hw | now apply Hs].
  - intros (w & Hw & Hall). enough (false = true) by discriminate.
    apply Hc. exists w. split; [exact Hw | now apply Hs].
  - reflexivity.
Qed.

Lemma names_with_intercept (k : nat) (X : list (list Z)) :
  has_constant k X = false ->
  make_exog_names (S k) (add_constant k X) = "const"%string :: xnames 1 k.
Proof.
  intros H. unfold add_constant. rewrite H. unfold make_exog_names.
  cbn [seq find_index].
  assert (Hc : is_constant (column 0 (map (cons 1%Z) X)) = true).
  { apply is_constant_iff. unfold column. rewrite map_map. cbn [nth].
    intros x y Hx Hy. apply in_map_iff in Hx, Hy.
    destruct Hx as (? & <- & _), Hy as (? & <- & _). reflexivity. }
  rewrite Hc. cbv zeta. cbn [firstn skipn app]. f_equal. f_equal. lia.
Qed.

Lemma names_of_equal_rows (K : Type) (v : K -> list Z) (L : list K) (k : nat) :
  0 < k -> (forall a b, In a L -> In b L -> v a = v b) ->
  make_exog_names k (map v L) = "const"%string :: xnames 1 (k - 1).
Proof.
  intros Hk Hv. unfold make_exog_names. destruct k as [|k]; [lia|].
  cbn [seq find_index].
  assert (Hc : is_constant (column 0 (map v L)) = true).
  { apply is_constant_iff. unfold column. rewrite map_map.
    intros x y Hx Hy. apply in_map_iff in Hx, Hy.
    destruct Hx as (a & <- & Ha), Hy as (b & <- & Hb). now rewrite (Hv a b Ha Hb). }
  rewrite Hc. cbv zeta. cbn [firstn skipn app]. reflexivity.
Qed.

Lemma polars_single_iff (table : list (input_row num)) (f : frame num) (p : Z) :
  Polarsuse.df table = Some f ->
  has_constant (List.length (Polarsuse.dow_columns f))
               (design (Polarsuse.dow_columns f)
                       (filter (fun r => (product_id r =? p)%Z)
                               (Polarsuse.product_df zero add hash f))) = true <->
  exists w, In w (Polarsuse.retained table) /\
            forall r, In r table -> Datasetup.product_id r = p ->
                      Calendar.weekday (Datasetup.date r) = w.
Proof.
  intros Hf. destruct (polars_group_obs table p Hf) as [HX _]. rewrite HX.
  rewrite (polars_dow_columns _ Hf), length_map.
  rewrite (has_constant_design (fun k : Z * Z => Calendar.weekday (snd k))).
  split; intros (w & Hw & Hall); exists w; (split; [exact Hw|]).
  - now apply (product_keys_iff (hash_leb hash) table p (fun d => Calendar.weekday d = w)).
  - now apply (product_keys_iff (hash_leb hash) table p (fun d => Calendar.weekday d = w)).
Qed.

Lemma polars_fit_names (table : list (input_row num)) (f : frame num) (p : Z) :
  Polarsuse.df table = Some f ->
  exog_names (Polarsuse.fitted ols_params ols_pvalues (Polarsuse.dow_columns f)
                (filter (fun r => (product_id r =? p)%Z)
                        (Polarsuse.product_df zero add hash f)))
  = "const"%string
      :: xnames 1 (if has_constant (List.length (Polarsuse.dow_columns f))
                        (design (Polarsuse.dow_columns f)
                                (filter (fun r => (product_id r =? p)%Z)
                                        (Polarsuse.product_df zero add hash f)))
                   then List.length (Polarsuse.dow_columns f) - 1
                   else List.length (Polarsuse.dow_columns f)).
Proof.
  intros Hf. unfold Polarsuse.fitted, Polarsuse.fit_array. cbv zeta.
  cbn [OLS_fit exog_names].
  destruct (has_constant _ _) eqn:Eh.
  - unfold add_constant. rewrite Eh.
    destruct (polars_group_obs table p Hf) as [HX _]. rewrite HX in *.
    rewrite (polars_dow_columns _ Hf), length_map in *.
    apply (has_constant_design (fun k : Z * Z => Calendar.weekday (snd k))) in Eh.
    destruct Eh as (w & Hw & Hall).
    apply (@names_of_equal_rows _
             (fun k : Z * Z => map (indicator (Calendar.weekday (snd k)))
                                   (Polarsuse.retained table))).
    + destruct (Polarsuse.retained table); [contradiction | simpl; lia].
    + intros a b Ha Hb. now rewrite (Hall a Ha), (Hall b Hb).
  - now apply names_with_intercept.
Qed.

(** X13: polarsuse.py passes bare arrays, so statsmodels names the
    parameters itself: a stored model has the names [const, x1, ..., xk]
    for the [k] weekday columns of the frame.  When all dates of the
    product fall on one weekday that kept its column no column of ones is
    added, and the names are [const, x1, ..., x(k-1)] all the same. *)
Theorem polars_parameter_names (table : list (input_row num)) (f : frame num)
        (res : dict Z (RegressionResults num)) (p : Z) (model : RegressionResults num) :
  Polarsuse.df table = Some f ->
  Polarsuse.results zero add ols_params ols_pvalues hash f = Some res ->
  In (p, model) res ->
  ((exists w, In w (Polarsuse.retained table) /\
              forall r, In r table -> Datasetup.product_id r = p ->
                        Calendar.weekday (Datasetup.date r) = w) ->
   exog_names model
   = "const"%string :: xnames 1 (List.length (Polarsuse.dow_columns f) - 1)) /\
  (~ (exists w, In w (Polarsuse.retained table) /\
                forall r, In r table -> Datasetup.product_id r = p ->
                          Calendar.weekday (Datasetup.date r) = w) ->
   exog_names model
   = "const"%string :: xnames 1 (List.length (Polarsuse.dow_columns f))).
Proof.
  intros Hf Hres Hin.
  pose proof (@polars_results_inv num zero add ols_params ols_pvalues hash f res
                (p, model) Hres Hin) as Hc.
  pose proof (polars_results zero add ols_params ols_pvalues hash f Hc) as Hr.
  cbv zeta in Hr. rewrite Hr in Hres. clear Hr.
  apply (f_equal (fun o => match o with Some x => x | None => [] end)) in Hres.
  cbv beta iota in Hres. subst res. apply in_map_iff in Hin.
  destruct Hin as (p' & E & _).
  pose proof (f_equal fst E) as E1. pose proof (f_equal snd E) as E2.
  cbn [fst snd] in E1, E2. subst p' model.
  rewrite (polars_fit_names table p Hf).
  pose proof (polars_single_iff table p Hf) as Hs.
  destruct (has_constant _ _); split.
  - reflexivity.
  - intros Hn. exfalso. apply Hn, Hs. reflexivity.
  - intros H. apply Hs in H. discriminate.
  - reflexivity.
Qed.

End WithNum.
Lemma pandas_intercept_criterion_witness :
  exists model,
    In (0%Z, model)
       (Pandasuse.results 0%Z Z.add Examples.ols_moments Examples.ols_ones
          Examples.sparse_table) /\
    ((exists w, In w (Pandasuse.retained Examples.sparse_table) /\
                forall r, In r Examples.sparse_table -> Datasetup.product_id r = 0%Z ->
                          Calendar.dayofweek (Datasetup.date r) = w) ->
     exog_names model = Pandasuse.dow_columns Examples.sparse_table) /\
    (~ (exists w, In w (Pandasuse.retained Examples.sparse_table) /\
                  forall r, In r Examples.sparse_table -> Datasetup.product_id r = 0%Z ->
                            Calendar.dayofweek (Datasetup.date r) = w) ->
     exog_names model = "const"%string :: Pandasuse.dow_columns Examples.sparse_table).
Proof.
  eexists. split.
  - rewrite pandas_results. vm_compute levels. left. reflexivity.
  - apply (@pandas_intercept_criterion Z 0%Z Z.add Examples.ols_moments Examples.ols_ones
             Examples.sparse_table 0%Z).
    rewrite pandas_results. vm_compute levels. left. reflexivity.
Defined.

Lemma polars_parameter_names_witness :
  exists f res model,
    Polarsuse.df Examples.sparse_table = Some f /\
    Polarsuse.results 0%Z Z.add Examples.ols_moments Examples.ols_ones
      Examples.reverse_hash f = Some res /\
    In (1%Z, model) res /\
    ((exists w, In w (Polarsuse.retained Examples.sparse_table) /\
                forall r, In r Examples.sparse_table -> Datasetup.product_id r = 1%Z ->
                          Calendar.weekday (Datasetup.date r) = w) ->
     exog_names model
     = "const"%string :: xnames 1 (List.length (Polarsuse.dow_columns f) - 1)) /\
    (~ (exists w, In w (Polarsuse.retained Examples.sparse_table) /\
                  forall r, In r Examples.sparse_table -> Datasetup.product_id r = 1%Z ->
                            Calendar.weekday (Datasetup.date r) = w) ->
     exog_names model
     = "const"%string :: xnames 1 (List.length (Polarsuse.dow_columns f))).
Proof.
  eexists. eexists. eexists. split; [vm_compute; reflexivity|].
  split; [vm_compute; reflexivity|]. split.
  - right. left. reflexivity.
  - eapply (@polars_parameter_names Z 0%Z Z.add Examples.ols_moments Examples.ols_ones
              Examples.reverse_hash Examples.sparse_table _ _ 1%Z).
    + vm_compute. reflexivity.
    + vm_compute. reflexivity.
    + right. left. reflexivity.
Defined.

End FitMore.


(** ** Aggregated rows and the table of models *)

Module ModelMore.
Import Pipeline NameFacts LevelFacts FrameFacts OneHotFacts AggFacts ResultFacts.
Import CoefFacts FrameMore AggMore VariantFacts FitMore.

Lemma dict_get_tabulate (V : Type) (g : Z -> V) (ks : list Z) (p : Z) :
  dict_get Z.eqb (map (fun k => (k, g k)) ks) p
  = if existsb (Z.eqb p) ks then Some (g p) else None.
Proof.
  induction ks as [|k ks IH]; cbn [map dict_get existsb]; [reflexivity|].
  destruct (Z.eqb_spec p k) as [->|Hne]; [reflexivity | exact IH].
Qed.

Lemma existsb_ext_in (ks ks' : list Z) (p : Z) :
  (In p ks <-> In p ks') -> existsb (Z.eqb p) ks = existsb (Z.eqb p) ks'.
Proof.
  intros H.
  assert (E : forall l, existsb (Z.eqb p) l = true <-> In p l).
  { intros l. rewrite existsb_exists. split.
    - intros (x & Hx & Ex). apply Z.eqb_eq in Ex. now subst.
    - intros Hp. exists p. split; [exact Hp | apply Z.eqb_refl]. }
  destruct (existsb (Z.eqb p) ks) eqn:E1, (existsb (Z.eqb p) ks') eqn:E2; try reflexivity.
  - apply E, H, E in E1. congruence.
  - apply E, H, E in E2. congruence.
Qed.

Section WithNum.
Variable num : Type.
Variable zero : num.
Variable add : num -> num -> num.
Variable ols_params : list (list Z * num) -> nat -> num.
Variable ols_pvalues : list (list Z * num) -> nat -> num.
Variable hash : Z * Z -> Z.

Lemma pandas_one_hot_value (table : list (input_row num)) (x : input_row num) :
  In x table ->
  one_hot_row (map (indicator (Calendar.dayofweek (Datasetup.date x)))
                   (Pandasuse.retained table))
              (Calendar.dayofweek (Datasetup.date x)) (Pandasuse.baseline table).
Proof.
  intros Hx. set (data := Pandasuse.day_of_week table).
  assert (Hv : In (Calendar.dayofweek (Datasetup.date x)) data).
  { unfold data, Pandasuse.day_of_week.
    now apply (in_map (fun r => Calendar.dayofweek (Datasetup.date r))). }
  pose proof (levels_nodup data) as N. apply (in_levels data) in Hv.
  unfold Pandasuse.retained, Pandasuse.baseline. fold data.
  destruct (levels data) as [|b ls]; [contradiction|]. cbn [hd tl].
  inversion N; subst. apply one_hot_core; try assumption.
  destruct Hv as [<-|Hv]; auto.
Qed.

Lemma polars_one_hot_value (table : list (input_row num)) (x : input_row num) :
  In x table ->
  one_hot_row (map (indicator (Calendar.weekday (Datasetup.date x)))
                   (Polarsuse.retained table))
              (Calendar.weekday (Datasetup.date x)) Polarsuse.baseline.
Proof.
  intros Hx. unfold Polarsuse.retained. apply one_hot_core.
  - apply NoDup_filter, levels_nodup.
  - rewrite filter_In. intros [_ H]. now rewrite Z.eqb_refl in H.
  - destruct (Z.eq_dec (Calendar.weekday (Datasetup.date x)) Polarsuse.baseline)
      as [E|E]; [now left | right].
    apply filter_In. split.
    + apply in_levels. unfold Polarsuse.weekdays.
      now apply (in_map (fun r => Calendar.weekday (Datasetup.date r))).
    + apply negb_true_iff, Z.eqb_neq. congruence.
Qed.

(** X9: aggregation keeps the encoding: every row of the product-date frame
    still holds 0 or 1 in each weekday column, at most one 1, and the
    indicators are those of the weekday of the row's own date (they add
    up to 1 exactly when that weekday is not the baseline), in both
    scripts. *)
Theorem aggregated_rows_one_hot (table : list (input_row num)) :
  (forall a, In a (Pandasuse.product_df zero add table) ->
     indicators (Pandasuse.dow_columns table) (dows a)
       = map (indicator (Calendar.dayofweek (date a))) (Pandasuse.retained table) /\
     one_hot_row (indicators (Pandasuse.dow_columns table) (dows a))
                 (Calendar.dayofweek (date a)) (Pandasuse.baseline table)) /\
  (forall f, Polarsuse.df table = Some f ->
     forall a, In a (Polarsuse.product_df zero add hash f) ->
       indicators (Polarsuse.dow_columns f) (dows a)
         = map (indicator (Calendar.weekday (date a))) (Polarsuse.retained table) /\
       one_hot_row (indicators (Polarsuse.dow_columns f) (dows a))
                   (Calendar.weekday (date a)) Polarsuse.baseline).
Proof.
  split.
  - intros a Ha. unfold Pandasuse.product_df, Pandasuse.groupby_agg in Ha.
    rewrite pandas_dow_columns, pandas_table in *.
    apply in_map_iff in Ha. destruct Ha as (k & <- & Hk).
    apply in_sort in Hk. apply (proj1 (in_unique key_eqb key_eqb_eq _ k)) in Hk.
    destruct (@agg_group_obs num zero add table
                (fun d => encode (Pandasuse.retained table) (Calendar.dayofweek d))
                (map dow_name (Pandasuse.retained table))
                (fun d => map (indicator (Calendar.dayofweek d)) (Pandasuse.retained table))
                (pandas_vector table) k Hk) as [Hind _].
    rewrite Hind. cbn [agg_group date]. split; [reflexivity|].
    rewrite keys_of_view in Hk. apply in_map_iff in Hk. destruct Hk as (x & <- & Hx).
    cbn [snd]. now apply pandas_one_hot_value.
  - intros f Hf a Ha. unfold Polarsuse.product_df, Polarsuse.group_by_agg in Ha.
    rewrite (polars_dow_columns _ Hf), (polars_table _ Hf) in *.
    apply in_map_iff in Ha. destruct Ha as (k & <- & Hk).
    apply in_sort in Hk. apply (proj1 (in_unique key_eqb key_eqb_eq _ k)) in Hk.
    destruct (@agg_group_obs num zero add table
                (fun d => encode (Polarsuse.retained table) (Calendar.weekday d))
                (map dow_name (Polarsuse.retained table))
                (fun d => map (indicator (Calendar.weekday d)) (Polarsuse.retained table))
                (polars_vector table) k Hk) as [Hind _].
    rewrite Hind. cbn [agg_group date]. split; [reflexivity|].
    rewrite keys_of_view in Hk. apply in_map_iff in Hk. destruct Hk as (x & <- & Hx).
    cbn [snd]. now apply polars_one_hot_value.
Qed.

(** Once polarsuse.py is past [drop("dow_1")] its table, and so its
    aggregated frame, has a row. *)
Lemma polars_product_df_nonempty (table : list (input_row num)) (f : frame num) :
  Polarsuse.df table = Some f -> Polarsuse.product_df zero add hash f <> [].
Proof.
  intros Hf. pose proof Hf as Hm. rewrite polars_frame in Hm.
  destruct (existsb (Z.eqb 1) (levels (Polarsuse.weekdays table))) eqn:E; [|discriminate].
  clear Hm. apply existsb_exists in E. destruct E as (w & Hw & _).
  apply in_levels, in_map_iff in Hw. destruct Hw as (r & _ & Hr).
  assert (Hp : In (Datasetup.product_id r)
                  (map (@product_id num) (Polarsuse.product_df zero add hash f))).
  { apply (proj2 (@polars_product_ids num zero add hash table f _ Hf)).
    now apply (in_map (@Datasetup.product_id num)). }
  intros E. now rewrite E in Hp.
Qed.

(** X14: looking a product up in [results] returns the model fitted on
    that product's aggregated rows, and nothing for an id that is not in
    the table: no model is overwritten or stored under another product's
    id.  This holds in pandasuse.py, and in polarsuse.py for a frame with
    at least one weekday column; without one (every date a Monday) the
    first turn of the loop of polarsuse.py raises and no model is
    stored. *)
Theorem results_lookup (table : list (input_row num)) (p : Z) :
  dict_get Z.eqb (Pandasuse.results zero add ols_params ols_pvalues table) p
  = (if existsb (Z.eqb p) (map (@Datasetup.product_id num) table)
     then Some (Pandasuse.fit_product ols_params ols_pvalues (Pandasuse.dow_columns table)
                  (Pandasuse.product_df zero add table) p)
     else None) /\
  (forall f, Polarsuse.df table = Some f ->
     (Polarsuse.dow_columns f <> [] ->
      exists res,
        Polarsuse.results zero add ols_params ols_pvalues hash f = Some res /\
        dict_get Z.eqb res p
        = (if existsb (Z.eqb p) (map (@Datasetup.product_id num) table)
           then Polarsuse.fit_product ols_params ols_pvalues (Polarsuse.dow_columns f)
                  (filter (fun r => (product_id r =? p)%Z)
                          (Polarsuse.product_df zero add hash f))
           else None) /\
        (In p (map (@Datasetup.product_id num) table) ->
         exists model, dict_get Z.eqb res p = Some model)) /\
     (Polarsuse.dow_columns f = [] ->
      Polarsuse.results zero add ols_params ols_pvalues hash f = None)).
Proof.
  split.
  - rewrite pandas_results.
    rewrite (dict_get_tabulate
               (fun p => Pandasuse.fit_product ols_params ols_pvalues
                           (Pandasuse.dow_columns table)
                           (Pandasuse.product_df zero add table) p)).
    rewrite (existsb_ext_in (levels (map (@Datasetup.product_id num) table))
                            (map (@Datasetup.product_id num) table) p); [reflexivity|].
    apply in_levels.
  - intros f Hf. split.
    + intros Hc.
      pose proof (polars_results zero add ols_params ols_pvalues hash f Hc) as Hr.
      cbv zeta in Hr. eexists. split; [exact Hr|].
      rewrite (dict_get_tabulate
                 (fun p => Polarsuse.fitted ols_params ols_pvalues
                             (Polarsuse.dow_columns f)
                             (filter (fun r => (product_id r =? p)%Z)
                                     (Polarsuse.product_df zero add hash f)))).
      rewrite (existsb_ext_in
                 (unique Z.eqb (map (@product_id num) (Polarsuse.product_df zero add hash f)))
                 (map (@Datasetup.product_id num) table) p).
      2:{ rewrite (in_unique Z.eqb Z.eqb_eq). now apply polars_product_ids. }
      assert (Hex : forall l, existsb (Z.eqb p) l = true <-> In p l).
      { intros l. rewrite existsb_exists. split.
        - intros (x & Hx & Ex). apply Z.eqb_eq in Ex. now subst.
        - intros Hp. exists p. split; [exact Hp | apply Z.eqb_refl]. }
      destruct (existsb (Z.eqb p) (map (@Datasetup.product_id num) table)) eqn:E.
      * apply Hex in E. split; [|intros _; eauto].
        symmetry. apply fit_product_some; [exact Hc|].
        apply partition_nonempty.
        now apply (proj2 (@polars_product_ids num zero add hash table f p Hf)).
      * split; [reflexivity|]. intros Hin. apply Hex in Hin. congruence.
    + intros Hc. apply polars_results_none; [exact Hc|].
      now apply (polars_product_df_nonempty table).
Qed.

End WithNum.

(** A table whose only date is a Monday: polarsuse.py gets past
    [drop("dow_1")] with no weekday column left, and the first turn of
    its loop raises. *)
Example monday_only_table_raises :
  (exists f, Polarsuse.df Examples.monday_table = Some f /\
             Polarsuse.dow_columns f = [] /\
             Polarsuse.results 0%Z Z.add Examples.ols_moments Examples.ols_ones
               Examples.reverse_hash f = None) /\
  Polarsuse.run 0%Z Z.add Examples.ols_moments Examples.ols_ones
    Examples.reverse_hash Examples.monday_table = None.
Proof.
  split; [eexists; split; [vm_compute; reflexivity|]|]; vm_compute; auto.
Qed.

End ModelMore.

(** ** The columns that are plotted *)

Section UniqueMore.
Variable A : Type.
Variable eqb : A -> A -> bool.
Hypothesis eqb_eq : forall x y, eqb x y = true <-> x = y.

Lemma filter_filter_and (f g : A -> bool) (l : list A) :
  filter f (filter g l) = filter (fun x => g x && f x) l.
Proof.
  induction l as [|x l IH]; cbn [filter]; [reflexivity|].
  destruct (g x); cbn [filter andb]; [|exact IH]. destruct (f x); now rewrite IH.
Qed.

Lemma filter_unique (f : A -> bool) (l : list A) :
  filter f (unique eqb l) = unique eqb (filter f l).
Proof.
  induction l as [|x l IH]; cbn [unique filter]; [reflexivity|].
  destruct (f x) eqn:Fx; cbn [unique].
  - f_equal. rewrite <- IH, !filter_filter_and. apply filter_ext. intros y. apply andb_comm.
  - rewrite <- IH, filter_filter_and. apply filter_ext_in. intros y _.
    destruct (eqb x y) eqn:E; [|reflexivity].
    apply eqb_eq in E. subst y. now rewrite Fx.
Qed.

Lemma unique_app (l1 l2 : list A) :
  unique eqb (l1 ++ l2)
  = unique eqb l1 ++ filter (fun y => negb (existsb (fun x => eqb x y) l1)) (unique eqb l2).
Proof.
  induction l1 as [|x l1 IH]; cbn [app unique existsb].
  - symmetry. apply forallb_filter_id, forallb_forall. reflexivity.
  - f_equal. rewrite IH, filter_app, filter_filter_and. f_equal.
    apply filter_ext. intros y. now rewrite negb_orb, andb_comm.
Qed.

Lemma unique_absorb (l1 l2 : list A) :
  NoDup l1 -> (forall y, In y l2 -> In y l1) -> unique eqb (l1 ++ l2) = l1.
Proof.
  intros N H. rewrite unique_app, (unique_id eqb eqb_eq N).
  rewrite <- (app_nil_r l1) at 2. f_equal. apply filter_none.
  intros y Hy. apply (proj1 (in_unique eqb eqb_eq l2 y)) in Hy.
  apply negb_false_iff, existsb_exists.
  exists y. split; [now apply H | now apply eqb_eq].
Qed.

Lemma unique_concat_const (B : Type) (l : list A) (ps : list B) :
  NoDup l -> ps <> [] -> unique eqb (concat (map (fun _ => l) ps)) = l.
Proof.
  intros N Hps. destruct ps as [|p ps]; [contradiction|]. cbn [map concat].
  apply unique_absorb; [exact N|]. intros y Hy. apply in_concat in Hy.
  destruct Hy as (l' & Hl' & Hy). apply in_map_iff in Hl'. now destruct Hl' as (_ & <- & _).
Qed.

End UniqueMore.

Module PlotMore.
Import Pipeline NameFacts LevelFacts FrameFacts OneHotFacts AggFacts ResultFacts.
Import CoefFacts CoefClaims FrameMore AggMore VariantFacts FitMore.

Lemma p_not_dow (n : string) : String.prefix "dow_" (p_ n) = false.
Proof. reflexivity. Qed.

Lemma filter_dow_names (ls : list Z) :
  filter (String.prefix "dow_") (map dow_name ls) = map dow_name ls.
Proof.
  apply filter_all. intros n Hn. apply in_map_iff in Hn.
  destruct Hn as (l & <- & _). apply dow_name_prefix.
Qed.

Section WithNum.
Variable num : Type.
Variable zero : num.
Variable add : num -> num -> num.
Variable ols_params : list (list Z * num) -> nat -> num.
Variable ols_pvalues : list (list Z * num) -> nat -> num.
Variable hash : Z * Z -> Z.

Lemma pandas_record_dow_keys (table : list (input_row num)) (p : Z) :
  filter (String.prefix "dow_")
         (keys (Pandasuse.coef_record p
                  (Pandasuse.fit_product ols_params ols_pvalues (Pandasuse.dow_columns table)
                     (Pandasuse.product_df zero add table) p)))
  = Pandasuse.dow_columns table.
Proof.
  destruct (pandas_model_names zero add ols_params ols_pvalues table p) as (Hn & N & F).
  cbv zeta in Hn, N, F.
  rewrite coef_record_cells; try assumption; try apply length_params.
  unfold keys. cbn [map fst]. rewrite map_app.
  rewrite !map_fst_combine
    by (rewrite ?length_map; symmetry; apply length_params).
  cbn [filter]. change (String.prefix "dow_" "product_id") with false. cbv iota.
  rewrite filter_app.
  rewrite (filter_none (String.prefix "dow_") (map p_ _)), app_nil_r.
  2:{ intros x Hx. apply in_map_iff in Hx. destruct Hx as (n & <- & _). apply p_not_dow. }
  destruct Hn as [-> | ->].
  - rewrite pandas_dow_columns. apply filter_dow_names.
  - cbn [filter]. change (String.prefix "dow_" "const") with false. cbv iota.
    rewrite pandas_dow_columns. apply filter_dow_names.
Qed.

(** X15: the box plot of pandasuse.py is drawn for exactly the weekday columns
    of the frame, in their order: the intercept, the p-values and
    product_id are never plotted, and no weekday column is missing from
    the coefficient table. *)
Theorem boxplot_shows_weekday_columns (table : list (input_row num)) :
  Pandasuse.boxplot_columns zero add ols_params ols_pvalues table
  = Pandasuse.dow_columns table.
Proof.
  unfold Pandasuse.boxplot_columns, startswith_dow, coef_columns.
  rewrite (filter_unique String.eqb String.eqb_eq), <- concat_filter_map.
  unfold Pandasuse.coef_df. rewrite pandas_results, !map_map. cbn [fst snd].
  rewrite (map_ext _ (fun _ : Z => Pandasuse.dow_columns table))
    by (intros p; apply pandas_record_dow_keys).
  destruct (levels (map (@Datasetup.product_id num) table)) as [|p ps] eqn:E.
  - destruct table as [|r table]; [reflexivity|].
    assert (H : In (Datasetup.product_id r)
                   (levels (map (@Datasetup.product_id num) (r :: table))))
      by (apply in_levels; now left).
    rewrite E in H. contradiction.
  - apply (unique_concat_const String.eqb String.eqb_eq); [|discriminate].
    rewrite pandas_dow_columns.
    apply NoDup_dow_names; [apply pandas_retained_nodup | apply pandas_retained_range].
Qed.

End WithNum.
End PlotMore.

(** ** The weekday columns polarsuse.py plots *)

Module PolarsPlot.
Import Pipeline NameFacts LevelFacts FrameFacts OneHotFacts AggFacts ResultFacts.
Import CoefFacts CoefClaims FrameMore AggMore VariantFacts FitMore.

(** Reading back a number that [str] wrote. *)
Lemma int_str (z : Z) : Polarsuse.int (str z) = Some z.
Proof.
  unfold Polarsuse.int, str. rewrite DecimalString.NilZero.isi.
  - cbn [option_map]. now rewrite DecimalZ.of_to.
  - destruct z; cbn [Z.to_int]; try discriminate.
    intros E. injection E. apply DecimalPos.Unsigned.to_uint_nonnil.
  - destruct z; cbn [Z.to_int]; try discriminate.
    intros E. injection E. apply DecimalPos.Unsigned.to_uint_nonnil.
Qed.

Lemma xname_key (i : nat) :
  Polarsuse.int (Polarsuse.from_1 ("x" ++ str (Z.of_nat i))%string) = Some (Z.of_nat i).
Proof. cbn [append Polarsuse.from_1]. apply int_str. Qed.

Lemma xname_inj (i j : nat) :
  ("x" ++ str (Z.of_nat i))%string = ("x" ++ str (Z.of_nat j))%string -> i = j.
Proof.
  intros E. apply (f_equal (fun s => Polarsuse.int (Polarsuse.from_1 s))) in E.
  rewrite !xname_key in E. injection E. apply Nat2Z.inj.
Qed.

Lemma xname_prefix (s : string) : String.prefix "x" ("x" ++ s) = true.
Proof. cbn. now destruct s. Qed.

Lemma NoDup_xnames (a n : nat) : NoDup (xnames a n).
Proof.
  unfold xnames. apply NoDup_map_in; [|apply seq_NoDup].
  intros x y _ _. apply xname_inj.
Qed.

Lemma in_xnames_iff (a n i : nat) :
  In ("x" ++ str (Z.of_nat i))%string (xnames a n) <-> a <= i < a + n.
Proof.
  unfold xnames. rewrite in_map_iff. split.
  - intros (j & E & Hj). apply xname_inj in E. subst j. now apply in_seq in Hj.
  - intros H. exists i. split; [reflexivity | now apply in_seq].
Qed.

Lemma xnames_app (a n m : nat) : xnames a (n + m) = xnames a n ++ xnames (a + n) m.
Proof. unfold xnames. now rewrite seq_app, map_app. Qed.

Lemma filter_new_names (a m : nat) :
  filter (fun y => negb (existsb (fun x => String.eqb x y) (xnames 1 a))) (xnames 1 m)
  = xnames (1 + a) (m - a).
Proof.
  assert (Hin : forall i, existsb (fun x => String.eqb x ("x" ++ str (Z.of_nat i))%string)
                                  (xnames 1 a) = true <-> 1 <= i < 1 + a).
  { intros i. rewrite <- in_xnames_iff, existsb_exists. split.
    - intros (x & Hx & E). apply String.eqb_eq in E. now subst.
    - intros H. eexists. split; [exact H | apply String.eqb_refl]. }
  destruct (le_lt_dec m a) as [Hle|Hlt].
  - replace (m - a) with 0 by lia. cbn [xnames seq map]. apply filter_none.
    intros y Hy. unfold xnames in Hy. apply in_map_iff in Hy. destruct Hy as (i & <- & Hi).
    apply in_seq in Hi. apply negb_false_iff, Hin. lia.
  - replace m with (a + (m - a)) at 1 by lia. rewrite xnames_app, filter_app.
    rewrite filter_none, filter_all; [reflexivity| |].
    + intros y Hy. unfold xnames in Hy. apply in_map_iff in Hy.
      destruct Hy as (i & <- & Hi). apply in_seq in Hi.
      apply negb_true_iff. destruct (existsb _ _) eqn:E; [|reflexivity].
      apply Hin in E. lia.
    + intros y Hy. unfold xnames in Hy. apply in_map_iff in Hy.
      destruct Hy as (i & <- & Hi). apply in_seq in Hi. apply negb_false_iff, Hin. lia.
Qed.

(** The union, in order of first appearance, of the name lists
    [x1 .. x(n p)] is the longest of them. *)
Lemma unique_xnames (B : Type) (n : B -> nat) (ps : list B) :
  unique String.eqb (concat (map (fun p => xnames 1 (n p)) ps))
  = xnames 1 (list_max (map n ps)).
Proof.
  induction ps as [|p ps IH]; cbn [map concat list_max fold_right]; [reflexivity|].
  rewrite (unique_app String.eqb), IH.
  rewrite (unique_id String.eqb String.eqb_eq (NoDup_xnames 1 (n p))).
  rewrite filter_new_names, <- xnames_app. f_equal.
  fold (list_max (map n ps)). lia.
Qed.

Lemma with_keys_xnames (a m : nat) :
  with_keys (fun x => Polarsuse.int (Polarsuse.from_1 x)) (xnames a m)
  = Some (map (fun i => (Z.of_nat i, ("x" ++ str (Z.of_nat i))%string)) (seq a m)).
Proof.
  revert a. induction m as [|m IH]; intros a; [reflexivity|].
  unfold xnames in *. cbn [seq map with_keys]. now rewrite xname_key, IH.
Qed.

Lemma keyed_sorted (a m : nat) :
  StronglySorted (fun x y : Z * string => (fst x <=? fst y)%Z = true)
                 (map (fun i => (Z.of_nat i, ("x" ++ str (Z.of_nat i))%string)) (seq a m)).
Proof.
  revert a. induction m as [|m IH]; intros a; cbn [seq map]; constructor; [apply IH|].
  apply Forall_forall. intros y Hy. apply in_map_iff in Hy. destruct Hy as (i & <- & Hi).
  apply in_seq in Hi. cbn [fst]. apply Z.leb_le. lia.
Qed.

(** A list of names [x1 .. xm] is already in the order of its numbers. *)
Lemma sorted_xnames (m : nat) :
  sorted (fun x => Polarsuse.int (Polarsuse.from_1 x)) (xnames 1 m) = Some (xnames 1 m).
Proof.
  unfold sorted. rewrite with_keys_xnames. rewrite sort_id by apply keyed_sorted.
  now rewrite map_map.
Qed.

Lemma filter_x_keys (n : nat) :
  filter (String.prefix "x") (("const"%string :: xnames 1 n) ++ ["product_id"%string])
  = xnames 1 n.
Proof.
  cbn [app filter]. change (String.prefix "x" "const") with false. cbv iota.
  rewrite filter_app. cbn [filter].
  change (String.prefix "x" "product_id") with false. cbv iota. rewrite app_nil_r.
  apply filter_all. intros y Hy. unfold xnames in Hy. apply in_map_iff in Hy.
  destruct Hy as (i & <- & _). apply xname_prefix.
Qed.

Lemma list_max_attained (l : list nat) (k : nat) :
  (forall x, In x l -> x <= k) -> In k l -> list_max l = k.
Proof.
  intros Hle Hk. apply Nat.le_antisymm.
  - apply list_max_le, Forall_forall, Hle.
  - assert (H : Forall (fun x => x <= list_max l) l) by now apply list_max_le.
    rewrite Forall_forall in H. now apply H.
Qed.

Lemma dict_get_xnames (V : Type) (rest : dict string V) (n : nat) :
  forall (a : nat) (vals : list V) (i : nat),
    List.length vals = n -> a <= i ->
    dict_get String.eqb (combine (xnames a n) vals ++ rest) ("x" ++ str (Z.of_nat i))%string
    = if i <? a + n then nth_error vals (i - a)
      else dict_get String.eqb rest ("x" ++ str (Z.of_nat i))%string.
Proof.
  induction n as [|n IH]; intros a vals i Hl Ha.
  - destruct vals; [|discriminate]. cbn [xnames seq map combine app].
    destruct (Nat.ltb_spec i (a + 0)); [lia | reflexivity].
  - destruct vals as [|v vals]; [discriminate|].
    change (xnames a (S n)) with (("x" ++ str (Z.of_nat a))%string :: xnames (S a) n).
    cbn [combine app dict_get].
    destruct (String.eqb_spec ("x" ++ str (Z.of_nat i))%string ("x" ++ str (Z.of_nat a))%string) as [E|E].
    + apply xname_inj in E. subst i. rewrite Nat.sub_diag.
      destruct (Nat.ltb_spec a (a + S n)); [reflexivity | lia].
    + assert (Hne : i <> a) by (intros ->; now apply E).
      rewrite IH by (simpl in Hl; lia).
      replace (i - a) with (S (i - S a)) by lia. cbn [nth_error].
      destruct (Nat.ltb_spec i (S a + n)), (Nat.ltb_spec i (a + S n)); try lia; reflexivity.
Qed.

Section WithNum.
Variable num : Type.
Variable zero : num.
Variable add : num -> num -> num.
Variable ols_params : list (list Z * num) -> nat -> num.
Variable ols_pvalues : list (list Z * num) -> nat -> num.
Variable hash : Z * Z -> Z.

(** The cell a row of the coefficient table holds under [x_i]. *)
Lemma param_row_cell (p : Z) (model : RegressionResults num) (n i : nat) :
  exog_names model = "const"%string :: xnames 1 n ->
  List.length (params model) = List.length (exog_names model) ->
  1 <= i ->
  dict_get String.eqb (Polarsuse.param_row p model) ("x" ++ str (Z.of_nat i))%string
  = option_map (@NumCell num) (nth_error (params model) i).
Proof.
  intros En Hl Hi.
  assert (F : Forall x_name (exog_names model)).
  { rewrite En. constructor; [now left|]. apply Forall_forall. intros s Hs.
    now apply (in_xnames 1 n). }
  rewrite (param_row_cells p model F), En. rewrite En in Hl.
  destruct (params model) as [|v0 vals]; [discriminate|].
  cbn [map combine app dict_get]. change (String.eqb ("x" ++ _)%string "const") with false.
  cbv iota.
  assert (Hv : List.length (map (@NumCell num) vals) = n).
  { rewrite length_map. cbn [List.length] in Hl. unfold xnames in Hl.
    rewrite length_map, length_seq in Hl. lia. }
  rewrite (@dict_get_xnames _ [("product_id"%string, IntCell num p)] n 1
             (map (@NumCell num) vals) i Hv Hi).
  destruct i as [|i]; [lia|]. cbn [nth_error]. replace (S i - 1) with i by lia.
  rewrite nth_error_map.
  destruct (Nat.ltb_spec (S i) (1 + n)); [reflexivity|].
  cbn [dict_get]. change (String.eqb ("x" ++ _)%string "product_id") with false. cbv iota.
  assert (E : nth_error vals i = None)
    by (apply nth_error_None; rewrite length_map in Hv; lia).
  now rewrite E.
Qed.

Lemma polars_row_keys (table : list (input_row num)) (f : frame num) (p : Z) :
  Polarsuse.df table = Some f ->
  filter (String.prefix "x")
    (keys (Polarsuse.param_row p
             (Polarsuse.fitted ols_params ols_pvalues (Polarsuse.dow_columns f)
                (filter (fun r => (product_id r =? p)%Z)
                        (Polarsuse.product_df zero add hash f)))))
  = xnames 1 (if has_constant (List.length (Polarsuse.dow_columns f))
                   (design (Polarsuse.dow_columns f)
                           (filter (fun r => (product_id r =? p)%Z)
                                   (Polarsuse.product_df zero add hash f)))
              then List.length (Polarsuse.dow_columns f) - 1
              else List.length (Polarsuse.dow_columns f)).
Proof.
  intros Hf.
  destruct (polars_model_names ols_params ols_pvalues (Polarsuse.dow_columns f)
              (filter (fun r => (product_id r =? p)%Z)
                      (Polarsuse.product_df zero add hash f))) as (F & L & _).
  cbv zeta in F, L. rewrite (param_row_cells p _ F). unfold keys.
  rewrite map_app, map_fst_combine by (rewrite length_map; now symmetry).
  cbn [map fst]. rewrite (polars_fit_names zero add ols_params ols_pvalues hash table p Hf).
  apply filter_x_keys.
Qed.

(** A product with a Monday date always gets the column of ones. *)
Lemma monday_product_has_intercept (table : list (input_row num)) (f : frame num)
      (r : input_row num) :
  Polarsuse.df table = Some f -> In r table -> Calendar.weekday (Datasetup.date r) = 1%Z ->
  has_constant (List.length (Polarsuse.dow_columns f))
               (design (Polarsuse.dow_columns f)
                       (filter (fun a => (product_id a =? Datasetup.product_id r)%Z)
                               (Polarsuse.product_df zero add hash f))) = false.
Proof.
  intros Hf Hr Hm. destruct (has_constant _ _) eqn:E; [|reflexivity].
  apply (polars_single_iff zero add hash table (Datasetup.product_id r) Hf) in E.
  destruct E as (w & Hw & Hall). rewrite (Hall r Hr eq_refl) in Hm. subst w.
  unfold Polarsuse.retained, Polarsuse.baseline in Hw. apply filter_In in Hw.
  destruct Hw as [_ Hw]. discriminate.
Qed.

Lemma monday_row (table : list (input_row num)) (f : frame num) :
  Polarsuse.df table = Some f ->
  exists r, In r table /\ Calendar.weekday (Datasetup.date r) = 1%Z.
Proof.
  rewrite polars_frame.
  destruct (existsb (Z.eqb 1) (levels (Polarsuse.weekdays table))) eqn:E; [|discriminate].
  intros _. apply existsb_exists in E. destruct E as (w & Hw & E).
  apply Z.eqb_eq in E. subst w. apply in_levels, in_map_iff in Hw.
  destruct Hw as (r & Er & Hr). now exists r.
Qed.

(** The coefficient table of a frame with at least one weekday column. *)
Lemma polars_coef_df (f : frame num) :
  Polarsuse.dow_columns f <> [] ->
  Polarsuse.coef_df zero add ols_params ols_pvalues hash f
  = Some (map (fun pm => Polarsuse.param_row (fst pm) (snd pm))
              (map (fun p => (p, Polarsuse.fitted ols_params ols_pvalues
                                   (Polarsuse.dow_columns f)
                                   (filter (fun r => (product_id r =? p)%Z)
                                           (Polarsuse.product_df zero add hash f))))
                   (unique Z.eqb (map (@product_id num)
                                      (Polarsuse.product_df zero add hash f))))).
Proof.
  intros Hc. unfold Polarsuse.coef_df.
  pose proof (polars_results zero add ols_params ols_pvalues hash f Hc) as Hr.
  cbv zeta in Hr. now rewrite Hr.
Qed.

Lemma polars_x_columns (table : list (input_row num)) (f : frame num) :
  Polarsuse.df table = Some f ->
  filter (String.prefix "x")
         (coef_columns
            (map (fun pm => Polarsuse.param_row (fst pm) (snd pm))
                 (map (fun p => (p, Polarsuse.fitted ols_params ols_pvalues
                                      (Polarsuse.dow_columns f)
                                      (filter (fun r => (product_id r =? p)%Z)
                                              (Polarsuse.product_df zero add hash f))))
                      (unique Z.eqb (map (@product_id num)
                                         (Polarsuse.product_df zero add hash f))))))
  = xnames 1 (List.length (Polarsuse.dow_columns f)).
Proof.
  intros Hf. unfold coef_columns.
  rewrite (filter_unique String.eqb String.eqb_eq), <- concat_filter_map.
  rewrite !map_map. cbn [fst snd].
  rewrite (map_ext _ _ (fun p => polars_row_keys table p Hf)).
  rewrite (unique_xnames
             (fun p => if has_constant (List.length (Polarsuse.dow_columns f))
                            (design (Polarsuse.dow_columns f)
                                    (filter (fun r => (product_id r =? p)%Z)
                                            (Polarsuse.product_df zero add hash f)))
                       then List.length (Polarsuse.dow_columns f) - 1
                       else List.length (Polarsuse.dow_columns f))).
  f_equal. apply list_max_attained.
  - intros x Hx. apply in_map_iff in Hx. destruct Hx as (p & <- & _).
    destruct (has_constant _ _); lia.
  - destruct (monday_row table Hf) as (r & Hr & Hm).
    apply in_map_iff. exists (Datasetup.product_id r). split.
    + now rewrite (monday_product_has_intercept table r Hf Hr Hm).
    + apply (in_unique Z.eqb Z.eqb_eq).
      apply (proj2 (@polars_product_ids num zero add hash table f _ Hf)).
      now apply (in_map (@Datasetup.product_id num)).
Qed.

(** X16: when polarsuse.py has at least one weekday column it reaches its
    coefficient table, and the columns it plots are [x1, ..., xk], one
    for each of the [k] weekday columns of the frame and in their order:
    [const] and product_id are left out, no number fails to parse, and
    sorting by number changes nothing. *)
Theorem polars_weekday_cols (table : list (input_row num)) (f : frame num) :
  Polarsuse.df table = Some f -> Polarsuse.dow_columns f <> [] ->
  exists cdf,
    Polarsuse.coef_df zero add ols_params ols_pvalues hash f = Some cdf /\
    Polarsuse.weekday_cols cdf
    = Some (xnames 1 (List.length (Polarsuse.dow_columns f))).
Proof.
  intros Hf Hc. eexists. split; [apply (polars_coef_df f Hc)|].
  unfold Polarsuse.weekday_cols.
  rewrite (polars_x_columns table Hf). apply sorted_xnames.
Qed.

(** X17: the long table behind the box plot of polarsuse.py, for a frame
    with at least one weekday column: column by column [x1, ..., xk],
    one row per fitted product in the order of [results], holding the
    product_id, the name [x_i] and the [i]-th parameter of the product's
    model; the coefficient is missing when the model has no [i]-th
    parameter. *)
Theorem polars_melted_table (table : list (input_row num)) (f : frame num) :
  Polarsuse.df table = Some f -> Polarsuse.dow_columns f <> [] ->
  exists res cdf,
    Polarsuse.results zero add ols_params ols_pvalues hash f = Some res /\
    Polarsuse.coef_df zero add ols_params ols_pvalues hash f = Some cdf /\
    Polarsuse.melted cdf
    = Some (flat_map
              (fun i => map (fun pm => (Some (IntCell num (fst pm)),
                                        ("x" ++ str (Z.of_nat i))%string,
                                        option_map (@NumCell num)
                                                   (nth_error (params (snd pm)) i)))
                            res)
              (seq 1 (List.length (Polarsuse.dow_columns f)))).
Proof.
  intros Hf Hc.
  pose proof (polars_results zero add ols_params ols_pvalues hash f Hc) as Hr.
  cbv zeta in Hr. eexists. eexists. split; [exact Hr|].
  split; [apply (polars_coef_df f Hc)|].
  unfold Polarsuse.melted, Polarsuse.weekday_cols.
  rewrite (polars_x_columns table Hf), sorted_xnames. f_equal.
  unfold Polarsuse.melt, xnames. rewrite flat_map_concat_map, map_map.
  rewrite <- flat_map_concat_map. apply flat_map_ext_on. intros i Hi. apply in_seq in Hi.
  rewrite map_map. apply map_ext_in. intros [p model] Hpm.
  cbn [fst snd]. apply in_map_iff in Hpm.
  destruct Hpm as (p' & E & _).
  pose proof (f_equal fst E) as E1. pose proof (f_equal snd E) as E2.
  cbn [fst snd] in E1, E2. subst p' model.
  destruct (polars_model_names ols_params ols_pvalues (Polarsuse.dow_columns f)
              (filter (fun r => (product_id r =? p)%Z)
                      (Polarsuse.product_df zero add hash f))) as (F & L & _).
  cbv zeta in F, L.
  rewrite (polars_row_product p _ F).
  rewrite (@param_row_cell p _ _ i
             (polars_fit_names zero add ols_params ols_pvalues hash table p Hf) L)
    by lia.
  reflexivity.
Qed.

End WithNum.

Lemma polars_weekday_cols_witness :
  exists f,
    Polarsuse.df Examples.table = Some f /\
    Polarsuse.dow_columns f <> [] /\
    exists cdf,
      Polarsuse.coef_df 0%Z Z.add Examples.ols_moments Examples.ols_ones
        Examples.reverse_hash f = Some cdf /\
      Polarsuse.weekday_cols cdf
      = Some (xnames 1 (List.length (Polarsuse.dow_columns f))).
Proof.
  eexists. split; [vm_compute; reflexivity|]. split; [vm_compute; discriminate|].
  apply (@polars_weekday_cols Z 0%Z Z.add Examples.ols_moments Examples.ols_ones
           Examples.reverse_hash Examples.table).
  - vm_compute. reflexivity.
  - vm_compute. discriminate.
Defined.

Lemma polars_melted_table_witness :
  exists f,
    Polarsuse.df Examples.sparse_table = Some f /\
    Polarsuse.dow_columns f <> [] /\
    exists res cdf,
      Polarsuse.results 0%Z Z.add Examples.ols_moments Examples.ols_ones
        Examples.reverse_hash f = Some res /\
      Polarsuse.coef_df 0%Z Z.add Examples.ols_moments Examples.ols_ones
        Examples.reverse_hash f = Some cdf /\
      Polarsuse.melted cdf
      = Some (flat_map
                (fun i => map (fun pm => (Some (IntCell Z (fst pm)),
                                          ("x" ++ str (Z.of_nat i))%string,
                                          option_map (@NumCell Z)
                                                     (nth_error (params (snd pm)) i)))
                              res)
                (seq 1 (List.length (Polarsuse.dow_columns f)))).
Proof.
  eexists. split; [vm_compute; reflexivity|]. split; [vm_compute; discriminate|].
  apply (@polars_melted_table Z 0%Z Z.add Examples.ols_moments Examples.ols_ones
           Examples.reverse_hash Examples.sparse_table).
  - vm_compute. reflexivity.
  - vm_compute. discriminate.
Defined.

End PolarsPlot.

(** ** From datasetup.py to the two analyses *)

Module EndToEnd.
Import Numpy NumpyFacts NumpyFacts2 Datasetup Pipeline LevelFacts FrameFacts RoundTrip.
Import DatasetupFacts DatasetupMore.

Lemma dayofweek_offset (t : nat) :
  Calendar.dayofweek (start_date + Z.of_nat t) = ((Z.of_nat t + 6) mod 7)%Z.
Proof.
  unfold Calendar.dayofweek. replace start_date with 20240%Z by reflexivity.
  replace (20240 + Z.of_nat t + 3)%Z with (Z.of_nat t + 6 + 2891 * 7)%Z by lia.
  apply Z.mod_add. lia.
Qed.

Lemma in_combine_exists (A B : Type) (l : list A) (l' : list B) (x : A) :
  List.length l = List.length l' -> In x l -> exists y, In (x, y) (combine l l').
Proof.
  revert l'. induction l as [|a l IH]; intros [|b l'] Hl Hx; simpl in *;
    try discriminate; try contradiction.
  destruct Hx as [->|Hx].
  - exists b. now left.
  - destruct (IH l' ltac:(lia) Hx) as (y & Hy). exists y. now right.
Qed.

Section WithNum.
Variable num : Type.

(** The dates of the generated table: the first [N] days from the start
    date, provided there is a store and a product at all. *)
Lemma in_generated_dates (data : npz num) (df : list (row num)) (S_ P_ N_ : nat) :
  datasetup data = Some df ->
  shape (npz_synth_sales_data data) = [S_; P_; N_] ->
  forall d, In d (map (@Datasetup.date num) df) <->
            1 <= S_ /\ 1 <= P_ /\ exists t, t < N_ /\ d = (start_date + Z.of_nat t)%Z.
Proof.
  intros H Hsh d.
  destruct (datasetup_some_inv data H) as (S' & P' & N' & Hsh' & Hsz).
  rewrite Hsh in Hsh'.
  assert (ES : S_ = S') by congruence. assert (EP : P_ = P') by congruence.
  assert (EN : N_ = N') by congruence. subst S' P' N'. clear Hsh'.
  rewrite (datasetup_rows data Hsh Hsz) in H.
  apply (f_equal (fun o => match o with Some x => x | None => [] end)) in H.
  cbv beta iota in H. subst df.
  assert (Hlen : List.length (ndindex [S_; P_; N_])
                 = List.length (ndindex (shape (npz_fitted_line data)))).
  { rewrite !length_ndindex, Hsz. simpl. lia. }
  rewrite map_map. cbn [Datasetup.date]. rewrite in_map_iff. split.
  - intros ([i j] & <- & Hij). apply in_combine_l in Hij. apply in_ndindex3 in Hij.
    destruct Hij as (s & p & t & -> & Hs & Hp & Ht). cbn [fst nth].
    split; [lia|]. split; [lia|]. now exists t.
  - intros (Hs & Hp & t & Ht & ->).
    assert (Hi : In [0; 0; t] (ndindex [S_; P_; N_])) by (apply in_ndindex3_iff; lia).
    destruct (in_combine_exists _ _ _ Hlen Hi) as (j & Hj).
    exists ([0; 0; t], j). split; [reflexivity | exact Hj].
Qed.

(** X3: the table written by datasetup.py, read by the two analyses: its
    first date is a Sunday, so polarsuse.py gets past [drop("dow_1")]
    exactly when the bundle has a store, a product and at least two time
    steps; pandasuse.py then has Monday as its baseline as well; and from
    seven time steps on every weekday occurs in the table. *)
Theorem generated_table_weekdays (data : npz num) (df : list (row num)) (S_ P_ N_ : nat) :
  datasetup data = Some df ->
  shape (npz_synth_sales_data data) = [S_; P_; N_] ->
  ((exists f, Polarsuse.df df = Some f) <-> 1 <= S_ /\ 1 <= P_ /\ 2 <= N_) /\
  (1 <= S_ -> 1 <= P_ -> 2 <= N_ -> Pandasuse.baseline df = 0%Z) /\
  (1 <= S_ -> 1 <= P_ -> 7 <= N_ -> Variants.covers_week df).
Proof.
  intros H Hsh. pose proof (in_generated_dates data H Hsh) as Hd.
  assert (Hday : forall t, 1 <= S_ -> 1 <= P_ -> t < N_ ->
            In (Calendar.dayofweek (start_date + Z.of_nat t)) (Pandasuse.day_of_week df)).
  { intros t Hs Hp Ht.
    assert (Hin : In (start_date + Z.of_nat t)%Z (map (@Datasetup.date num) df))
      by (apply Hd; split; [lia|]; split; [lia|]; now exists t).
    apply in_map_iff in Hin. destruct Hin as (r & Er & Hr).
    unfold Pandasuse.day_of_week. apply in_map_iff. exists r. split; [|exact Hr].
    now rewrite Er. }
  split; [|split].
  - rewrite polars_frame.
    destruct (existsb (Z.eqb 1) (levels (Polarsuse.weekdays df))) eqn:E.
    + split; [intros _ | intros _; eauto].
      apply existsb_exists in E. destruct E as (w & Hw & E). apply Z.eqb_eq in E. subst w.
      apply in_levels, in_map_iff in Hw. destruct Hw as (r & Er & Hr).
      assert (Hin : In (Datasetup.date r) (map (@Datasetup.date num) df)) by now apply in_map.
      apply Hd in Hin. destruct Hin as (Hs & Hp & t & Ht & Et).
      split; [exact Hs|]. split; [exact Hp|].
      unfold Calendar.weekday in Er. rewrite Et, dayofweek_offset in Er.
      destruct t as [|t]; [discriminate Er | lia].
    + split; [intros (f & Hf); discriminate|]. intros (Hs & Hp & Hn). exfalso.
      assert (E' : existsb (Z.eqb 1) (levels (Polarsuse.weekdays df)) = true); [|congruence].
      apply existsb_exists. exists 1%Z. split; [|reflexivity]. apply in_levels.
      pose proof (Hday 1 Hs Hp ltac:(lia)) as H1.
      unfold Pandasuse.day_of_week in H1. apply in_map_iff in H1.
      destruct H1 as (r & Er & Hr). unfold Polarsuse.weekdays. apply in_map_iff.
      exists r. split; [|exact Hr]. unfold Calendar.weekday. rewrite Er. reflexivity.
  - intros Hs Hp Hn. unfold Pandasuse.baseline.
    pose proof (Hday 1 Hs Hp ltac:(lia)) as H1.
    change (Calendar.dayofweek (start_date + Z.of_nat 1)) with 0%Z in H1.
    pose proof (hd_levels_least _ _ H1) as Hle.
    assert (Hne : Pandasuse.day_of_week df <> []) by (intros E; now rewrite E in H1).
    pose proof (hd_levels_in Hne) as Hin. unfold Pandasuse.day_of_week in Hin at 2.
    apply in_map_iff in Hin. destruct Hin as (r & Er & _).
    pose proof (dayofweek_range (Datasetup.date r)). lia.
  - intros Hs Hp Hn w Hw.
    assert (E : (w = 0 \/ w = 1 \/ w = 2 \/ w = 3 \/ w = 4 \/ w = 5 \/ w = 6)%Z) by lia.
    destruct E as [->|[->|[->|[->|[->|[->| ->]]]]]].
    + apply (Hday 1 Hs Hp). lia.
    + apply (Hday 2 Hs Hp). lia.
    + apply (Hday 3 Hs Hp). lia.
    + apply (Hday 4 Hs Hp). lia.
    + apply (Hday 5 Hs Hp). lia.
    + apply (Hday 6 Hs Hp). lia.
    + apply (Hday 0 Hs Hp). lia.
Qed.

End WithNum.

Lemma generated_table_weekdays_witness :
  ((exists f, Polarsuse.df Examples.fortnight_table = Some f) <-> 1 <= 2 /\ 1 <= 2 /\ 2 <= 14) /\
  (1 <= 2 -> 1 <= 2 -> 2 <= 14 -> Pandasuse.baseline Examples.fortnight_table = 0%Z) /\
  (1 <= 2 -> 1 <= 2 -> 7 <= 14 -> Variants.covers_week Examples.fortnight_table).
Proof.
  apply (@generated_table_weekdays Z Examples.fortnight Examples.fortnight_table 2 2 14).
  - vm_compute. reflexivity.
  - reflexivity.
Defined.

End EndToEnd.

(** ** The two variants on tables that need not cover the week *)

Module VariantsMore.
Import Pipeline NameFacts LevelFacts FrameFacts OneHotFacts AggFacts ResultFacts.
Import CoefFacts VariantFacts FitMore.

Lemma StronglySorted_map_mono (A B : Type) (R : A -> A -> Prop) (R' : B -> B -> Prop)
      (g : A -> B) (l : list A) :
  (forall x y, R x y -> R' (g x) (g y)) ->
  StronglySorted R l -> StronglySorted R' (map g l).
Proof.
  intros Hg. induction 1 as [|x l Hl IH Hx]; cbn [map]; constructor; [exact IH|].
  rewrite Forall_forall in *. intros y Hy. apply in_map_iff in Hy.
  destruct Hy as (z & <- & Hz). now apply Hg, Hx.
Qed.

(** Numbering the weekdays from 1 instead of 0 shifts the levels. *)
Lemma levels_shift (data : list Z) :
  levels (map (fun l => l + 1)%Z data) = map (fun l => l + 1)%Z (levels data).
Proof.
  apply levels_eq.
  - apply (StronglySorted_map_mono (R := fun x y => (x <=? y)%Z = true));
      [|apply levels_sorted].
    intros x y H. apply Z.leb_le in H. apply Z.leb_le. lia.
  - apply NoDup_map_in; [|apply levels_nodup]. intros x y _ _ E. lia.
  - intros z. rewrite !in_map_iff. split; intros (x & E & Hx); exists x; (split; [exact E|]).
    + exact (proj2 (in_levels data x) Hx).
    + exact (proj1 (in_levels data x) Hx).
Qed.

Section WithNum.
Variable num : Type.
Variable zero : num.
Variable add : num -> num -> num.
Variable ols_params : list (list Z * num) -> nat -> num.
Variable ols_pvalues : list (list Z * num) -> nat -> num.
Variable hash : Z * Z -> Z.

Lemma weekdays_shift (table : list (input_row num)) :
  Polarsuse.weekdays table = map (fun l => l + 1)%Z (Pandasuse.day_of_week table).
Proof. unfold Polarsuse.weekdays, Pandasuse.day_of_week. now rewrite map_map. Qed.

Section Monday.
Variable table : list (input_row num).
Hypothesis Hmonday : exists r, In r table /\ Calendar.dayofweek (Datasetup.date r) = 0%Z.

Lemma pandas_levels_monday :
  levels (Pandasuse.day_of_week table) = 0%Z :: Pandasuse.retained table.
Proof.
  destruct Hmonday as (r & Hr & Hm).
  assert (H0 : In 0%Z (Pandasuse.day_of_week table)).
  { unfold Pandasuse.day_of_week. apply in_map_iff. now exists r. }
  pose proof (hd_levels_least _ _ H0) as Hle.
  assert (Hne : Pandasuse.day_of_week table <> []) by (intros E; now rewrite E in H0).
  pose proof (hd_levels_in Hne) as Hin. unfold Pandasuse.day_of_week in Hin at 2.
  apply in_map_iff in Hin. destruct Hin as (r' & Er & _).
  pose proof (dayofweek_range (Datasetup.date r')) as Hrg.
  unfold Pandasuse.retained.
  apply (proj2 (in_levels _ 0%Z)) in H0.
  destruct (levels (Pandasuse.day_of_week table)) as [|b ls]; [contradiction|].
  cbn [hd tl] in *. f_equal. lia.
Qed.

Lemma pandas_baseline_monday : Pandasuse.baseline table = 0%Z.
Proof. unfold Pandasuse.baseline. now rewrite pandas_levels_monday. Qed.

Lemma polars_retained_monday :
  Polarsuse.retained table = map (fun l => l + 1)%Z (Pandasuse.retained table).
Proof.
  unfold Polarsuse.retained, Polarsuse.baseline.
  rewrite weekdays_shift, levels_shift, pandas_levels_monday. cbn [map filter].
  change (negb (1 =? 0 + 1)%Z) with false. cbv iota.
  apply filter_all. intros y Hy. apply in_map_iff in Hy. destruct Hy as (l & <- & Hl).
  pose proof (levels_nodup (Pandasuse.day_of_week table)) as N.
  rewrite pandas_levels_monday in N. inversion N as [|? ? H0 _]; subst.
  apply negb_true_iff, Z.eqb_neq. intros E. apply H0.
  replace 0%Z with l by lia. exact Hl.
Qed.

Lemma polars_df_monday : exists f, Polarsuse.df table = Some f.
Proof.
  rewrite polars_frame.
  assert (E : existsb (Z.eqb 1) (levels (Polarsuse.weekdays table)) = true).
  { rewrite weekdays_shift, levels_shift, pandas_levels_monday. reflexivity. }
  rewrite E. eauto.
Qed.

Lemma polars_vector_monday (k : Z * Z) :
  map (indicator (Calendar.weekday (snd k))) (Polarsuse.retained table)
  = map (indicator (Calendar.dayofweek (snd k))) (Pandasuse.retained table).
Proof.
  rewrite polars_retained_monday, map_map. apply map_ext. intros l.
  apply indicator_shift.
Qed.

Lemma polars_columns_monday :
  (exists r, In r table /\ Calendar.dayofweek (Datasetup.date r) <> 0%Z) ->
  Pandasuse.retained table <> [].
Proof.
  intros (r & Hr & Hne).
  assert (Hin : In (Calendar.dayofweek (Datasetup.date r))
                   (levels (Pandasuse.day_of_week table))).
  { apply in_levels. unfold Pandasuse.day_of_week.
    now apply (in_map (fun r => Calendar.dayofweek (Datasetup.date r))). }
  rewrite pandas_levels_monday in Hin. destruct Hin as [E|Hin]; [congruence|].
  intros E. now rewrite E in Hin.
Qed.

(** What the model of product [p] was fitted on, in polarsuse.py, in
    terms of pandas' weekday numbers. *)
Lemma polars_model_monday (f : frame num) (p : Z) :
  Polarsuse.df table = Some f ->
  let model := Polarsuse.fitted ols_params ols_pvalues (Polarsuse.dow_columns f)
                 (filter (fun r => (product_id r =? p)%Z)
                         (Polarsuse.product_df zero add hash f)) in
  let k := List.length (Pandasuse.retained table) in
  let L := filter (fun k => (fst k =? p)%Z)
                  (sort (hash_leb hash) (Variants.product_dates table)) in
  let X := map (fun k : Z * Z => map (indicator (Calendar.dayofweek (snd k)))
                                     (Pandasuse.retained table)) L in
  let obs := combine (add_constant k X) (map (Variants.total_sales zero add table) L) in
  observed model = obs /\
  List.length (exog_names model) = (if has_constant k X then k else S k) /\
  params model = map (ols_params obs) (seq 0 (if has_constant k X then k else S k)).
Proof.
  intros Hf. cbv zeta.
  destruct (polars_group_obs zero add hash table p Hf) as [HX Hy].
  unfold Polarsuse.fitted, Polarsuse.fit_array, observed. cbv zeta.
  cbn [OLS_fit params exog_names exog endog].
  rewrite HX, Hy, length_make_exog_names.
  rewrite (map_ext _ _ polars_vector_monday).
  rewrite (polars_dow_columns _ Hf), polars_retained_monday, !length_map.
  repeat split; reflexivity.
Qed.

End Monday.

(** What the model of product [p] was fitted on, in pandasuse.py. *)
Lemma pandas_model_obs (table : list (input_row num)) (p : Z) :
  let model := Pandasuse.fit_product ols_params ols_pvalues (Pandasuse.dow_columns table)
                 (Pandasuse.product_df zero add table) p in
  let k := List.length (Pandasuse.retained table) in
  let L := filter (fun k => (fst k =? p)%Z) (sort key_leb (Variants.product_dates table)) in
  let X := map (fun k : Z * Z => map (indicator (Calendar.dayofweek (snd k)))
                                     (Pandasuse.retained table)) L in
  let obs := combine (add_constant k X) (map (Variants.total_sales zero add table) L) in
  observed model = obs /\
  List.length (exog_names model) = (if has_constant k X then k else S k) /\
  params model = map (ols_params obs) (seq 0 (if has_constant k X then k else S k)).
Proof.
  cbv zeta. destruct (pandas_group_obs zero add table p) as [HX Hy].
  unfold Pandasuse.fit_product, observed. cbv zeta. unfold add_constant_named.
  cbn [fst snd OLS_fit params exog_names exog endog].
  rewrite HX, Hy, pandas_dow_columns, !length_map.
  destruct (has_constant _ _); cbn [List.length]; rewrite ?length_map;
    repeat split; reflexivity.
Qed.

(** X18: the two scripts agree on every table in which some date is a
    Monday and some date is not, whether or not all weekdays occur:
    polarsuse.py reaches its models, Monday is the baseline of both, the
    weekday columns correspond one to one (pandas' [dow_l] is polars'
    [dow_(l+1)]), the same products are fitted, and the two models of a
    product are fitted on the same observations up to the order of the
    rows, with the same number of parameters; an estimator that does not
    depend on the order of its observations gives the same parameter
    vector in both. *)
Theorem variants_agree_given_monday (table : list (input_row num)) :
  (exists r, In r table /\ Calendar.dayofweek (Datasetup.date r) = 0%Z) ->
  (exists r, In r table /\ Calendar.dayofweek (Datasetup.date r) <> 0%Z) ->
  exists f res,
    Polarsuse.df table = Some f /\
    Polarsuse.results zero add ols_params ols_pvalues hash f = Some res /\
    Pandasuse.baseline table = 0%Z /\
    Pandasuse.dow_columns table = map dow_name (Pandasuse.retained table) /\
    Polarsuse.dow_columns f
      = map (fun l => dow_name (l + 1)) (Pandasuse.retained table) /\
    Permutation (keys (Pandasuse.results zero add ols_params ols_pvalues table))
                (keys res) /\
    forall p ma mb,
      In (p, ma) (Pandasuse.results zero add ols_params ols_pvalues table) ->
      In (p, mb) res ->
      Permutation (observed ma) (observed mb) /\
      List.length (exog_names ma) = List.length (exog_names mb) /\
      (order_independent ols_params -> params ma = params mb).
Proof.
  intros Hm Hother. destruct (@polars_df_monday table Hm) as (f & Hf).
  assert (Ecols : Polarsuse.dow_columns f
                  = map (fun l => dow_name (l + 1)) (Pandasuse.retained table))
    by now rewrite (polars_dow_columns _ Hf), (@polars_retained_monday table Hm), map_map.
  assert (Hc : Polarsuse.dow_columns f <> []).
  { rewrite Ecols. pose proof (@polars_columns_monday table Hm Hother) as Hr.
    destruct (Pandasuse.retained table); [contradiction | discriminate]. }
  pose proof (polars_results zero add ols_params ols_pvalues hash f Hc) as Hr.
  cbv zeta in Hr. exists f. eexists.
  split; [exact Hf|]. split; [exact Hr|].
  split; [apply (@pandas_baseline_monday table Hm)|].
  split; [apply pandas_dow_columns|]. split; [exact Ecols|].
  rewrite pandas_results.
  unfold keys. rewrite !map_map. cbn [fst]. rewrite !map_id. split.
  - apply NoDup_Permutation; [apply levels_nodup | apply NoDup_unique, Z.eqb_eq |].
    intros p. rewrite in_levels, (in_unique Z.eqb Z.eqb_eq). symmetry.
    now apply polars_product_ids.
  - intros p ma mb Ha Hb. apply in_map_iff in Ha, Hb.
    destruct Ha as (pa & Ea & _), Hb as (pb & Eb & _).
    pose proof (f_equal fst Ea) as Ea1. pose proof (f_equal snd Ea) as Ea2.
    pose proof (f_equal fst Eb) as Eb1. pose proof (f_equal snd Eb) as Eb2.
    cbn [fst snd] in Ea1, Ea2, Eb1, Eb2. subst pa pb ma mb.
    destruct (pandas_model_obs table p) as (Oa & Na & Pa).
    destruct (@polars_model_monday table Hm f p Hf) as (Ob & Nb & Pb).
    cbv zeta in Oa, Na, Pa, Ob, Nb, Pb.
    assert (P : Permutation
                  (filter (fun k => (fst k =? p)%Z)
                          (sort key_leb (Variants.product_dates table)))
                  (filter (fun k => (fst k =? p)%Z)
                          (sort (hash_leb hash) (Variants.product_dates table)))).
    { apply Permutation_filter_compat. transitivity (Variants.product_dates table);
        [apply sort_perm | symmetry; apply sort_perm]. }
    destruct (obs_perm
                (fun k : Z * Z => map (indicator (Calendar.dayofweek (snd k)))
                                      (Pandasuse.retained table))
                (Variants.total_sales zero add table)
                (List.length (Pandasuse.retained table)) P) as [Hh Ho].
    split; [|split].
    + rewrite Oa, Ob. exact Ho.
    + rewrite Na, Nb, Hh. reflexivity.
    + intros Hoi. rewrite Pa, Pb, <- Hh. apply map_ext. intros j. now apply Hoi.
Qed.

End WithNum.

Lemma variants_agree_given_monday_witness :
  exists f res,
    Polarsuse.df Examples.sparse_table = Some f /\
    Polarsuse.results 0%Z Z.add Examples.ols_moments Examples.ols_ones
      Examples.reverse_hash f = Some res /\
    Pandasuse.baseline Examples.sparse_table = 0%Z /\
    Pandasuse.dow_columns Examples.sparse_table
      = map dow_name (Pandasuse.retained Examples.sparse_table) /\
    Polarsuse.dow_columns f
      = map (fun l => dow_name (l + 1)) (Pandasuse.retained Examples.sparse_table) /\
    Permutation (keys (Pandasuse.results 0%Z Z.add Examples.ols_moments Examples.ols_ones
                         Examples.sparse_table))
                (keys res) /\
    forall p ma mb,
      In (p, ma) (Pandasuse.results 0%Z Z.add Examples.ols_moments Examples.ols_ones
                    Examples.sparse_table) ->
      In (p, mb) res ->
      Permutation (observed ma) (observed mb) /\
      List.length (exog_names ma) = List.length (exog_names mb) /\
      (order_independent Examples.ols_moments -> params ma = params mb).
Proof.
  apply (@variants_agree_given_monday Z 0%Z Z.add Examples.ols_moments Examples.ols_ones
           Examples.reverse_hash Examples.sparse_table).
  - exists (Datasetup.mk_row 0 0 20241 7 7)%Z. split; [simpl; auto | reflexivity].
  - exists (Datasetup.mk_row 0 0 20242 6 6)%Z. split; [simpl; auto | discriminate].
Defined.

End VariantsMore.
